(** * Digital-humanities skills: a shallow embedding of the Python sources

    The development follows the layout of the repository:

    - [Py]: the fragment of Python the scripts rely on (strings as sequences
      of code points, JSON-like values, dictionaries in insertion order,
      exceptions, [range], slices);
    - [IO]: a small state-and-exception monad for the code that reads the
      clock, prints, or touches the file system;
    - [DigitalHumanities]: [scripts/digital_humanities.py];
    - [BatchProcessor]: [scripts/batch_processor.py];
    - [Nx]: the part of [networkx.Graph] the scripts use;
    - [NetworkAnalysis]: [digital-humanities-historical-research/scripts/network_analysis.py];
    - [CulturalAnalyzer]: [.../cultural_data_analysis/cultural_analyzer.py];
    - [ImageAnalyzer]: [.../digital_image_processing/image_analyzer.py];
    - [Demo]: a small file system, tagger and libraries to run the above on.

    What the operating system and the third-party libraries (NLTK, NetworkX,
    pandas, scikit-learn, OpenCV) answer is a parameter of the definitions
    that depend on it.  Definitions come first, the theorems about them
    afterwards. *)

From Stdlib Require Import ZArith String Ascii Floats DecimalString.
From stdpp Require Import base list gmap.

Local Open Scope Z_scope.
Set Warnings "-register-all,-inexact-float".

(* ===================================================================== *)
(** * Part I: definitions                                                 *)
(* ===================================================================== *)

(** ** The Python fragment *)

Module Py.

(** A Python [str] is a sequence of Unicode code points. *)
Definition char := N.
Definition pystr := list char.

(** String literals of the sources are written as UTF-8 literals and decoded
    to code points, so that [len] and slicing count characters, not bytes. *)
Fixpoint utf8_decode (bs : list N) : pystr :=
  match bs with
  | [] => []
  | b0 :: r0 =>
    if (b0 <? 128)%N then b0 :: utf8_decode r0 else
    match r0 with
    | [] => []
    | b1 :: r1 =>
      if (b0 <? 224)%N then ((b0 mod 32) * 64 + b1 mod 64)%N :: utf8_decode r1 else
      match r1 with
      | [] => []
      | b2 :: r2 =>
        if (b0 <? 240)%N
        then ((b0 mod 16) * 4096 + (b1 mod 64) * 64 + b2 mod 64)%N :: utf8_decode r2
        else
        match r2 with
        | [] => []
        | b3 :: r3 =>
          ((b0 mod 8) * 262144 + (b1 mod 64) * 4096 + (b2 mod 64) * 64 + b3 mod 64)%N
            :: utf8_decode r3
        end
      end
    end
  end.

Definition u (s : string) : pystr :=
  utf8_decode (map N_of_ascii (list_ascii_of_string s)).
Arguments u s%_string.

(** [str(n)] for an integer. *)
Definition str_of_Z (z : Z) : pystr :=
  u (NilZero.string_of_int (Z.to_int z)).

(** [s * n] for a string and a count. *)
Definition str_repeat (s : pystr) (n : nat) : pystr := concat (replicate n s).

(** [s.startswith(p)]. *)
Fixpoint startswith (s p : pystr) {struct p} : bool :=
  match p, s with
  | [], _ => true
  | _ :: _, [] => false
  | c :: p', d :: s' => if decide (c = d) then startswith s' p' else false
  end.

(** [s.endswith(p)]. *)
Definition endswith (s p : pystr) : bool := startswith (reverse s) (reverse p).

(** [k in d] for two strings: [k] occurs in [d] as a contiguous substring. *)
Fixpoint str_in (k d : pystr) : bool :=
  startswith d k ||
  match d with
  | [] => false
  | _ :: d' => str_in k d'
  end.

(** [a > b] on strings: lexicographic order on code points. *)
Fixpoint str_gt (a b : pystr) : bool :=
  match a, b with
  | [], _ => false
  | _ :: _, [] => true
  | x :: a', y :: b' =>
    if (y <? x)%N then true else if (x <? y)%N then false else str_gt a' b'
  end.

(** Exceptions: the class and the message [str(e)] gives. *)
Inductive exn_class :=
| TypeError | ValueError | KeyError | AttributeError | OSError
| UnicodeDecodeError | Exception_.

Record exn := Exn { exn_cls : exn_class; exn_msg : pystr }.

(** A computation that returns or raises. *)
Inductive outcome (A : Type) :=
| Ret (a : A)
| Raise (e : exn).
Arguments Ret {A} a.
Arguments Raise {A} e.

Definition obind {A B} (m : outcome A) (k : A -> outcome B) : outcome B :=
  match m with
  | Ret a => k a
  | Raise e => Raise e
  end.

Declare Scope py_scope.
Delimit Scope py_scope with py.
Notation "x <- e ;; k" := (obind e (fun x => k))
  (at level 100, e at next level, right associativity) : py_scope.

(** JSON-like Python values.  Dictionaries have string keys and keep their
    insertion order. *)
Inductive pyval :=
| VNone
| VBool (b : bool)
| VInt (z : Z)
| VFloat (f : float)
| VStr (s : pystr)
| VList (l : list pyval)
| VDict (d : list (pystr * pyval)).

Definition pydict := list (pystr * pyval).

(** [k in d] for a dictionary.  The dictionaries of the sources that are not
    JSON-like (counters keyed by tuples, dispatch tables) use the same
    operations at other key and value types. *)
Fixpoint dict_has `{EqDecision K} {V} (k : K) (d : list (K * V)) : bool :=
  match d with
  | [] => false
  | (k', _) :: d' => if decide (k' = k) then true else dict_has k d'
  end.

(** [d.get(k)]. *)
Fixpoint dict_get `{EqDecision K} {V} (k : K) (d : list (K * V)) : option V :=
  match d with
  | [] => None
  | (k', v) :: d' => if decide (k' = k) then Some v else dict_get k d'
  end.

(** [d[k] = v]: an existing key keeps its position, a new key goes last. *)
Fixpoint dict_set `{EqDecision K} {V} (k : K) (v : V) (d : list (K * V)) : list (K * V) :=
  match d with
  | [] => [(k, v)]
  | (k', v') :: d' =>
    if decide (k' = k) then (k', v) :: d' else (k', v') :: dict_set k v d'
  end.

Definition dict_keys {K V} (d : list (K * V)) : list K := map fst d.

(** [counts[x] = counts.get(x, 0) + 1] for every item, in order; this is
    also what [collections.Counter] computes. *)
Definition tally (items : list pystr) : list (pystr * Z) :=
  foldl (fun counts x => dict_set x (default 0 (dict_get x counts) + 1) counts) [] items.

(** [d[k]]: raises [KeyError] on a missing key. *)
Definition dict_item (k : pystr) (d : pydict) : outcome pyval :=
  match dict_get k d with
  | Some v => Ret v
  | None => Raise (Exn KeyError k)
  end.

(** [type(v).__name__]. *)
Definition type_name (v : pyval) : pystr :=
  match v with
  | VNone => u "NoneType"
  | VBool _ => u "bool"
  | VInt _ => u "int"
  | VFloat _ => u "float"
  | VStr _ => u "str"
  | VList _ => u "list"
  | VDict _ => u "dict"
  end.

(** Truth value of an object, as [if v:] tests it. *)
Definition truthy (v : pyval) : bool :=
  match v with
  | VNone => false
  | VBool b => b
  | VInt z => negb (z =? 0)
  | VFloat f => negb (PrimFloat.eqb f 0%float)
  | VStr s => negb (bool_decide (s = []))
  | VList l => negb (bool_decide (length l = 0%nat))
  | VDict d => negb (bool_decide (length d = 0%nat))
  end.

(** [len(v)]. *)
Definition py_len (v : pyval) : outcome Z :=
  match v with
  | VStr s => Ret (Z.of_nat (length s))
  | VList l => Ret (Z.of_nat (length l))
  | VDict d => Ret (Z.of_nat (length d))
  | _ => Raise (Exn TypeError (u "object of type '" ++ type_name v ++ u "' has no len()"))
  end.

Definition is_VStr (k : pystr) (v : pyval) : bool :=
  match v with
  | VStr s => bool_decide (s = k)
  | _ => false
  end.

(** [k in v] for a string [k]: substring test on a string, membership on a
    list, key test on a dictionary; the other values are not iterable. *)
Definition str_in_value (k : pystr) (v : pyval) : outcome bool :=
  match v with
  | VStr d => Ret (str_in k d)
  | VList l => Ret (existsb (is_VStr k) l)
  | VDict d => Ret (dict_has k d)
  | _ => Raise (Exn TypeError
                  (u "argument of type '" ++ type_name v ++ u "' is not iterable"))
  end.

(** [v[k]] for a string key. *)
Definition py_getitem (v : pyval) (k : pystr) : outcome pyval :=
  match v with
  | VDict d => dict_item k d
  | _ => Raise (Exn TypeError (u "'" ++ type_name v ++ u "' object is not subscriptable"))
  end.

(** [for c in v]: the items iteration yields. *)
Definition py_iter (v : pyval) : outcome (list pyval) :=
  match v with
  | VStr s => Ret (map (fun c => VStr [c]) s)
  | VList l => Ret l
  | VDict d => Ret (map VStr (dict_keys d))
  | _ => Raise (Exn TypeError (u "'" ++ type_name v ++ u "' object is not iterable"))
  end.

(** [range(start, stop, step)]; a zero step raises [ValueError]. *)
Fixpoint range_up (fuel : nat) (i stop step : Z) : list Z :=
  match fuel with
  | O => []
  | S f => if i <? stop then i :: range_up f (i + step) stop step else []
  end.

Fixpoint range_down (fuel : nat) (i stop step : Z) : list Z :=
  match fuel with
  | O => []
  | S f => if stop <? i then i :: range_down f (i + step) stop step else []
  end.

Definition py_range (start stop step : Z) : outcome (list Z) :=
  if step =? 0 then Raise (Exn ValueError (u "range() arg 3 must not be zero"))
  else if 0 <? step then Ret (range_up (Z.to_nat (stop - start)) start stop step)
  else Ret (range_down (Z.to_nat (start - stop)) start stop step).

(** [s[lo:hi]]: negative bounds count from the end, all bounds are clamped. *)
Definition clamp_index (len i : Z) : Z :=
  let i := if i <? 0 then i + len else i in
  Z.max 0 (Z.min len i).

Definition py_slice {A} (s : list A) (lo hi : Z) : list A :=
  let len := Z.of_nat (length s) in
  let lo := clamp_index len lo in
  let hi := clamp_index len hi in
  take (Z.to_nat (hi - lo)) (drop (Z.to_nat lo) s).

(** [items.sort(key=key, reverse=True)]: by decreasing key, items of equal
    key in their original order. *)
Fixpoint insert_by {A} (key : A -> Z) (x : A) (l : list A) : list A :=
  match l with
  | [] => [x]
  | y :: l' => if key y <? key x then x :: y :: l' else y :: insert_by key x l'
  end.

Definition sort_reverse {A} (key : A -> Z) (items : list A) : list A :=
  foldl (fun acc x => insert_by key x acc) [] items.

End Py.

Import Py.
Local Open Scope py_scope.

(** ** Effects: the clock, standard output and the file system *)

Module IO.

(** What a run leaves behind, in order. *)
Inductive event :=
| EPrint (line : pystr)
| EMakedirs (path : pystr)
| EWrite (path : pystr) (content : pyval).

(** The state a run threads: how often the clock was read, and the events
    performed so far. *)
Record world := World { clock : nat; trace : list event }.

(** The answers of the operating system during one run.  [strftime_now n] is
    the formatted time at the [n]-th reading of the clock; [walk] lists what
    [os.walk] yields; [open_read] is [open(path, 'r', encoding='utf-8')]
    followed by [read()]; [open_write] tells whether opening a file for
    writing and dumping JSON into it succeeds. *)
Record os_env := OsEnv {
  strftime_now : nat -> pystr;
  path_exists : pystr -> bool;
  makedirs : pystr -> option exn;
  walk : pystr -> list (pystr * list pystr * list pystr);
  path_join : pystr -> pystr -> pystr;
  splitext : pystr -> pystr * pystr;
  open_read : pystr -> outcome pystr;
  open_write : pystr -> option exn
}.

Definition io (A : Type) := world -> outcome A * world.

Definition io_ret {A} (a : A) : io A := fun w => (Ret a, w).

Definition io_raise {A} (e : exn) : io A := fun w => (Raise e, w).

Definition io_lift {A} (o : outcome A) : io A := fun w => (o, w).

Definition io_bind {A B} (m : io A) (k : A -> io B) : io B :=
  fun w =>
    match m w with
    | (Ret a, w') => k a w'
    | (Raise e, w') => (Raise e, w')
    end.

(** [try: body  except Exception as e: handler e]; what the body did before
    it raised stays done. *)
Definition try_except {A} (body : io A) (handler : exn -> io A) : io A :=
  fun w =>
    match body w with
    | (Ret a, w') => (Ret a, w')
    | (Raise e, w') => handler e w'
    end.

Definition emit (ev : event) : io unit :=
  fun w => (Ret tt, {| clock := clock w; trace := trace w ++ [ev] |}).

Definition print (line : pystr) : io unit := emit (EPrint line).

(** [datetime.datetime.now().strftime(...)] and [time.strftime(...)]. *)
Definition now (E : os_env) : io pystr :=
  fun w => (Ret (strftime_now E (clock w)),
            {| clock := S (clock w); trace := trace w |}).

(** An operation that either succeeds, leaving an event, or raises. *)
Definition attempt (failure : option exn) (ev : event) : io unit :=
  match failure with
  | Some e => io_raise e
  | None => emit ev
  end.

Declare Scope io_scope.
Delimit Scope io_scope with io.
Notation "x <~ e ;; k" := (io_bind e (fun x => k))
  (at level 100, e at next level, right associativity) : io_scope.
Notation "e ;;; k" := (io_bind e (fun _ => k))
  (at level 100, right associativity) : io_scope.

End IO.

Import IO.
Local Open Scope io_scope.

(** ** [scripts/digital_humanities.py] *)

Module DigitalHumanities.

(** *** [IntelligentAssistant] *)

(** [self.knowledge_base["keywords"]], in the order of the dictionary literal. *)
Definition knowledge_base_keywords : list (pystr * list pystr) :=
  [ (u "text_analysis", [u "文本"; u "分析"; u "情感"; u "分类"; u "关键词"]);
    (u "historical_research", [u "历史"; u "史料"; u "考证"; u "编年"; u "地理"]);
    (u "art_cultural_research", [u "艺术"; u "文化"; u "风格"; u "遗产"; u "比较"]);
    (u "language_research", [u "语言"; u "语言学"; u "语料库"; u "方言"; u "演变"]);
    (u "philosophy_research", [u "哲学"; u "思想"; u "概念"; u "论证"; u "语义"]);
    (u "social_cultural_analysis", [u "社会"; u "文化"; u "网络"; u "趋势"; u "媒体"]);
    (u "cultural_heritage", [u "遗产"; u "保护"; u "传承"; u "建档"; u "重建"]);
    (u "public_education", [u "教育"; u "公众"; u "故事"; u "社区"; u "资源"]) ].

(** The eight keys of a request that carry data. *)
Definition data_keys : list pystr :=
  [ u "text"; u "historical_data"; u "heritage_data"; u "art_data";
    u "language_data"; u "philosophy_data"; u "social_data"; u "education_data" ].

(** The [needs] dictionary as [identify_needs] creates it. *)
Definition initial_needs : pydict :=
  [ (u "request_type", VStr (u "unknown"));
    (u "data_types", VList []);
    (u "intent", VStr []);
    (u "confidence", VFloat 0.0);
    (u "data", VDict []) ].

(** [d[k].append(v)]. *)
Definition dict_append (k : pystr) (v : pyval) (d : pydict) : outcome pydict :=
  item <- dict_item k d ;;
  match item with
  | VList l => Ret (dict_set k (VList (l ++ [v])) d)
  | _ => Raise (Exn AttributeError
                  (u "'" ++ type_name item ++ u "' object has no attribute 'append'"))
  end.

(** [d[k][k2] = v]. *)
Definition dict_set_in (k k2 : pystr) (v : pyval) (d : pydict) : outcome pydict :=
  item <- dict_item k d ;;
  match item with
  | VDict inner => Ret (dict_set k (VDict (dict_set k2 v inner)) d)
  | _ => Raise (Exn TypeError
                  (u "'" ++ type_name item ++ u "' object does not support item assignment"))
  end.

(** The body every one of the eight [if key in request] branches runs. *)
Definition data_branch (request : pydict) (key request_type intent : pystr)
    (needs : pydict) : outcome pydict :=
  let needs := dict_set (u "request_type") (VStr request_type) needs in
  needs <- dict_append (u "data_types") (VStr key) needs ;;
  let needs := dict_set (u "intent") (VStr intent) needs in
  let needs := dict_set (u "confidence") (VFloat 0.9) needs in
  v <- dict_item key request ;;
  dict_set_in (u "data") key v needs.

(** [v > 0]. *)
Definition py_gt_zero (v : pyval) : outcome bool :=
  match v with
  | VFloat f => Ret (PrimFloat.ltb 0%float f)
  | VInt z => Ret (0 <? z)
  | VBool b => Ret b
  | _ => Raise (Exn TypeError
                  (u "'>' not supported between instances of '" ++ type_name v
                     ++ u "' and 'int'"))
  end.

(** The inner loop [for keyword in keywords], left at the first keyword found
    in the description. *)
Fixpoint scan_keywords (skill : pystr) (keywords : list pystr) (description : pyval)
    (request needs : pydict) : outcome pydict :=
  match keywords with
  | [] => Ret needs
  | keyword :: rest =>
    found <- str_in_value keyword description ;;
    if found : bool then
      let needs := dict_set (u "request_type") (VStr skill) needs in
      let needs := dict_set (u "intent") (VStr (u "process_" ++ skill)) needs in
      let needs := dict_set (u "confidence") (VFloat 0.7) needs in
      let needs := dict_set (u "data") (VDict request) needs in
      Ret needs
    else scan_keywords skill rest description request needs
  end.

(** The outer loop [for skill, keywords in ...items()], left as soon as the
    confidence is positive. *)
Fixpoint scan_skills (kb : list (pystr * list pystr)) (description : pyval)
    (request needs : pydict) : outcome pydict :=
  match kb with
  | [] => Ret needs
  | (skill, keywords) :: rest =>
    needs <- scan_keywords skill keywords description request needs ;;
    confidence <- dict_item (u "confidence") needs ;;
    positive <- py_gt_zero confidence ;;
    if positive : bool then Ret needs
    else scan_skills rest description request needs
  end.

Definition identify_needs (request : pydict) : outcome pydict :=
  let needs := initial_needs in
  if dict_has (u "text") request then
    data_branch request (u "text") (u "text_analysis") (u "analyze_text") needs
  else if dict_has (u "historical_data") request then
    data_branch request (u "historical_data") (u "historical_research")
      (u "research_history") needs
  else if dict_has (u "heritage_data") request then
    data_branch request (u "heritage_data") (u "cultural_heritage")
      (u "preserve_heritage") needs
  else if dict_has (u "art_data") request then
    data_branch request (u "art_data") (u "art_cultural_research") (u "analyze_art") needs
  else if dict_has (u "language_data") request then
    data_branch request (u "language_data") (u "language_research")
      (u "research_language") needs
  else if dict_has (u "philosophy_data") request then
    data_branch request (u "philosophy_data") (u "philosophy_research")
      (u "research_philosophy") needs
  else if dict_has (u "social_data") request then
    data_branch request (u "social_data") (u "social_cultural_analysis")
      (u "analyze_social") needs
  else if dict_has (u "education_data") request then
    data_branch request (u "education_data") (u "public_education")
      (u "educate_public") needs
  else if dict_has (u "description") request then
    description <- dict_item (u "description") request ;;
    scan_skills knowledge_base_keywords description request needs
  else Ret needs.

(** [match_skills].  The request type [identify_needs] stores is always a
    string (lemma [identify_needs_request_type] below); dictionaries of this
    model have string keys, so another kind of request type yields no entry. *)
Definition match_skills (identified_needs : pydict) : pydict :=
  let request_type := default (VStr []) (dict_get (u "request_type") identified_needs) in
  match request_type with
  | VStr s => if truthy request_type then [(s, VDict identified_needs)] else []
  | _ => []
  end.

Definition validate_results (results : pydict) : pydict :=
  if truthy (VDict results)
  then [ (u "valid", VBool true); (u "issues", VList []); (u "confidence", VFloat 0.8) ]
  else [ (u "valid", VBool false);
         (u "issues", VList [VStr (u "没有处理结果")]);
         (u "confidence", VFloat 0.0) ].

Definition update_system (E : os_env) (result : pydict) : io pydict :=
  timestamp <~ now E ;;
  io_ret [ (u "updated", VBool true);
           (u "timestamp", VStr timestamp);
           (u "changes", VList [VStr (u "系统知识更新"); VStr (u "处理流程优化")]) ].

(** *** The eight skills *)

(** The lookup every [process] method starts with:
    [if key in data: data[key]  elif "data" in data and key in data["data"]:
    data["data"][key]], and [None] otherwise. *)
Definition find_field (key : pystr) (data : pyval) : outcome pyval :=
  direct <- str_in_value key data ;;
  if direct : bool then py_getitem data key
  else
    has_data <- str_in_value (u "data") data ;;
    if has_data : bool then
      inner <- py_getitem data (u "data") ;;
      nested <- str_in_value key inner ;;
      if nested : bool then py_getitem inner key else Ret VNone
    else Ret VNone.

(** The [result] dictionary of a skill with its list of operations and its
    results filled in. *)
Definition skill_result (skill : pystr) (operations : list pyval) (results : pydict)
    : pydict :=
  [ (u "skill", VStr skill);
    (u "processed", VBool true);
    (u "operations", VList operations);
    (u "results", VDict results) ].

(** [string.punctuation]; the double quote is code point 34. *)
Definition string_punctuation : pystr :=
  u "!" ++ [34%N] ++ u "#$%&'()*+,-./:;<=>?@[\]^_`{|}~".

(** The source writes two adjacent literals, which Python concatenates. *)
Definition punctuation : pystr :=
  string_punctuation ++ u " 　，。！？；：" ++ u "''（）【】[]{}\|/".

(** [[c for c in text if c not in punctuation]]. *)
Fixpoint drop_punctuation (items : list pyval) : outcome (list pystr) :=
  match items with
  | [] => Ret []
  | VStr c :: rest =>
    kept <- drop_punctuation rest ;;
    Ret (if str_in c punctuation then kept else c :: kept)
  | v :: _ =>
    Raise (Exn TypeError
             (u "'in <string>' requires string as left operand, not " ++ type_name v))
  end.

(** The two-character windows [cleaned_text[i:i+2]] of length two. *)
Definition bigrams (cleaned_text : pystr) : list pystr :=
  let n := Z.of_nat (length cleaned_text) in
  filter (fun word => length word = 2%nat)
         (map (fun i => py_slice cleaned_text i (i + 2))
              (range_up (Z.to_nat (n - 1)) 0 (n - 1) 1)).

(** The loop that fills [word_counts]. *)
Definition count_words (words : list pystr) : list (pystr * Z) := tally words.

(** [sorted(items, key=lambda x: x[1], reverse=True)]: by decreasing count,
    items of equal count in their original order. *)
Fixpoint insert_desc (x : pystr * Z) (l : list (pystr * Z)) : list (pystr * Z) :=
  match l with
  | [] => [x]
  | y :: l' => if y.2 <? x.2 then x :: y :: l' else y :: insert_desc x l'
  end.

Definition sorted_desc (items : list (pystr * Z)) : list (pystr * Z) :=
  foldl (fun acc x => insert_desc x acc) [] items.

(** [TextAnalysis._extract_keywords].  The per-character counts the source
    also computes are never used and are left out. *)
Definition _extract_keywords (text : pyval) (num_keywords : nat) : outcome (list pystr) :=
  items <- py_iter text ;;
  kept <- drop_punctuation items ;;
  let cleaned_text := concat kept in
  let words := bigrams cleaned_text in
  let word_counts := count_words words in
  let sorted_words := sorted_desc word_counts in
  Ret (map fst (take num_keywords sorted_words)).

Definition TextAnalysis_process (data : pyval) : outcome pydict :=
  text <- find_field (u "text") data ;;
  if truthy text then
    text_length <- py_len text ;;
    keywords <- _extract_keywords text 10 ;;
    Ret (skill_result (u "text_analysis") [VStr (u "text_processing")]
           [ (u "text_length", VInt text_length);
             (u "character_count", VInt text_length);
             (u "keywords", VList (map VStr keywords)) ])
  else Ret (skill_result (u "text_analysis") [] []).

Definition HistoricalResearch_process (data : pyval) : outcome pydict :=
  historical_data <- find_field (u "historical_data") data ;;
  if truthy historical_data then
    match historical_data with
    | VList l =>
      Ret (skill_result (u "historical_research") [VStr (u "historical_data_processing")]
             [ (u "data_count", VInt (Z.of_nat (length l))) ])
    | _ =>
      Ret (skill_result (u "historical_research") [VStr (u "historical_data_processing")]
             [ (u "data_processed", VBool true) ])
    end
  else Ret (skill_result (u "historical_research") [] []).

Definition ArtCulturalResearch_process (data : pyval) : outcome pydict :=
  art_data <- find_field (u "art_data") data ;;
  if truthy art_data then
    Ret (skill_result (u "art_cultural_research") [VStr (u "art_data_processing")]
           [ (u "data_type", VStr (type_name art_data)) ])
  else Ret (skill_result (u "art_cultural_research") [] []).

(** The five remaining skills differ in their names only. *)
Definition flag_process (skill key operation flag : pystr) (data : pyval)
    : outcome pydict :=
  value <- find_field key data ;;
  if truthy value then
    Ret (skill_result skill [VStr operation] [ (flag, VBool true) ])
  else Ret (skill_result skill [] []).

Definition LanguageResearch_process : pyval -> outcome pydict :=
  flag_process (u "language_research") (u "language_data")
    (u "language_data_processing") (u "data_processed").

Definition PhilosophyResearch_process : pyval -> outcome pydict :=
  flag_process (u "philosophy_research") (u "philosophy_data")
    (u "philosophy_data_processing") (u "data_analyzed").

Definition SocialCulturalAnalysis_process : pyval -> outcome pydict :=
  flag_process (u "social_cultural_analysis") (u "social_data")
    (u "social_data_processing") (u "data_analyzed").

Definition CulturalHeritage_process : pyval -> outcome pydict :=
  flag_process (u "cultural_heritage") (u "heritage_data")
    (u "heritage_data_processing") (u "data_processed").

Definition PublicEducation_process : pyval -> outcome pydict :=
  flag_process (u "public_education") (u "education_data")
    (u "education_data_processing") (u "data_processed").

(** *** [DigitalHumanities] *)

(** [self.skills]: the [process] method of each skill object. *)
Definition skills : list (pystr * (pyval -> outcome pydict)) :=
  [ (u "text_analysis", TextAnalysis_process);
    (u "historical_research", HistoricalResearch_process);
    (u "art_cultural_research", ArtCulturalResearch_process);
    (u "language_research", LanguageResearch_process);
    (u "philosophy_research", PhilosophyResearch_process);
    (u "social_cultural_analysis", SocialCulturalAnalysis_process);
    (u "cultural_heritage", CulturalHeritage_process);
    (u "public_education", PublicEducation_process) ].

Definition version : pystr := u "1.0.0".

(** The loop over [matched_skills.items()] that fills [results]. *)
Fixpoint run_skills (matched_skills : pydict) (results : pydict) : outcome pydict :=
  match matched_skills with
  | [] => Ret results
  | (skill_name, skill_data) :: rest =>
    match dict_get skill_name skills with
    | Some process =>
      skill_result <- process skill_data ;;
      run_skills rest (dict_set skill_name (VDict skill_result) results)
    | None => run_skills rest results
    end
  end.

(** The body of the [try] block of [process_request]. *)
Definition process_request_body (E : os_env) (request : pydict) : io pydict :=
  identified_needs <~ io_lift (identify_needs request) ;;
  let matched_skills := match_skills identified_needs in
  results <~ io_lift (run_skills matched_skills []) ;;
  let validation := validate_results results in
  timestamp <~ now E ;;
  let comprehensive_result :=
    [ (u "request", VDict request);
      (u "identified_needs", VDict identified_needs);
      (u "matched_skills", VDict matched_skills);
      (u "results", VDict results);
      (u "validation", VDict validation);
      (u "timestamp", VStr timestamp);
      (u "version", VStr version) ] in
  update_system E comprehensive_result ;;;
  io_ret comprehensive_result.

Definition process_request (E : os_env) (request : pydict) : io pydict :=
  try_except (process_request_body E request)
    (fun e =>
       timestamp <~ now E ;;
       io_ret [ (u "error", VStr (exn_msg e)); (u "timestamp", VStr timestamp) ]).

(** [str(v)]: fixed by the language for [None], booleans, integers and
    strings; [repr] gives the text of floats, lists and dictionaries. *)
Definition py_str (repr : pyval -> pystr) (v : pyval) : pystr :=
  match v with
  | VNone => u "None"
  | VBool true => u "True"
  | VBool false => u "False"
  | VInt z => str_of_Z z
  | VStr s => s
  | _ => repr v
  end.

(** [IntelligentAssistant.validate_data], to which
    [DigitalHumanities.validate_data] hands its arguments on. *)
Definition validate_data (repr : pyval -> pystr) (data data_type : pyval) : pydict :=
  let validation :=
    [ (u "valid", VBool true);
      (u "issues", VList []);
      (u "data_type", data_type);
      (u "data_size", VInt 0) ] in
  match data with
  | VNone =>
    let validation := dict_set (u "valid") (VBool false) validation in
    dict_set (u "issues") (VList [VStr (u "数据为空")]) validation
  | _ =>
    let data_size := Z.of_nat (length (py_str repr data)) in
    let validation := dict_set (u "data_size") (VInt data_size) validation in
    if data_size <? 10
    then dict_set (u "issues") (VList [VStr (u "数据长度过短")]) validation
    else validation
  end.

End DigitalHumanities.

(** ** [scripts/batch_processor.py] *)

Module BatchProcessor.

(** The [stats] dictionary of [process_folder], one field per key. *)
Record stats := Stats {
  total_files : Z;
  processed_files : Z;
  failed_files : Z;
  start_time : pystr;
  end_time : option pystr;
  files : list pydict
}.

(** The dictionary itself, as returned and as dumped to JSON. *)
Definition stats_dict (st : stats) : pydict :=
  [ (u "total_files", VInt (total_files st));
    (u "processed_files", VInt (processed_files st));
    (u "failed_files", VInt (failed_files st));
    (u "start_time", VStr (start_time st));
    (u "end_time", match end_time st with Some t => VStr t | None => VNone end);
    (u "files", VList (map VDict (files st))) ].

Definition default_file_extensions : list pystr := [u ".txt"; u ".md"; u ".csv"].

Definition _split_content (content : pystr) (chunk_size : Z) : outcome (list pystr) :=
  starts <- py_range 0 (Z.of_nat (length content)) chunk_size ;;
  Ret (map (fun i => py_slice content i (i + chunk_size)) starts).

(** The loop [for i, chunk in enumerate(chunks)] of [process_file]. *)
Fixpoint process_chunks (E : os_env) (file_name : pystr) (i : Z) (chunks : list pystr)
    (results : list pyval) : io (list pyval) :=
  match chunks with
  | [] => io_ret results
  | chunk :: rest =>
    let request :=
      [ (u "description",
         VStr (u "处理文件 " ++ file_name ++ u " 的第 " ++ str_of_Z (i + 1) ++ u " 部分"));
        (u "text", VStr chunk) ] in
    result <~ DigitalHumanities.process_request E request ;;
    process_chunks E file_name (i + 1) rest
      (results ++ [VDict [ (u "chunk", VInt (i + 1)); (u "result", VDict result) ]])
  end.

Definition process_file (E : os_env) (content file_name : pystr) : io pydict :=
  if 1000000 <? Z.of_nat (length content) then
    chunks <~ io_lift (_split_content content 500000) ;;
    results <~ process_chunks E file_name 0 chunks [] ;;
    io_ret [ (u "file_name", VStr file_name);
             (u "file_size", VInt (Z.of_nat (length content)));
             (u "is_large_file", VBool true);
             (u "chunks_processed", VInt (Z.of_nat (length chunks)));
             (u "results", VList results) ]
  else
    let request :=
      [ (u "description", VStr (u "处理文件 " ++ file_name));
        (u "text", VStr content) ] in
    result <~ DigitalHumanities.process_request E request ;;
    io_ret [ (u "file_name", VStr file_name);
             (u "file_size", VInt (Z.of_nat (length content)));
             (u "is_large_file", VBool false);
             (u "result", VDict result) ].

(** [os.path.join(output_folder, f"{os.path.splitext(file_name)[0]}_result.json")]. *)
Definition result_path (E : os_env) (output_folder file_name : pystr) : pystr :=
  path_join E output_folder ((splitext E file_name).1 ++ u "_result.json").

Definition success_entry (file_name output_file : pystr) : pydict :=
  [ (u "file_name", VStr file_name);
    (u "status", VStr (u "success"));
    (u "output_file", VStr output_file) ].

Definition failed_entry (file_name : pystr) (e : exn) : pydict :=
  [ (u "file_name", VStr file_name);
    (u "status", VStr (u "failed"));
    (u "error", VStr (exn_msg e)) ].

(** [any(file_name.endswith(ext) for ext in file_extensions)]. *)
Definition has_extension (file_extensions : list pystr) (file_name : pystr) : bool :=
  existsb (endswith file_name) file_extensions.

(** What the loop does with one file whose name has a configured extension. *)
Definition process_entry (E : os_env) (output_folder root file_name : pystr)
    (st : stats) : io stats :=
  let st := Stats (total_files st + 1) (processed_files st) (failed_files st)
                  (start_time st) (end_time st) (files st) in
  let file_path := path_join E root file_name in
  print ([10%N] ++ u "处理文件: " ++ file_name) ;;;
  print (str_repeat (u "-") 40) ;;;
  try_except
    (content <~ io_lift (open_read E file_path) ;;
     result <~ process_file E content file_name ;;
     let output_file := result_path E output_folder file_name in
     attempt (open_write E output_file) (EWrite output_file (VDict result)) ;;;
     let st := Stats (total_files st) (processed_files st + 1) (failed_files st)
                     (start_time st) (end_time st)
                     (files st ++ [success_entry file_name output_file]) in
     print (u "✓ 处理成功，结果保存到: " ++ output_file) ;;;
     io_ret st)
    (fun e =>
       let st := Stats (total_files st) (processed_files st) (failed_files st + 1)
                       (start_time st) (end_time st)
                       (files st ++ [failed_entry file_name e]) in
       print (u "✗ 处理失败: " ++ exn_msg e) ;;;
       io_ret st).

(** The inner loop [for file_name in files]. *)
Fixpoint process_names (E : os_env) (output_folder : pystr)
    (file_extensions : list pystr) (root : pystr) (names : list pystr) (st : stats)
    : io stats :=
  match names with
  | [] => io_ret st
  | file_name :: rest =>
    if has_extension file_extensions file_name then
      st <~ process_entry E output_folder root file_name st ;;
      process_names E output_folder file_extensions root rest st
    else process_names E output_folder file_extensions root rest st
  end.

(** The outer loop [for root, dirs, files in os.walk(input_folder)]. *)
Fixpoint process_walk (E : os_env) (output_folder : pystr)
    (file_extensions : list pystr) (listing : list (pystr * list pystr * list pystr))
    (st : stats) : io stats :=
  match listing with
  | [] => io_ret st
  | (root, _, names) :: rest =>
    st <~ process_names E output_folder file_extensions root names st ;;
    process_walk E output_folder file_extensions rest st
  end.

Definition stats_path (E : os_env) (output_folder : pystr) : pystr :=
  path_join E output_folder (u "batch_processing_stats.json").

Definition process_folder (E : os_env) (input_folder output_folder : pystr)
    (file_extensions : list pystr) : io pydict :=
  if negb (path_exists E input_folder) then
    io_ret [ (u "error", VStr (u "输入文件夹不存在: " ++ input_folder)) ]
  else
    (if negb (path_exists E output_folder)
     then attempt (makedirs E output_folder) (EMakedirs output_folder)
     else io_ret tt) ;;;
    started <~ now E ;;
    let st := Stats 0 0 0 started None [] in
    print (u "开始处理文件夹: " ++ input_folder) ;;;
    print (u "输出结果将保存到: " ++ output_folder) ;;;
    print (str_repeat (u "=") 80) ;;;
    st <~ process_walk E output_folder file_extensions (walk E input_folder) st ;;
    ended <~ now E ;;
    let st := Stats (total_files st) (processed_files st) (failed_files st)
                    (start_time st) (Some ended) (files st) in
    print (str_repeat (u "=") 80) ;;;
    print (u "批处理完成") ;;;
    print (u "总文件数: " ++ str_of_Z (total_files st)) ;;;
    print (u "成功处理: " ++ str_of_Z (processed_files st)) ;;;
    print (u "处理失败: " ++ str_of_Z (failed_files st)) ;;;
    print (u "开始时间: " ++ start_time st) ;;;
    print (u "结束时间: " ++ ended) ;;;
    let stats_file := stats_path E output_folder in
    attempt (open_write E stats_file) (EWrite stats_file (VDict (stats_dict st))) ;;;
    print (u "统计信息保存到: " ++ stats_file) ;;;
    io_ret (stats_dict st).

End BatchProcessor.

(** ** [networkx.Graph], as far as the scripts use it *)

Module Nx.

(** The adjacency structure [_adj] of an undirected graph: every node, in
    insertion order, with its neighbours and the [weight] attribute of the
    edge to each.  A node without edges has an empty neighbour dictionary. *)
Definition Graph := list (pystr * list (pystr * Z)).

Definition empty_graph : Graph := [].

(** [G.add_node(n)]. *)
Definition add_node (n : pystr) (g : Graph) : Graph :=
  if dict_has n g then g else dict_set n [] g.

(** The neighbour dictionary of a node, empty for a node not in the graph. *)
Definition neighbours (g : Graph) (a : pystr) : list (pystr * Z) :=
  default [] (dict_get a g).

(** [G.add_edge(a, b, weight=w)]: both nodes are added when missing, and the
    attribute is stored in both directions. *)
Definition add_edge (a b : pystr) (w : Z) (g : Graph) : Graph :=
  let g := add_node b (add_node a g) in
  let g := dict_set a (dict_set b w (neighbours g a)) g in
  dict_set b (dict_set a w (neighbours g b)) g.

(** [G.nodes()]. *)
Definition nodes (g : Graph) : list pystr := dict_keys g.

(** [len(G.nodes())]. *)
Definition number_of_nodes (g : Graph) : Z := Z.of_nat (length (nodes g)).

(** [len(G.edges())]: NetworkX sums [len(nbrs) + (n in nbrs)] over the nodes
    and halves the sum, so that a self-loop counts once. *)
Definition degree_term (n : pystr) (nbrs : list (pystr * Z)) : Z :=
  Z.of_nat (length nbrs) + (if dict_has n nbrs then 1 else 0).

Definition degree_sum (g : Graph) : Z :=
  foldr (fun '(n, nbrs) acc => degree_term n nbrs + acc) 0 g.

Definition number_of_edges (g : Graph) : Z := degree_sum g / 2.

(** The weight of the edge between [a] and [b], if there is one. *)
Definition edge_weight (g : Graph) (a b : pystr) : option Z :=
  match dict_get a g with
  | Some nbrs => dict_get b nbrs
  | None => None
  end.

(** [G.edges(data=True)]: every edge once, from the endpoint listed first. *)
Fixpoint edges_from (seen : list pystr) (g : Graph) : list (pystr * pystr * Z) :=
  match g with
  | [] => []
  | (n, nbrs) :: rest =>
    map (fun '(nbr, w) => (n, nbr, w))
        (filter (fun '(nbr, _) => nbr ∉ seen) nbrs)
      ++ edges_from (n :: seen) rest
  end.

Definition edges (g : Graph) : list (pystr * pystr * Z) := edges_from [] g.

(** The NetworkX algorithms the scripts call and do not implement, taken as
    given functions of the graph.  [greedy_modularity_communities] is [None]
    when importing it fails. *)
Record algorithms := Algorithms {
  density : Graph -> pyval;
  number_connected_components : Graph -> pyval;
  degree_centrality : Graph -> pyval;
  betweenness_centrality : Graph -> pyval;
  closeness_centrality : Graph -> pyval;
  greedy_modularity_communities : option (Graph -> list (list pystr));
  connected_components : Graph -> list (list pystr);
  write_graph : pystr -> Graph -> pyval
}.

End Nx.

(** ** [digital-humanities-historical-research/scripts/network_analysis.py] *)

Module NetworkAnalysis.
Import Nx.

(** The NLTK functions and the character classes of [str.istitle]. *)
Record nlp := Nlp {
  sent_tokenize : pystr -> list pystr;
  word_tokenize : pystr -> list pystr;
  pos_tag : list pystr -> list (pystr * pystr);
  is_upper : char -> bool;
  is_lower : char -> bool
}.

(** [word.istitle()]: an uppercase (or titlecase) character may only follow
    an uncased one, a lowercase character only a cased one, and there is at
    least one cased character. *)
Fixpoint istitle_from (N : nlp) (previous_is_cased cased : bool) (word : pystr) : bool :=
  match word with
  | [] => cased
  | ch :: rest =>
    if is_upper N ch then
      if previous_is_cased then false else istitle_from N true true rest
    else if is_lower N ch then
      if previous_is_cased then istitle_from N true true rest else false
    else istitle_from N false cased rest
  end.

Definition istitle (N : nlp) (word : pystr) : bool := istitle_from N false false word.

(** [word.istitle() and tag in ['NNP', 'NNPS']]. *)
Definition is_proper_noun (N : nlp) (token : pystr * pystr) : bool :=
  istitle N token.1
  && (bool_decide (token.2 = u "NNP") || bool_decide (token.2 = u "NNPS")).

(** The inner [while j < len(tagged_tokens) and ...] loop: extends the entity
    with the following proper nouns and returns where it stopped. *)
Fixpoint entity_end (N : nlp) (fuel : nat) (tagged_tokens : list (pystr * pystr))
    (j : nat) (entity : pystr) : nat * pystr :=
  match fuel with
  | O => (j, entity)
  | S fuel =>
    match tagged_tokens !! j with
    | Some token =>
      if is_proper_noun N token
      then entity_end N fuel tagged_tokens (S j) (entity ++ u " " ++ token.1)
      else (j, entity)
    | None => (j, entity)
    end
  end.

(** The outer [while i < len(tagged_tokens)] loop. *)
Fixpoint entity_loop (N : nlp) (fuel : nat) (tagged_tokens : list (pystr * pystr))
    (i : nat) (entities : list pystr) : list pystr :=
  match fuel with
  | O => entities
  | S fuel =>
    match tagged_tokens !! i with
    | Some token =>
      if is_proper_noun N token then
        let '(j, entity) :=
          entity_end N (length tagged_tokens) tagged_tokens (S i) token.1 in
        entity_loop N fuel tagged_tokens j (entities ++ [entity])
      else entity_loop N fuel tagged_tokens (S i) entities
    | None => entities
    end
  end.

Definition sentence_entities (N : nlp) (sentence : pystr) : list pystr :=
  let tagged_tokens := pos_tag N (word_tokenize N sentence) in
  entity_loop N (length tagged_tokens) tagged_tokens 0 [].

(** [(entities[i], entities[j])] for [i < j], in the order of the two loops. *)
Fixpoint all_pairs (entities : list pystr) : list (pystr * pystr) :=
  match entities with
  | [] => []
  | e :: rest => map (pair e) rest ++ all_pairs rest
  end.

Definition sentence_relationships (N : nlp) (sentence : pystr) : list (pystr * pystr) :=
  let entities := sentence_entities N sentence in
  if decide (2 <= length entities)%nat then all_pairs entities else [].

(** A [NetworkAnalysis] object: its two attributes. *)
Record self := Self { texts : list pystr; graph : Graph }.

(** [NetworkAnalysis(texts)]. *)
Definition init (texts : list pystr) : self := Self texts empty_graph.

Definition extract_relationships (N : nlp) (s : self) : list (pystr * pystr) :=
  flat_map (fun text => flat_map (sentence_relationships N) (sent_tokenize N text))
           (texts s).

(** The key under which a pair is counted: the smaller name first. *)
Definition ordered (source target : pystr) : pystr * pystr :=
  if str_gt source target then (target, source) else (source, target).

(** The body of the loop that counts the pairs: a pair of equal names is
    skipped, any other is counted under its ordered key. *)
Definition count_relationship (relationship_counts : list (pystr * pystr * Z))
    (relationship : pystr * pystr) : list (pystr * pystr * Z) :=
  let '(source, target) := relationship in
  if decide (source = target) then relationship_counts
  else
    let key := ordered source target in
    dict_set key (default 0 (dict_get key relationship_counts) + 1) relationship_counts.

(** [relationship_counts], a [defaultdict(int)] in insertion order. *)
Definition count_relationships (relationships : list (pystr * pystr))
    : list (pystr * pystr * Z) :=
  foldl count_relationship [] relationships.

(** The body of the loop that adds the counted pairs to the graph. *)
Definition add_relationship (g : Graph) (item : pystr * pystr * Z) : Graph :=
  let '((source, target), weight) := item in
  add_edge source target weight (add_node target (add_node source g)).

Definition add_relationships (counts : list (pystr * pystr * Z)) (g : Graph) : Graph :=
  foldl add_relationship g counts.

(** [build_network]: the object afterwards; the method returns its graph. *)
Definition build_network (N : nlp) (s : self) : self :=
  let relationships := extract_relationships N s in
  let relationship_counts := count_relationships relationships in
  Self (texts s) (add_relationships relationship_counts (graph s)).

(** [if not self.graph.nodes(): self.build_network()]. *)
Definition ensure_network (N : nlp) (s : self) : self :=
  if decide (length (nodes (graph s)) = 0%nat) then build_network N s else s.

Definition detect_communities (A : algorithms) (s : self) : pyval :=
  match greedy_modularity_communities A with
  | Some greedy => VList (map (fun c => VList (map VStr c)) (greedy (graph s)))
  | None => VList (map (fun c => VList (map VStr c)) (connected_components A (graph s)))
  end.

(** [analyze_network]: the dictionary returned and the object afterwards. *)
Definition analyze_network (A : algorithms) (N : nlp) (s : self) : pydict * self :=
  let s := ensure_network N s in
  ([ (u "nodes", VInt (number_of_nodes (graph s)));
     (u "edges", VInt (number_of_edges (graph s)));
     (u "density", density A (graph s));
     (u "connected_components", number_connected_components A (graph s));
     (u "centrality",
      VDict [ (u "degree", degree_centrality A (graph s));
              (u "betweenness", betweenness_centrality A (graph s));
              (u "closeness", closeness_centrality A (graph s)) ]);
     (u "communities", detect_communities A s) ],
   s).

(** [analyze_relationship_strength]: the list returned and the object
    afterwards.  Every edge of the graph carries a weight, so the default of
    [d.get('weight', 1)] is never used. *)
Definition analyze_relationship_strength (N : nlp) (s : self)
    : list (pystr * pystr * Z) * self :=
  let s := ensure_network N s in
  let edge_weights := edges (graph s) in
  (sort_reverse (fun x => x.2) edge_weights, s).

(** [export_network]: the supported formats write the file, any other format
    raises [ValueError]. *)
Definition export_network (A : algorithms) (N : nlp) (E : os_env) (s : self)
    (file_path format : pystr) : io self :=
  let s := ensure_network N s in
  if decide (format = u "graphml") then
    attempt (open_write E file_path) (EWrite file_path (write_graph A format (graph s))) ;;;
    io_ret s
  else if decide (format = u "gexf") then
    attempt (open_write E file_path) (EWrite file_path (write_graph A format (graph s))) ;;;
    io_ret s
  else if decide (format = u "gml") then
    attempt (open_write E file_path) (EWrite file_path (write_graph A format (graph s))) ;;;
    io_ret s
  else if decide (format = u "json") then
    let graph_data :=
      [ (u "nodes", VList (map (fun node => VDict [ (u "id", VStr node) ]) (nodes (graph s))));
        (u "links",
         VList (map (fun '(a, b, w) =>
                       VDict [ (u "source", VStr a); (u "target", VStr b);
                               (u "weight", VInt w) ])
                    (edges (graph s)))) ] in
    attempt (open_write E file_path) (EWrite file_path (VDict graph_data)) ;;;
    io_ret s
  else io_raise (Exn ValueError (u "Unsupported format: " ++ format)).

End NetworkAnalysis.

(** ** [.../cultural_data_analysis/cultural_analyzer.py] *)

Module CulturalAnalyzer.

(** A pandas [DataFrame]: its columns with their kind of values, the length
    of its index, and the rows. *)
Inductive dtype := DNumber | DObject | DCategory | DDatetime | DBool.

#[global] Instance dtype_eq_dec : EqDecision dtype.
Proof. solve_decision. Defined.

Record DataFrame := Frame {
  columns : list (pystr * dtype);
  index_length : nat;
  rows : list (list pyval)
}.

(** [df.empty]: one of the two axes has length zero. *)
Definition empty (df : DataFrame) : bool :=
  bool_decide (length (columns df) = 0%nat) || bool_decide (index_length df = 0%nat).

(** [col in df.columns]. *)
Definition has_column (df : DataFrame) (col : pystr) : bool := dict_has col (columns df).

(** [df.select_dtypes(include=[np.number]).columns]. *)
Definition numeric_columns (df : DataFrame) : list pystr :=
  dict_keys (filter (fun c => c.2 = DNumber) (columns df)).

(** [df.select_dtypes(include=['object', 'category']).columns]. *)
Definition categorical_columns (df : DataFrame) : list pystr :=
  dict_keys (filter (fun c => c.2 = DObject \/ c.2 = DCategory) (columns df)).

(** What pandas, NumPy, SciPy, scikit-learn and NetworkX compute for the
    analyzer, taken as given.  [to_datetime] is the one call the source
    guards with [try]; [graph] is the type of the graph [network_analysis]
    builds from the rows. *)
Record library := Library {
  graph : Type;
  describe : DataFrame -> pyval;
  categorical_summary : DataFrame -> pystr -> pyval;
  missing_values : DataFrame -> pyval;
  corr : DataFrame -> list pystr -> pystr -> pyval;
  dropna : DataFrame -> list pystr -> DataFrame;
  kmeans : DataFrame -> Z -> pydict;
  to_datetime : DataFrame -> pystr -> outcome DataFrame;
  series_stat : pystr -> DataFrame -> pystr -> pyval;
  calculate_trend : DataFrame -> pystr -> pystr -> pyval;
  rows_graph : DataFrame -> pystr -> pystr -> graph;
  words_of : pyval -> list pystr;
  np_mean : list Z -> pyval
}.

(** What a method hands back: a JSON-like value ([None] included) or a graph. *)
Inductive returned (L : library) :=
| Value (v : pyval)
| GraphObject (g : graph L).
Arguments Value {L} v.
Arguments GraphObject {L} g.

Definition error (message : pystr) : pyval := VDict [ (u "error", VStr message) ].

Definition descriptive_statistics (L : library) (data : DataFrame) : returned L :=
  if empty data then Value (error (u "数据为空"))
  else
    Value (VDict
      [ (u "numeric_stats", describe L data);
        (u "categorical_stats",
         VDict (map (fun col => (col, categorical_summary L data col))
                    (categorical_columns data)));
        (u "missing_values", missing_values L data);
        (u "shape",
         VDict [ (u "rows", VInt (Z.of_nat (index_length data)));
                 (u "columns", VInt (Z.of_nat (length (columns data)))) ]) ]).

Definition correlation_analysis (L : library) (data : DataFrame) : returned L :=
  if empty data then Value (error (u "数据为空"))
  else
    let numeric_cols := numeric_columns data in
    if decide (length numeric_cols < 2)%nat then Value (error (u "数值型列不足"))
    else
      Value (VDict
        [ (u "pearson_correlation", corr L data numeric_cols (u "pearson"));
          (u "spearman_correlation", corr L data numeric_cols (u "spearman")) ]).

Definition network_analysis (L : library) (data : DataFrame) (node_col edge_col : pystr)
    : io (returned L) :=
  if empty data then io_ret (Value VNone)
  else if negb (has_column data node_col) || negb (has_column data edge_col) then
    print (u "列名不存在: " ++ node_col ++ u " 或 " ++ edge_col) ;;;
    io_ret (Value VNone)
  else io_ret (GraphObject (rows_graph L data node_col edge_col)).

Definition cluster_analysis (L : library) (data : DataFrame) (n_clusters : Z)
    : returned L :=
  if empty data then Value (error (u "数据为空"))
  else
    let numeric_cols := numeric_columns data in
    if decide (length numeric_cols < 2)%nat then Value (error (u "数值型列不足"))
    else
      let numeric_data := dropna L data numeric_cols in
      if empty numeric_data then Value (error (u "处理缺失值后数据为空"))
      else
        let fitted := kmeans L numeric_data n_clusters in
        Value (VDict
          [ (u "clusters", default VNone (dict_get (u "clusters") fitted));
            (u "cluster_centers", default VNone (dict_get (u "cluster_centers") fitted));
            (u "cluster_sizes", default VNone (dict_get (u "cluster_sizes") fitted));
            (u "columns", VList (map VStr numeric_cols)) ]).

(** [time_series_analysis] also stores the converted time column in
    [self.data]: the value returned and the data afterwards. *)
Definition time_series_analysis (L : library) (data : DataFrame) (time_col value_col : pystr)
    : returned L * DataFrame :=
  if empty data then (Value (error (u "数据为空")), data)
  else if negb (has_column data time_col) || negb (has_column data value_col) then
    (Value (error (u "列名不存在")), data)
  else
    match to_datetime L data time_col with
    | Raise e => (Value (error (u "时间列转换失败: " ++ exn_msg e)), data)
    | Ret data =>
      (Value (VDict
         [ (u "start_date", series_stat L (u "min.isoformat") data time_col);
           (u "end_date", series_stat L (u "max.isoformat") data time_col);
           (u "mean_value", series_stat L (u "mean") data value_col);
           (u "std_value", series_stat L (u "std") data value_col);
           (u "max_value", series_stat L (u "max") data value_col);
           (u "min_value", series_stat L (u "min") data value_col);
           (u "trend", calculate_trend L data time_col value_col) ]),
       data)
    end.

Definition geographic_analysis (L : library) (data : DataFrame) (lat_col lon_col : pystr)
    (value_col : option pystr) : returned L :=
  if empty data then Value (error (u "数据为空"))
  else if negb (has_column data lat_col) || negb (has_column data lon_col) then
    Value (error (u "经纬度列不存在"))
  else
    let geo_stats :=
      [ (u "center",
         VDict [ (u "latitude", series_stat L (u "mean") data lat_col);
                 (u "longitude", series_stat L (u "mean") data lon_col) ]);
        (u "bounding_box",
         VDict [ (u "min_latitude", series_stat L (u "min") data lat_col);
                 (u "max_latitude", series_stat L (u "max") data lat_col);
                 (u "min_longitude", series_stat L (u "min") data lon_col);
                 (u "max_longitude", series_stat L (u "max") data lon_col) ]);
        (u "points_count", VInt (Z.of_nat (index_length data))) ] in
    match value_col with
    | Some col =>
      if truthy (VStr col) && has_column data col then
        Value (VDict (dict_set (u "value_stats")
          (VDict [ (u "mean", series_stat L (u "mean") data col);
                   (u "std", series_stat L (u "std") data col);
                   (u "max", series_stat L (u "max") data col);
                   (u "min", series_stat L (u "min") data col) ])
          geo_stats))
      else Value (VDict geo_stats)
    | None => Value (VDict geo_stats)
    end.

Definition positive_words : list pystr :=
  [ u "好"; u "优秀"; u "精彩"; u "美丽"; u "喜欢"; u "赞"; u "棒"; u "完美"; u "出色";
    u "满意"; u "good"; u "great"; u "excellent"; u "wonderful"; u "beautiful";
    u "like"; u "love"; u "awesome"; u "perfect"; u "amazing" ].

Definition negative_words : list pystr :=
  [ u "坏"; u "糟糕"; u "差"; u "难看"; u "讨厌"; u "无聊"; u "失望"; u "垃圾"; u "恶心";
    u "不满"; u "bad"; u "terrible"; u "awful"; u "ugly"; u "hate"; u "boring";
    u "disappointed"; u "trash"; u "disgusting"; u "unhappy" ].

(** [sum(1 for word in words if word in vocabulary)]. *)
Definition count_in (vocabulary words : list pystr) : Z :=
  Z.of_nat (length (filter (fun word => word ∈ vocabulary) words)).

Definition sentiment_of (positive_count negative_count : Z) : pystr :=
  if negative_count <? positive_count then u "positive"
  else if positive_count <? negative_count then u "negative"
  else u "neutral".

(** [dict(Counter(labels))]. *)
Definition counter (labels : list pystr) : pydict :=
  map (fun '(label, n) => (label, VInt n)) (tally labels).

(** The column [data[text_col]] as the list of its cells. *)
Definition column_cells (data : DataFrame) (col : pystr) : list pyval :=
  match list_find (fun c => c.1 = col) (columns data) with
  | Some (i, _) => map (fun row => default VNone (row !! i)) (rows data)
  | None => []
  end.

Definition sentiment_analysis (L : library) (data : DataFrame) (text_col : pystr)
    : returned L :=
  if empty data then Value (error (u "数据为空"))
  else if negb (has_column data text_col) then Value (error (u "文本列不存在"))
  else
    let texts := map (words_of L) (column_cells data text_col) in
    let positive_counts := map (count_in positive_words) texts in
    let negative_counts := map (count_in negative_words) texts in
    let sentiments := zip_with sentiment_of positive_counts negative_counts in
    Value (VDict
      [ (u "sentiments", VList (map VStr sentiments));
        (u "sentiment_counts", VDict (counter sentiments));
        (u "positive_word_counts", VList (map VInt positive_counts));
        (u "negative_word_counts", VList (map VInt negative_counts));
        (u "average_positive_words", np_mean L positive_counts);
        (u "average_negative_words", np_mean L negative_counts) ]).

(** The readers of pandas; each raises on a file it cannot read. *)
Record readers := Readers {
  read_csv : pystr -> outcome DataFrame;
  read_json : pystr -> outcome DataFrame;
  read_excel : pystr -> outcome DataFrame
}.

(** [pd.DataFrame()]. *)
Definition no_data : DataFrame := Frame [] 0 [].

Definition _load_data (R : readers) (file_path : pystr) : io DataFrame :=
  try_except
    (if endswith file_path (u ".csv") then io_lift (read_csv R file_path)
     else if endswith file_path (u ".json") then io_lift (read_json R file_path)
     else if endswith file_path (u ".xlsx") then io_lift (read_excel R file_path)
     else io_raise (Exn Exception_ (u "不支持的文件格式: " ++ file_path)))
    (fun e =>
       print (u "加载数据时出错: " ++ exn_msg e) ;;;
       io_ret no_data).

(** [CulturalAnalyzer(data)], where [data] is a frame or the path of a file:
    the [data] attribute of the new object. *)
Definition init (R : readers) (data : DataFrame + pystr) : io DataFrame :=
  match data with
  | inl frame => io_ret frame
  | inr file_path => _load_data R file_path
  end.


End CulturalAnalyzer.

(** ** [.../digital_image_processing/image_analyzer.py] *)

Module ImageAnalyzer.

(** What OpenCV, NumPy and scikit-image compute for the analyzer, taken as
    given.  [imread] is [None] for a file that cannot be read;
    [meanStdDev img c] is [cv2.meanStdDev(img[:, :, c])]; [glcm_features] is
    the part of [_analyze_texture] inside its [try], which may raise. *)
Record opencv := OpenCV {
  image : Type;
  imread : pystr -> option image;
  cvtColor : image -> pystr -> image;
  meanStdDev : image -> nat -> float * float;
  canny_edge_density : image -> float;
  glcm_features : image -> outcome (float * float * float * float * float);
  composition : image -> pydict;
  np_mean : image -> float;
  np_std : image -> float;
  shannon_entropy : image -> float
}.

(** An [ImageAnalyzer] object: its three attributes. *)
Record self (C : opencv) := Self {
  image_path : pystr;
  image_ : option (image C);
  gray_image : option (image C)
}.
Arguments Self {C} image_path image_ gray_image.
Arguments image_path {C} s.
Arguments image_ {C} s.
Arguments gray_image {C} s.

(** [load_image]: [self.image] holds what [cv2.imread] gave, [None] included,
    by the time the exception for an unreadable file is raised and caught. *)
Definition load_image (C : opencv) (s : self C) : io (self C) :=
  try_except
    (match imread C (image_path s) with
     | None => io_raise (Exn Exception_ (u "无法加载图像: " ++ image_path s))
     | Some bgr =>
       let rgb := cvtColor C bgr (u "COLOR_BGR2RGB") in
       let gray := cvtColor C rgb (u "COLOR_RGB2GRAY") in
       io_ret (Self (image_path s) (Some rgb) (Some gray))
     end)
    (fun e =>
       print (u "加载图像时出错: " ++ exn_msg e) ;;;
       io_ret (Self (image_path s) None (gray_image s))).

(** [ImageAnalyzer(image_path)]. *)
Definition init (C : opencv) (path : pystr) : io (self C) :=
  load_image C (Self path None None).

(** The twelve keys of the colour-distribution dictionary, in order. *)
Definition color_keys : list pystr :=
  [ u "mean_r"; u "mean_g"; u "mean_b"; u "std_r"; u "std_g"; u "std_b";
    u "mean_l"; u "mean_a"; u "mean_b_lab"; u "std_l"; u "std_a"; u "std_b_lab" ].

Definition _analyze_color_distribution (C : opencv) (img : image C) : pydict :=
  let '(mean_r, std_r) := meanStdDev C img 0 in
  let '(mean_g, std_g) := meanStdDev C img 1 in
  let '(mean_b, std_b) := meanStdDev C img 2 in
  let lab_image := cvtColor C img (u "COLOR_RGB2Lab") in
  let '(mean_l, std_l) := meanStdDev C lab_image 0 in
  let '(mean_a, std_a) := meanStdDev C lab_image 1 in
  let '(mean_b_lab, std_b_lab) := meanStdDev C lab_image 2 in
  [ (u "mean_r", VFloat mean_r);
    (u "mean_g", VFloat mean_g);
    (u "mean_b", VFloat mean_b);
    (u "std_r", VFloat std_r);
    (u "std_g", VFloat std_g);
    (u "std_b", VFloat std_b);
    (u "mean_l", VFloat mean_l);
    (u "mean_a", VFloat mean_a);
    (u "mean_b_lab", VFloat mean_b_lab);
    (u "std_l", VFloat std_l);
    (u "std_a", VFloat std_a);
    (u "std_b_lab", VFloat std_b_lab) ].

Definition texture_dict (f : float * float * float * float * float) : pydict :=
  let '(contrast, dissimilarity, homogeneity, energy, correlation) := f in
  [ (u "contrast", VFloat contrast);
    (u "dissimilarity", VFloat dissimilarity);
    (u "homogeneity", VFloat homogeneity);
    (u "energy", VFloat energy);
    (u "correlation", VFloat correlation) ].

Definition _analyze_texture (C : opencv) (gray : image C) : io pydict :=
  try_except
    (features <~ io_lift (glcm_features C gray) ;;
     io_ret (texture_dict features))
    (fun e =>
       print (u "纹理分析出错: " ++ exn_msg e) ;;;
       io_ret (texture_dict (0.0, 0.0, 0.0, 0.0, 0.0)%float)).

(** [analyze].  The analyses after the colour distribution read
    [self.gray_image]; OpenCV rejects [None] there. *)
Definition analyze (C : opencv) (s : self C) : io pydict :=
  match image_ s with
  | None => io_ret [ (u "error", VStr (u "图像未加载")) ]
  | Some img =>
    let color_distribution := _analyze_color_distribution C img in
    match gray_image s with
    | None => io_raise (Exn Exception_ (u "OpenCV: image is None"))
    | Some gray =>
      let edge_density := canny_edge_density C gray in
      texture_features <~ _analyze_texture C gray ;;
      io_ret
        [ (u "color_distribution", VDict color_distribution);
          (u "edge_density", VFloat edge_density);
          (u "texture_features", VDict texture_features);
          (u "composition", VDict (composition C gray));
          (u "brightness", VFloat (np_mean C gray / 255.0)%float);
          (u "contrast", VFloat (np_std C gray / 255.0)%float);
          (u "entropy", VFloat (shannon_entropy C gray)) ]
    end
  end.

(** What OpenCV, PIL and scikit-image compute for the remaining methods,
    taken as given: the three adjustments of [enhance] together, the filters
    of the four styles, the face detector and the HOG descriptor, which may
    raise, and the threshold of [segment_image].  [picture] is the type of a
    [PIL.Image]. *)
Record toolkit (C : opencv) := Toolkit {
  picture : Type;
  fromarray : image C -> picture;
  adjust : image C -> float -> float -> float -> image C;
  impressionist : image C -> image C -> image C;
  sketch : image C -> image C;
  oil_painting : image C -> image C -> image C;
  watercolor : image C -> image C;
  detectMultiScale : image C -> outcome (list (Z * Z * Z * Z));
  threshold : image C -> image C;
  hog : image C -> outcome pyval
}.
Arguments picture {C} t.
Arguments fromarray {C} t img.
Arguments adjust {C} t img brightness contrast saturation.
Arguments impressionist {C} t img gray.
Arguments sketch {C} t gray.
Arguments oil_painting {C} t img gray.
Arguments watercolor {C} t img.
Arguments detectMultiScale {C} t gray.
Arguments threshold {C} t gray.
Arguments hog {C} t gray.

(** What OpenCV does when handed [None] for an image. *)
Definition no_image : exn := Exn Exception_ (u "OpenCV: image is None").

(** [enhance]: [None] without an image. *)
Definition enhance {C} (T : toolkit C) (s : self C) (brightness contrast saturation : float)
    : option (picture T) :=
  match image_ s with
  | None => None
  | Some img => Some (fromarray T (adjust T img brightness contrast saturation))
  end.

(** [style_transfer]: [None] without an image; a style that is none of the
    four leaves the copy of the image as it is. *)
Definition style_transfer {C} (T : toolkit C) (s : self C) (style : pystr)
    : outcome (option (picture T)) :=
  match image_ s with
  | None => Ret None
  | Some img =>
    if decide (style = u "impressionist") then
      match gray_image s with
      | Some gray => Ret (Some (fromarray T (impressionist T img gray)))
      | None => Raise no_image
      end
    else if decide (style = u "sketch") then
      match gray_image s with
      | Some gray => Ret (Some (fromarray T (sketch T gray)))
      | None => Raise no_image
      end
    else if decide (style = u "oil_painting") then
      match gray_image s with
      | Some gray => Ret (Some (fromarray T (oil_painting T img gray)))
      | None => Raise no_image
      end
    else if decide (style = u "watercolor") then
      Ret (Some (fromarray T (watercolor T img)))
    else Ret (Some (fromarray T img))
  end.

(** The dictionary [detect_faces] makes of one rectangle. *)
Definition face_box (face : Z * Z * Z * Z) : pyval :=
  let '(x, y, w, h) := face in
  VDict [ (u "x", VInt x); (u "y", VInt y); (u "width", VInt w); (u "height", VInt h) ].

(** [detect_faces]: the empty list without an image and when the detector
    raises. *)
Definition detect_faces {C} (T : toolkit C) (s : self C) : io (list pyval) :=
  match image_ s with
  | None => io_ret []
  | Some _ =>
    try_except
      (faces <~ io_lift (match gray_image s with
                         | Some gray => detectMultiScale T gray
                         | None => Raise no_image
                         end) ;;
       io_ret (map face_box faces))
      (fun e =>
         print (u "人脸检测出错: " ++ exn_msg e) ;;;
         io_ret [])
  end.

(** [segment_image]: [None] without an image. *)
Definition segment_image {C} (T : toolkit C) (s : self C) : outcome (option (image C)) :=
  match image_ s with
  | None => Ret None
  | Some _ =>
    match gray_image s with
    | Some gray => Ret (Some (threshold T gray))
    | None => Raise no_image
    end
  end.

(** [extract_features]: [None] without an image and when the descriptor
    raises. *)
Definition extract_features {C} (T : toolkit C) (s : self C) : io pyval :=
  match image_ s with
  | None => io_ret VNone
  | Some _ =>
    try_except
      (features <~ io_lift (match gray_image s with
                            | Some gray => hog T gray
                            | None => Raise no_image
                            end) ;;
       io_ret features)
      (fun e =>
         print (u "特征提取出错: " ++ exn_msg e) ;;;
         io_ret VNone)
  end.

End ImageAnalyzer.

(** ** Vocabulary of the statements *)

(** [k] occurs in [d] as a contiguous substring. *)
Definition occurs_in (k d : pystr) : Prop := exists pre post, d = pre ++ k ++ post.

(** A skill of the knowledge base is mentioned by a description when one of
    its keywords occurs in it. *)
Definition mentions (d : pystr) (entry : pystr * list pystr) : Prop :=
  exists k, k ∈ entry.2 /\ occurs_in k d.

Definition mentionsb (d : pystr) (entry : pystr * list pystr) : bool :=
  existsb (fun k => str_in k d) entry.2.

(** A keyword is found in a description: as a substring of a string, as an
    item of a list, as a key of a dictionary. *)
Definition found (description : pyval) (k : pystr) : Prop :=
  match description with
  | VStr d => occurs_in k d
  | VList l => VStr k ∈ l
  | VDict d => k ∈ dict_keys d
  | _ => False
  end.

(** A description of any kind names a skill of the knowledge base when one
    of the keywords of the skill is found in it. *)
Definition names (description : pyval) (entry : pystr * list pystr) : Prop :=
  exists k, k ∈ entry.2 /\ found description k.

(** The request type of a [needs] dictionary is a string. *)
Definition has_request_type (needs : pydict) : Prop :=
  exists s, dict_get (u "request_type") needs = Some (VStr s).

(** The [needs] dictionary after a keyword of [skill] was found. *)
Definition keyword_needs (skill : pystr) (request : pydict) : pydict :=
  [ (u "request_type", VStr skill);
    (u "data_types", VList []);
    (u "intent", VStr (u "process_" ++ skill));
    (u "confidence", VFloat 0.7);
    (u "data", VDict request) ].

(** The request type and the intent each data key stands for, in the order
    in which [identify_needs] tests the keys. *)
Definition data_key_skills : list (pystr * (pystr * pystr)) :=
  [ (u "text", (u "text_analysis", u "analyze_text"));
    (u "historical_data", (u "historical_research", u "research_history"));
    (u "heritage_data", (u "cultural_heritage", u "preserve_heritage"));
    (u "art_data", (u "art_cultural_research", u "analyze_art"));
    (u "language_data", (u "language_research", u "research_language"));
    (u "philosophy_data", (u "philosophy_research", u "research_philosophy"));
    (u "social_data", (u "social_cultural_analysis", u "analyze_social"));
    (u "education_data", (u "public_education", u "educate_public")) ].

(** The [needs] dictionary after the branch of a data key ran. *)
Definition data_needs (key skill intent : pystr) (v : pyval) : pydict :=
  [ (u "request_type", VStr skill);
    (u "data_types", VList [VStr key]);
    (u "intent", VStr intent);
    (u "confidence", VFloat 0.9);
    (u "data", VDict [ (key, v) ]) ].

(** The values [keyword in description] can search. *)
Definition iterable (v : pyval) : bool :=
  match v with
  | VStr _ | VList _ | VDict _ => true
  | _ => false
  end.

(** A keyword is found in a description of one of these kinds: as a
    substring of a string, as an item of a list, as a key of a dictionary. *)
Definition found_in (description : pyval) (k : pystr) : bool :=
  match description with
  | VStr d => str_in k d
  | VList l => existsb (is_VStr k) l
  | VDict d => dict_has k d
  | _ => false
  end.

(** A text the text analysis can take: a string, a dictionary, a list of
    strings, or anything false. *)
Definition analysable (text : pyval) : bool :=
  match text with
  | VStr _ | VDict _ => true
  | VList l => forallb (fun item => match item with VStr _ => true | _ => false end) l
  | _ => negb (truthy text)
  end.

(** The text [_extract_keywords] counts words in: the characters of the
    text that are no punctuation. *)
Definition cleaned (text : pystr) : pystr :=
  filter (fun c => c ∉ DigitalHumanities.punctuation) text.

(** How often an item occurs in a list. *)
Definition occurrences {A} `{EqDecision A} (x : A) (items : list A) : Z :=
  Z.of_nat (length (filter (fun y => y = x) items)).

(** The items come by decreasing key. *)
Fixpoint decreasing {A} (key : A -> Z) (items : list A) : Prop :=
  match items with
  | [] => True
  | x :: rest => Forall (fun y => key y <= key x) rest /\ decreasing key rest
  end.

(** The files a run wrote, in order, each with what was dumped into it. *)
Definition writes (t : list event) : list (pystr * pyval) :=
  omap (fun ev => match ev with EWrite path v => Some (path, v) | _ => None end) t.

(** The folders a run created. *)
Definition created (t : list event) : list pystr :=
  omap (fun ev => match ev with EMakedirs path => Some path | _ => None end) t.

(** A computation is quiet when it leaves no event. *)
Definition quiet {A} (m : io A) : Prop := forall w, trace (m w).2 = trace w.

(** The files [process_folder] takes up: those of the walk whose name has a
    configured extension, each with the folder it was found in. *)
Definition candidates (E : os_env) (input_folder : pystr) (file_extensions : list pystr)
    : list (pystr * pystr) :=
  flat_map (fun '(root, _, names) =>
              map (pair root) (filter (BatchProcessor.has_extension file_extensions) names))
           (walk E input_folder).

(** A file goes through when it can be read and its result can be written. *)
Definition succeeds (E : os_env) (output_folder : pystr) (file : pystr * pystr) : bool :=
  match open_read E (path_join E file.1 file.2),
        open_write E (BatchProcessor.result_path E output_folder file.2) with
  | Ret _, None => true
  | _, _ => false
  end.

(** The entry of the ["files"] list for a file the batch took up: a success
    with the path of its result, or a failure with the message of the
    exception that reading the file or writing its result raised. *)
Definition file_entry (E : os_env) (output_folder : pystr) (file : pystr * pystr) : pydict :=
  match open_read E (path_join E file.1 file.2) with
  | Raise e => BatchProcessor.failed_entry file.2 e
  | Ret _ =>
    match open_write E (BatchProcessor.result_path E output_folder file.2) with
    | Some e => BatchProcessor.failed_entry file.2 e
    | None =>
      BatchProcessor.success_entry file.2 (BatchProcessor.result_path E output_folder file.2)
    end
  end.

(** The status of an entry of the ["files"] list is one of the two words. *)
Definition status_known (entry : pydict) : Prop :=
  dict_get (u "status") entry = Some (VStr (u "success"))
  \/ dict_get (u "status") entry = Some (VStr (u "failed")).

(** The [stats] after the batch took up the given files. *)
Definition stats_after (E : os_env) (output_folder : pystr) (taken : list (pystr * pystr))
    (st : BatchProcessor.stats) : BatchProcessor.stats :=
  let succeeded := Z.of_nat (length (filter (succeeds E output_folder) taken)) in
  BatchProcessor.Stats
    (BatchProcessor.total_files st + Z.of_nat (length taken))
    (BatchProcessor.processed_files st + succeeded)
    (BatchProcessor.failed_files st + (Z.of_nat (length taken) - succeeded))
    (BatchProcessor.start_time st)
    (BatchProcessor.end_time st)
    (BatchProcessor.files st ++ map (file_entry E output_folder) taken).

(** The counters of [stats] add up and count the entries of ["files"]. *)
Definition stats_consistent (st : BatchProcessor.stats) : Prop :=
  BatchProcessor.total_files st
  = BatchProcessor.processed_files st + BatchProcessor.failed_files st
  /\ Z.of_nat (length (BatchProcessor.files st)) = BatchProcessor.total_files st
  /\ Forall status_known (BatchProcessor.files st).

(** The words of an entity, joined by single blanks. *)
Definition join_words (words : list pystr) : pystr :=
  match words with
  | [] => []
  | word :: rest => foldl (fun entity w => entity ++ u " " ++ w) word rest
  end.

(** The words of the proper nouns the tagged tokens start with. *)
Fixpoint proper_prefix (N : NetworkAnalysis.nlp) (tagged_tokens : list (pystr * pystr))
    : list pystr :=
  match tagged_tokens with
  | [] => []
  | token :: rest =>
    if NetworkAnalysis.is_proper_noun N token then token.1 :: proper_prefix N rest else []
  end.

(** The maximal runs of consecutive proper nouns among the tagged tokens,
    each as the list of its words; [current] holds the words of the run
    being read. *)
Fixpoint proper_runs (N : NetworkAnalysis.nlp) (tagged_tokens : list (pystr * pystr))
    (current : list pystr) : list (list pystr) :=
  match tagged_tokens with
  | [] => match current with [] => [] | _ => [current] end
  | token :: rest =>
    if NetworkAnalysis.is_proper_noun N token
    then proper_runs N rest (current ++ [token.1])
    else match current with [] => [] | _ => [current] end ++ proper_runs N rest []
  end.

(** The pairs [build_network] counts under a key: those of two different
    names whose ordered form is the key. *)
Definition counted_under (key : pystr * pystr) (p : pystr * pystr) : Prop :=
  p.1 <> p.2 /\ NetworkAnalysis.ordered p.1 p.2 = key.

(** How often two names were extracted as a pair, in either order. *)
Definition pairs_between (a b : pystr) (relationships : list (pystr * pystr)) : Z :=
  Z.of_nat (length (filter (fun p => p = (a, b) \/ p = (b, a)) relationships)).

(** The lines a run printed, in order. *)
Definition printed (t : list event) : list pystr :=
  omap (fun ev => match ev with EPrint line => Some line | _ => None end) t.


(** A returned value is a dictionary with an ["error"] key. *)
Definition is_error_dict (v : pyval) : Prop :=
  exists d, v = VDict d /\ dict_has (u "error") d = true.

(** A method of the cultural analyzer handed back such a dictionary. *)
Definition returns_error {L} (r : CulturalAnalyzer.returned L) : Prop :=
  exists v, r = CulturalAnalyzer.Value v /\ is_error_dict v.

(** ** A POSIX file system, a toy tagger and constant libraries, to run the
    definitions on concrete inputs *)

Module Demo.

(** [s.rfind(c)]. *)
Definition rfind (c : char) (p : pystr) : Z :=
  match list_find (fun x => x = c) (reverse p) with
  | Some (i, _) => Z.of_nat (length p) - 1 - Z.of_nat i
  | None => -1
  end.

(** [posixpath.splitext]: the extension starts at the last dot of the last
    component, leading dots apart. *)
Definition splitext_posix (p : pystr) : pystr * pystr :=
  let sep := rfind 47%N p in
  let dot := rfind 46%N p in
  if sep <? dot then
    if forallb (fun x => (x =? 46)%N) (py_slice p (sep + 1) dot) then (p, [])
    else (py_slice p 0 dot, py_slice p dot (Z.of_nat (length p)))
  else (p, []).

Definition join_posix (a b : pystr) : pystr :=
  if startswith b (u "/") then b
  else if bool_decide (a = []) || endswith a (u "/") then a ++ b
  else a ++ u "/" ++ b.

Definition lookup_file (files : list (pystr * outcome pystr)) (path : pystr)
    : outcome pystr :=
  default (Raise (Exn OSError (u "[Errno 2] No such file or directory: '" ++ path ++ u "'")))
          (dict_get path files).

(** A folder [data] with a subfolder; [data/b.md] is not valid UTF-8, and
    both folders hold a file [a.txt].  The folder [out] does not exist yet. *)
Definition demo_files : list (pystr * outcome pystr) :=
  [ (u "data/a.txt", Ret (u "数字人文结合了人文学科与数字技术"));
    (u "data/b.md",
     Raise (Exn UnicodeDecodeError
              (u "'utf-8' codec can't decode byte 0xff in position 0: invalid start byte")));
    (u "data/notes.bin", Ret (u "x"));
    (u "data/sub/a.txt", Ret (u "文化遗产保护"));
    (u "data/sub/c.csv", Ret (u "year,count")) ].

Definition demo_env : os_env :=
  {| strftime_now := fun n => u "2024-05-01 12:00:0" ++ str_of_Z (Z.of_nat n);
     path_exists := fun p => bool_decide (p ∈ [u "data"; u "data/sub"]);
     makedirs := fun _ => None;
     walk := fun p =>
       if bool_decide (p = u "data")
       then [ (u "data", [u "sub"], [u "a.txt"; u "b.md"; u "notes.bin"]);
              (u "data/sub", [], [u "a.txt"; u "c.csv"]) ]
       else [];
     path_join := join_posix;
     splitext := splitext_posix;
     open_read := lookup_file demo_files;
     open_write := fun _ => None |}.

Definition fresh_world : world := World 0 [].

(** Two sentences that name the same two people, in both orders. *)
Definition letters : list pystr :=
  [ u "Ada met Charles Babbage in London. Charles Babbage wrote to Ada. the end" ].

(** A request with a description only; the third skill of the knowledge base
    is the first one it mentions. *)
Definition heritage_request : pydict :=
  [ (u "description", VStr (u "研究文化遗产的保护")) ].

(** A tagger for plain ASCII text: sentences end at a full stop, words are
    separated by spaces, and a capitalised word is a proper noun. *)
Fixpoint split_on (c : char) (s : pystr) (current : pystr) : list pystr :=
  match s with
  | [] => if bool_decide (current = []) then [] else [current]
  | x :: rest =>
    if (x =? c)%N
    then (if bool_decide (current = []) then [] else [current]) ++ split_on c rest []
    else split_on c rest (current ++ [x])
  end.

Definition ascii_upper (c : char) : bool := ((65 <=? c) && (c <=? 90))%N.
Definition ascii_lower (c : char) : bool := ((97 <=? c) && (c <=? 122))%N.

Definition demo_nlp : NetworkAnalysis.nlp :=
  {| NetworkAnalysis.sent_tokenize := fun text => split_on 46%N text [];
     NetworkAnalysis.word_tokenize := fun sentence => split_on 32%N sentence [];
     NetworkAnalysis.pos_tag :=
       map (fun word => (word, match word with
                               | c :: _ => if ascii_upper c then u "NNP" else u "NN"
                               | [] => u "NN"
                               end));
     NetworkAnalysis.is_upper := ascii_upper;
     NetworkAnalysis.is_lower := ascii_lower |}.

(** Libraries that answer with fixed values. *)
Definition demo_algorithms : Nx.algorithms :=
  {| Nx.density := fun _ => VFloat 0.0;
     Nx.number_connected_components := fun _ => VInt 1;
     Nx.degree_centrality := fun _ => VDict [];
     Nx.betweenness_centrality := fun _ => VDict [];
     Nx.closeness_centrality := fun _ => VDict [];
     Nx.greedy_modularity_communities := None;
     Nx.connected_components := fun g => [Nx.nodes g];
     Nx.write_graph := fun format _ => VStr format |}.

Definition demo_library : CulturalAnalyzer.library :=
  {| CulturalAnalyzer.graph := unit;
     CulturalAnalyzer.describe := fun _ => VDict [];
     CulturalAnalyzer.categorical_summary := fun _ _ => VDict [];
     CulturalAnalyzer.missing_values := fun _ => VDict [];
     CulturalAnalyzer.corr := fun _ _ _ => VDict [];
     CulturalAnalyzer.dropna := fun df _ => df;
     CulturalAnalyzer.kmeans := fun _ _ => [];
     CulturalAnalyzer.to_datetime := fun df _ => Ret df;
     CulturalAnalyzer.series_stat := fun _ _ _ => VFloat 0.0;
     CulturalAnalyzer.calculate_trend := fun _ _ _ => VFloat 0.0;
     CulturalAnalyzer.rows_graph := fun _ _ _ => tt;
     CulturalAnalyzer.words_of := fun v => match v with
                                           | VStr s => split_on 32%N s []
                                           | _ => []
                                           end;
     CulturalAnalyzer.np_mean := fun _ => VFloat 0.0 |}.

(** A frame without rows, and one with two rows and the columns [name] and
    [rating]. *)
Definition empty_frame : CulturalAnalyzer.DataFrame :=
  CulturalAnalyzer.Frame [ (u "name", CulturalAnalyzer.DObject) ] 0 [].

Definition small_frame : CulturalAnalyzer.DataFrame :=
  CulturalAnalyzer.Frame
    [ (u "name", CulturalAnalyzer.DObject); (u "rating", CulturalAnalyzer.DNumber) ]
    2
    [ [VStr (u "a great show"); VInt 5]; [VStr (u "boring"); VInt 1] ].

(** An OpenCV that reads one file only, [art.png], and measures nothing. *)
Definition demo_opencv : ImageAnalyzer.opencv :=
  {| ImageAnalyzer.image := unit;
     ImageAnalyzer.imread := fun p => if bool_decide (p = u "art.png") then Some tt else None;
     ImageAnalyzer.cvtColor := fun img _ => img;
     ImageAnalyzer.meanStdDev := fun _ _ => (0.0, 0.0)%float;
     ImageAnalyzer.canny_edge_density := fun _ => 0.0%float;
     ImageAnalyzer.glcm_features :=
       fun _ => Raise (Exn Exception_ (u "cannot import name 'greycomatrix'"));
     ImageAnalyzer.composition := fun _ => [];
     ImageAnalyzer.np_mean := fun _ => 0.0%float;
     ImageAnalyzer.np_std := fun _ => 0.0%float;
     ImageAnalyzer.shannon_entropy := fun _ => 0.0%float |}.

(** Filters that return the image they are given, a detector that finds one
    face, and a HOG descriptor that cannot be imported. *)
Definition demo_toolkit : ImageAnalyzer.toolkit demo_opencv :=
  {| ImageAnalyzer.picture := unit;
     ImageAnalyzer.fromarray := fun _ => tt;
     ImageAnalyzer.adjust := fun img _ _ _ => img;
     ImageAnalyzer.impressionist := fun img _ => img;
     ImageAnalyzer.sketch := fun gray => gray;
     ImageAnalyzer.oil_painting := fun img _ => img;
     ImageAnalyzer.watercolor := fun img => img;
     ImageAnalyzer.detectMultiScale := fun _ => Ret [ (10, 20, 30, 40) ];
     ImageAnalyzer.threshold := fun gray => gray;
     ImageAnalyzer.hog :=
       fun _ => Raise (Exn Exception_ (u "No module named 'skimage'")) |}.

End Demo.


(* ===================================================================== *)
(** * Part II: theorems                                                   *)
(* ===================================================================== *)

(** ** Python strings and dictionaries *)

Section Strings.

Lemma startswith_spec s p : startswith s p = true <-> exists post, s = p ++ post.
Proof.
  revert s. induction p as [|c p IH]; intros s; simpl.
  - split; [intros _; by exists s | done].
  - destruct s as [|d s].
    + split; [done | intros [post Hpost]; discriminate].
    + destruct (decide (c = d)) as [->|Hne].
      * rewrite IH. split.
        -- intros [post ->]. by exists post.
        -- intros [post Hpost]. injection Hpost as ->. by exists post.
      * split; [done | intros [post Hpost]; congruence].
Qed.

(** The substring test of the model is the substring relation. *)
Lemma str_in_spec k d : str_in k d = true <-> occurs_in k d.
Proof.
  unfold occurs_in. induction d as [|c d IH]; simpl.
  - rewrite orb_false_r, startswith_spec. split.
    + intros [post Hpost]. by exists [], post.
    + intros (pre & post & H). symmetry in H.
      apply app_eq_nil in H as [-> H]. exists post. by rewrite H.
  - rewrite orb_true_iff, startswith_spec, IH. split.
    + intros [[post ->] | (pre & post & ->)]; [by exists [], post | by exists (c :: pre), post].
    + intros ([|c' pre] & post & H); simpl in H.
      * left. by exists post.
      * right. injection H as _ ->. by exists pre, post.
Qed.

(** The order on strings is total on distinct strings. *)
Lemma str_gt_irrefl a : str_gt a a = false.
Proof.
  induction a as [|x a IH]; simpl; [done|].
  destruct (N.ltb_spec x x); [lia | done].
Qed.

Lemma str_gt_total a b : a <> b -> str_gt a b = false -> str_gt b a = true.
Proof.
  revert b. induction a as [|x a IH]; intros [|y b] Hne; simpl; try done.
  destruct (N.ltb_spec y x), (N.ltb_spec x y); try done; try lia.
  assert (x = y) as -> by lia. intros Hgt. apply IH; [congruence | done].
Qed.

Lemma str_gt_asym a b : str_gt a b = true -> str_gt b a = false.
Proof.
  revert b. induction a as [|x a IH]; intros [|y b]; simpl; try done.
  destruct (N.ltb_spec y x), (N.ltb_spec x y); try done; try lia.
  apply IH.
Qed.

End Strings.

Section Dictionaries.
Context `{EqDecision K} {V : Type}.
Implicit Types (k : K) (v : V) (d : list (K * V)).

Lemma dict_get_has k d v : dict_get k d = Some v -> dict_has k d = true.
Proof.
  induction d as [|[k' v'] d IH]; simpl; [done|].
  destruct (decide (k' = k)); [done | exact IH].
Qed.

Lemma dict_has_get k d : dict_has k d = true <-> is_Some (dict_get k d).
Proof.
  induction d as [|[k' v'] d IH]; simpl.
  - split; [done | by intros [? ?]].
  - destruct (decide (k' = k)); [split; eauto | exact IH].
Qed.

Lemma dict_has_keys k d : dict_has k d = true <-> k ∈ dict_keys d.
Proof.
  unfold dict_keys. induction d as [|[k' v'] d IH]; simpl.
  - split; [done | by intros ?%not_elem_of_nil].
  - rewrite elem_of_cons. destruct (decide (k' = k)) as [->|Hne].
    + split; [by left | done].
    + rewrite IH. split; [by right | by intros [?|?]].
Qed.

Lemma dict_get_set_eq k v d : dict_get k (dict_set k v d) = Some v.
Proof.
  induction d as [|[k' v'] d IH]; simpl.
  - by rewrite decide_True.
  - destruct (decide (k' = k)) as [->|Hne]; simpl.
    + by rewrite decide_True.
    + by rewrite decide_False.
Qed.

Lemma dict_get_set_ne k k' v d : k <> k' -> dict_get k' (dict_set k v d) = dict_get k' d.
Proof.
  intros Hne. induction d as [|[k0 v0] d IH]; simpl.
  - by rewrite decide_False.
  - destruct (decide (k0 = k)) as [->|Hne0]; simpl.
    + by rewrite !decide_False.
    + destruct (decide (k0 = k')); [done | exact IH].
Qed.

Lemma dict_keys_set k v d :
  dict_keys (dict_set k v d) = if dict_has k d then dict_keys d else dict_keys d ++ [k].
Proof.
  unfold dict_keys. induction d as [|[k0 v0] d IH]; simpl; [done|].
  destruct (decide (k0 = k)) as [->|Hne]; simpl; [done|].
  rewrite IH. by destruct (dict_has k d).
Qed.

Lemma dict_set_NoDup k v d : NoDup (dict_keys d) -> NoDup (dict_keys (dict_set k v d)).
Proof.
  intros Hd. rewrite dict_keys_set. destruct (dict_has k d) eqn:Hk; [done|].
  apply NoDup_app. split_and!; [done | | apply NoDup_singleton].
  intros x Hx ->%list_elem_of_singleton. apply dict_has_keys in Hx. congruence.
Qed.

Lemma dict_length_set k v d :
  length (dict_set k v d) = if dict_has k d then length d else S (length d).
Proof.
  induction d as [|[k0 v0] d IH]; simpl; [done|].
  destruct (decide (k0 = k)); simpl; [done|].
  rewrite IH. by destruct (dict_has k d).
Qed.

Lemma dict_get_elem k v d : dict_get k d = Some v -> (k, v) ∈ d.
Proof.
  induction d as [|[k' v'] d IH]; simpl; [done|].
  destruct (decide (k' = k)) as [->|Hne].
  - intros [= ->]. by left.
  - intros H. right. by apply IH.
Qed.

Lemma dict_elem_get k v d : NoDup (dict_keys d) -> (k, v) ∈ d -> dict_get k d = Some v.
Proof.
  unfold dict_keys. induction d as [|[k' v'] d IH]; simpl.
  - by intros _ ?%not_elem_of_nil.
  - intros [Hk' Hd]%NoDup_cons [[= -> ->]|Hin]%elem_of_cons.
    + by rewrite decide_True.
    + rewrite decide_False; [by apply IH|].
      intros Heq. apply Hk'. apply list_elem_of_fmap. exists (k, v). by rewrite Heq.
Qed.

Lemma dict_has_set k k' v d :
  dict_has k' (dict_set k v d) = if decide (k' = k) then true else dict_has k' d.
Proof.
  induction d as [|[k0 v0] d IH]; cbn [dict_set dict_has].
  - destruct (decide (k' = k)) as [->|Hne].
    + by rewrite decide_True.
    + by rewrite decide_False.
  - destruct (decide (k0 = k)) as [->|Hne0]; cbn [dict_has].
    + destruct (decide (k = k')) as [->|Hne]; [by rewrite decide_True|].
      by rewrite decide_False.
    + destruct (decide (k0 = k')) as [->|Hne]; [by rewrite decide_False|done].
Qed.

End Dictionaries.

(** ** [BatchProcessor._split_content] *)

Section SplitContent.
Import BatchProcessor.

Lemma range_up_done fuel i stop step : stop <= i -> range_up fuel i stop step = [].
Proof.
  destruct fuel as [|fuel]; simpl; [done|].
  intros Hi. destruct (Z.ltb_spec i stop); [lia | done].
Qed.

Lemma clamp_index_inside len i : 0 <= i <= len -> clamp_index len i = i.
Proof. unfold clamp_index. intros H. destruct (Z.ltb_spec i 0); lia. Qed.

Lemma clamp_index_above len i : 0 <= len <= i -> clamp_index len i = len.
Proof. unfold clamp_index. intros H. destruct (Z.ltb_spec i 0); lia. Qed.

(** A slice of positive width that starts inside the string. *)
Lemma py_slice_chunk {A} (s : list A) i n :
  0 <= i <= Z.of_nat (length s) -> 0 < n ->
  py_slice s i (i + n) = take (Z.to_nat n) (drop (Z.to_nat i) s).
Proof.
  intros Hi Hn. unfold py_slice.
  rewrite (clamp_index_inside _ i) by done.
  destruct (Z.le_gt_cases (i + n) (Z.of_nat (length s))) as [Hle|Hgt].
  - rewrite clamp_index_inside by lia. f_equal. lia.
  - rewrite clamp_index_above by lia.
    rewrite !take_ge; [done | rewrite length_drop; lia | rewrite length_drop; lia].
Qed.

(** The chunks cut from position [i] on, when the fuel of [range_up] covers
    what is left of the content. *)
Lemma split_chunks_spec (content : pystr) cs fuel i :
  0 < cs -> 0 <= i <= Z.of_nat (length content) ->
  Z.of_nat (length content) - i <= Z.of_nat fuel ->
  let chunks := map (fun j => py_slice content j (j + cs))
                    (range_up fuel i (Z.of_nat (length content)) cs) in
  concat chunks = drop (Z.to_nat i) content
  /\ (forall k c, chunks !! k = Some c -> (S k < length chunks)%nat ->
                  Z.of_nat (length c) = cs)
  /\ (forall c, c ∈ chunks -> c <> []).
Proof.
  intros Hcs. revert i. induction fuel as [|fuel IH]; intros i Hi Hfuel.
  - simpl. assert (Z.to_nat i = length content) as -> by lia.
    rewrite drop_all. split_and!; [done | | ].
    + intros k c Hk. by rewrite lookup_nil in Hk.
    + intros c Hc. by apply not_elem_of_nil in Hc.
  - simpl. destruct (Z.ltb_spec i (Z.of_nat (length content))) as [Hlt|Hge].
    + simpl. rewrite py_slice_chunk by lia.
      destruct (Z.le_gt_cases (i + cs) (Z.of_nat (length content))) as [Hle|Hgt].
      * destruct (IH (i + cs)) as (Hcat & Hlen & Hne); [lia | lia |].
        split_and!.
        -- rewrite Hcat.
           replace (Z.to_nat (i + cs)) with (Z.to_nat i + Z.to_nat cs)%nat by lia.
           rewrite <- drop_drop. apply take_drop.
        -- intros [|k] c Hk Hlast; simpl in *.
           ++ injection Hk as <-. rewrite length_take, length_drop. lia.
           ++ apply (Hlen k c Hk). lia.
        -- intros c [->|Hc]%elem_of_cons; [|by apply Hne].
           intros Hnil. apply (f_equal (@length char)) in Hnil.
           rewrite length_take, length_drop in Hnil. simpl in Hnil. lia.
      * rewrite range_up_done by lia. simpl. split_and!.
        -- rewrite app_nil_r. apply take_ge. rewrite length_drop. lia.
        -- intros [|k] c Hk Hlast; simpl in *; [lia|]. by rewrite lookup_nil in Hk.
        -- intros c ->%list_elem_of_singleton.
           intros Hnil. apply (f_equal (@length char)) in Hnil.
           rewrite length_take, length_drop in Hnil. simpl in Hnil. lia.
    + simpl. assert (Z.to_nat i = length content) as -> by lia.
      rewrite drop_all. split_and!; [done | | ].
      * intros k c Hk. by rewrite lookup_nil in Hk.
      * intros c Hc. by apply not_elem_of_nil in Hc.
Qed.

(** C8.  For a positive chunk size, [_split_content] returns a list of chunks
    whose concatenation is the content; every chunk but the last has exactly
    [chunk_size] characters; and no chunk is empty (so none is when the
    content is not). *)
Theorem split_content_roundtrip (content : pystr) (chunk_size : Z) :
  0 < chunk_size ->
  exists chunks,
    _split_content content chunk_size = Ret chunks
    /\ concat chunks = content
    /\ (forall k c, chunks !! k = Some c -> (S k < length chunks)%nat ->
                    Z.of_nat (length c) = chunk_size)
    /\ (content <> [] -> forall c, c ∈ chunks -> c <> []).
Proof.
  intros Hcs. unfold _split_content, py_range.
  destruct (Z.eqb_spec chunk_size 0) as [|_]; [lia|].
  destruct (Z.ltb_spec 0 chunk_size) as [_|]; [|lia].
  eexists. split; [reflexivity|].
  destruct (split_chunks_spec content chunk_size
              (Z.to_nat (Z.of_nat (length content) - 0)) 0) as (Hcat & Hlen & Hne);
    [lia | lia | lia |].
  split_and!; [by rewrite Hcat | done | intros _; done].
Qed.

(** Seven characters in chunks of three: two full chunks and a last one. *)
Lemma split_content_roundtrip_witness :
  0 < 3
  /\ _split_content (u "abcdefg") 3 = Ret [u "abc"; u "def"; u "g"]
  /\ exists chunks,
       _split_content (u "abcdefg") 3 = Ret chunks
       /\ concat chunks = u "abcdefg"
       /\ (forall k c, chunks !! k = Some c -> (S k < length chunks)%nat ->
                       Z.of_nat (length c) = 3)
       /\ (u "abcdefg" <> [] -> forall c, c ∈ chunks -> c <> []).
Proof.
  split; [lia|]. split; [reflexivity|].
  apply (split_content_roundtrip (u "abcdefg") 3). lia.
Defined.

End SplitContent.

(** ** [IntelligentAssistant.identify_needs] *)

Section IdentifyNeeds.
Import DigitalHumanities.

Lemma mentionsb_spec d entry : mentionsb d entry = true <-> mentions d entry.
Proof.
  unfold mentionsb, mentions. rewrite existsb_exists. split.
  - intros (k & Hk & Hin). exists k. split; [by apply list_elem_of_In | by apply str_in_spec].
  - intros (k & Hk & Hin). exists k. split; [by apply list_elem_of_In | by apply str_in_spec].
Qed.

(** The inner loop on a fresh [needs] and a string description. *)
Lemma scan_keywords_initial skill keywords d request :
  scan_keywords skill keywords (VStr d) request initial_needs
  = Ret (if mentionsb d (skill, keywords) then keyword_needs skill request
         else initial_needs).
Proof.
  unfold mentionsb. simpl. induction keywords as [|k keywords IH]; [done|].
  simpl. destruct (str_in k d); [reflexivity | exact IH].
Qed.

(** The outer loop stops at the first skill the description mentions. *)
Lemma scan_skills_initial kb d request :
  scan_skills kb (VStr d) request initial_needs
  = Ret (match find (mentionsb d) kb with
         | Some (skill, _) => keyword_needs skill request
         | None => initial_needs
         end).
Proof.
  induction kb as [|[skill keywords] kb IH]; [done|].
  cbn [scan_skills find]. rewrite scan_keywords_initial.
  destruct (mentionsb d (skill, keywords)); [reflexivity | exact IH].
Qed.

Lemma find_first_mention d kb :
  match find (mentionsb d) kb with
  | Some entry =>
    exists before after, kb = before ++ entry :: after
                         /\ Forall (fun e => ~ mentions d e) before /\ mentions d entry
  | None => Forall (fun e => ~ mentions d e) kb
  end.
Proof.
  induction kb as [|e kb IH]; simpl; [constructor|].
  destruct (mentionsb d e) eqn:He.
  - exists [], kb. split_and!; [done | constructor | by apply mentionsb_spec].
  - assert (~ mentions d e) as Hne by (rewrite <- mentionsb_spec, He; done).
    destruct (find (mentionsb d) kb) as [entry|].
    + destruct IH as (before & after & -> & Hbefore & Hentry).
      exists (e :: before), after. split_and!; [done | by constructor | done].
    + by constructor.
Qed.

Lemma first_mention_unique d (before before' : list (pystr * list pystr)) e e' after after' :
  before ++ e :: after = before' ++ e' :: after' ->
  Forall (fun x => ~ mentions d x) before -> mentions d e ->
  Forall (fun x => ~ mentions d x) before' -> mentions d e' ->
  e = e'.
Proof.
  revert before'.
  induction before as [|x before IH]; intros [|x' before'] Heq Hb He Hb' He';
    simpl in Heq.
  - congruence.
  - injection Heq as -> _. by apply Forall_cons in Hb' as [? _].
  - injection Heq as -> _. by apply Forall_cons in Hb as [? _].
  - injection Heq as -> Heq.
    apply Forall_cons in Hb as [_ Hb]. apply Forall_cons in Hb' as [_ Hb'].
    by apply (IH before').
Qed.

(** C1.  The knowledge base lists the eight skills in the stated order.  A
    request without any of the eight data keys and with a string under
    ["description"] yields a [needs] dictionary such that: if a skill is the
    first of the knowledge base one of whose keywords occurs in the
    description, the request type is that skill, the confidence [0.7] and the
    data the whole request; if no keyword of any skill occurs, the request
    type stays ["unknown"] and the confidence [0.0]. *)
Theorem identify_needs_by_keyword (request : pydict) (description : pystr) :
  Forall (fun key => dict_has key request = false) data_keys ->
  dict_get (u "description") request = Some (VStr description) ->
  dict_keys knowledge_base_keywords
  = [ u "text_analysis"; u "historical_research"; u "art_cultural_research";
      u "language_research"; u "philosophy_research"; u "social_cultural_analysis";
      u "cultural_heritage"; u "public_education" ]
  /\ exists needs,
    identify_needs request = Ret needs
    /\ (forall before skill keywords after,
          knowledge_base_keywords = before ++ (skill, keywords) :: after ->
          Forall (fun e => ~ mentions description e) before ->
          mentions description (skill, keywords) ->
          dict_get (u "request_type") needs = Some (VStr skill)
          /\ dict_get (u "confidence") needs = Some (VFloat 0.7)
          /\ dict_get (u "data") needs = Some (VDict request))
    /\ (Forall (fun e => ~ mentions description e) knowledge_base_keywords ->
          dict_get (u "request_type") needs = Some (VStr (u "unknown"))
          /\ dict_get (u "confidence") needs = Some (VFloat 0.0)).
Proof.
  intros Hkeys Hdesc. split; [reflexivity|].
  assert (identify_needs request
          = scan_skills knowledge_base_keywords (VStr description) request initial_needs)
    as ->.
  { unfold identify_needs.
    repeat (apply Forall_cons in Hkeys as [Hkey Hkeys]; rewrite Hkey; clear Hkey).
    rewrite (dict_get_has _ _ _ Hdesc). unfold dict_item. by rewrite Hdesc. }
  rewrite scan_skills_initial. eexists. split; [reflexivity|].
  pose proof (find_first_mention description knowledge_base_keywords) as Hfind.
  destruct (find (mentionsb description) knowledge_base_keywords) as [[skill' keywords']|].
  - destruct Hfind as (before' & after' & Hkb' & Hbefore' & Hentry'). split.
    + intros before skill keywords after Hkb Hbefore Hentry.
      rewrite Hkb' in Hkb.
      assert ((skill', keywords') = (skill, keywords)) as [= -> ->]
        by (eapply first_mention_unique; eauto).
      done.
    + intros Hnone. rewrite Hkb' in Hnone.
      apply Forall_app in Hnone as [_ [Hnone _]%Forall_cons]. done.
  - split.
    + intros before skill keywords after Hkb Hbefore Hentry.
      rewrite Hkb in Hfind. apply Forall_app in Hfind as [_ [Hnone _]%Forall_cons]. done.
    + done.
Qed.

(** A description that mentions the third, sixth and seventh skill. *)
Lemma identify_needs_by_keyword_witness :
  Forall (fun key => dict_has key Demo.heritage_request = false) data_keys
  /\ dict_get (u "description") Demo.heritage_request = Some (VStr (u "研究文化遗产的保护"))
  /\ exists needs,
       identify_needs Demo.heritage_request = Ret needs
       /\ dict_get (u "request_type") needs = Some (VStr (u "art_cultural_research"))
       /\ dict_get (u "confidence") needs = Some (VFloat 0.7)
       /\ dict_get (u "data") needs = Some (VDict Demo.heritage_request).
Proof.
  assert (Forall (fun key => dict_has key Demo.heritage_request = false) data_keys) as Hkeys
    by (repeat constructor).
  assert (dict_get (u "description") Demo.heritage_request
          = Some (VStr (u "研究文化遗产的保护"))) as Hdesc by reflexivity.
  split; [exact Hkeys|]. split; [exact Hdesc|].
  destruct (identify_needs_by_keyword _ _ Hkeys Hdesc) as (_ & needs & Hret & Hfirst & _).
  exists needs. split; [exact Hret|].
  apply (Hfirst (take 2 knowledge_base_keywords) _
                [u "艺术"; u "文化"; u "风格"; u "遗产"; u "比较"]
                (drop 3 knowledge_base_keywords)).
  - reflexivity.
  - repeat constructor; rewrite <- mentionsb_spec; vm_compute; discriminate.
  - apply mentionsb_spec. reflexivity.
Defined.

End IdentifyNeeds.

Section RequestType.
Import DigitalHumanities.

Lemma data_branch_request_type request key request_type intent needs :
  data_branch request key request_type intent initial_needs = Ret needs ->
  has_request_type needs.
Proof.
  unfold data_branch. cbn [initial_needs]. 
  change (dict_append (u "data_types") (VStr key)
            (dict_set (u "request_type") (VStr request_type) initial_needs))
    with (Ret [ (u "request_type", VStr request_type);
                (u "data_types", VList [VStr key]);
                (u "intent", VStr []);
                (u "confidence", VFloat 0.0);
                (u "data", VDict []) ]).
  cbn [obind]. destruct (dict_item key request) as [v|e]; cbn [obind]; [|done].
  intros [= <-]. by eexists.
Qed.

Lemma scan_keywords_request_type skill keywords description request : forall needs needs',
  has_request_type needs ->
  scan_keywords skill keywords description request needs = Ret needs' ->
  has_request_type needs'.
Proof.
  induction keywords as [|k keywords IH]; intros needs needs' Hneeds; cbn [scan_keywords].
  - by intros [= <-].
  - destruct (str_in_value k description) as [[|]|e]; cbn [obind]; [| by apply IH | done].
    intros [= <-]. exists skill.
    rewrite !dict_get_set_ne by (vm_compute; discriminate). apply dict_get_set_eq.
Qed.

Lemma scan_skills_request_type kb description request : forall needs needs',
  has_request_type needs ->
  scan_skills kb description request needs = Ret needs' ->
  has_request_type needs'.
Proof.
  induction kb as [|[skill keywords] kb IH]; intros needs needs' Hneeds; cbn [scan_skills].
  - by intros [= <-].
  - destruct (scan_keywords skill keywords description request needs) as [needs1|e] eqn:Hscan;
      cbn [obind]; [|done].
    apply scan_keywords_request_type in Hscan; [|done].
    destruct (dict_item (u "confidence") needs1) as [c|e]; cbn [obind]; [|done].
    destruct (py_gt_zero c) as [[|]|e]; cbn [obind]; [| by apply IH | done].
    by intros [= <-].
Qed.

(** Whatever the request, the request type [identify_needs] stores is a
    string; [match_skills] relies on it. *)
Lemma identify_needs_request_type request needs :
  identify_needs request = Ret needs -> has_request_type needs.
Proof.
  unfold identify_needs.
  repeat (match goal with |- context [if dict_has ?k request then _ else _] =>
            destruct (dict_has k request); [by apply data_branch_request_type|] end).
  destruct (dict_has (u "description") request).
  - destruct (dict_item (u "description") request) as [d|e]; cbn [obind]; [|done].
    apply scan_skills_request_type. by eexists.
  - intros [= <-]. by eexists.
Qed.

End RequestType.

(** ** Error handling of the public operations *)

Section ErrorHandling.
Import DigitalHumanities.

(** The handler of [process_request] turns any exception into a dictionary. *)
Lemma process_request_outcome E request w :
  process_request E request w
  = match process_request_body E request w with
    | (Ret d, w') => (Ret d, w')
    | (Raise e, w') =>
      (Ret [ (u "error", VStr (exn_msg e));
             (u "timestamp", VStr (strftime_now E (clock w'))) ],
       World (S (clock w')) (trace w'))
    end.
Proof.
  unfold process_request, try_except.
  by destruct (process_request_body E request w) as [[d|e] w'].
Qed.

Lemma process_request_returns E request w :
  exists d w', process_request E request w = (Ret d, w').
Proof.
  rewrite process_request_outcome.
  destruct (process_request_body E request w) as [[d|e] w']; eauto.
Qed.

(** C2, as the code has it.  [process_request] never raises: whatever its
    body does, it returns a dictionary, and when a step of the body raises
    the dictionary has exactly the keys ["error"] and ["timestamp"], the
    error being the message of the exception.  [load_image] neither raises:
    for a file that cannot be read it prints one line and leaves the image
    unset.  [export_network] is a public operation that does raise: a format
    other than the four it supports gives [ValueError] to the caller, and
    nothing is written. *)
Theorem error_handling_of_public_operations :
  (forall E request w,
     exists d w',
       process_request E request w = (Ret d, w')
       /\ forall e w1,
            process_request_body E request w = (Raise e, w1) ->
            dict_keys d = [u "error"; u "timestamp"]
            /\ dict_get (u "error") d = Some (VStr (exn_msg e)))
  /\ (forall C (s : ImageAnalyzer.self C) w,
        exists s' w',
          ImageAnalyzer.load_image C s w = (Ret s', w')
          /\ (ImageAnalyzer.imread C (ImageAnalyzer.image_path s) = None ->
              ImageAnalyzer.image_ s' = None
              /\ exists line, trace w' = trace w ++ [EPrint line]))
  /\ (forall A N E s file_path format w,
        format <> u "graphml" -> format <> u "gexf" ->
        format <> u "gml" -> format <> u "json" ->
        NetworkAnalysis.export_network A N E s file_path format w
        = (Raise (Exn ValueError (u "Unsupported format: " ++ format)), w)).
Proof.
  split_and!.
  - intros E request w. rewrite process_request_outcome.
    destruct (process_request_body E request w) as [[d|e] w'] eqn:Hbody.
    + exists d, w'. split; [done|]. intros e w1 [=].
    + eexists _, _. split; [reflexivity|]. intros e' w1 [= <- <-]. done.
  - intros C s w. unfold ImageAnalyzer.load_image, try_except.
    destruct (ImageAnalyzer.imread C (ImageAnalyzer.image_path s)) as [bgr|].
    + eexists _, _. split; [reflexivity | done].
    + eexists _, _. split; [reflexivity|]. intros _. split; [done|]. by eexists.
  - intros A N E s file_path format w H1 H2 H3 H4.
    unfold NetworkAnalysis.export_network. by rewrite !decide_False.
Qed.

(** A request whose text is a number: [len] raises inside the body, and
    [process_request] hands back the error dictionary. *)
Lemma error_handling_of_public_operations_witness :
  (exists e w1, process_request_body Demo.demo_env [ (u "text", VInt 5) ] Demo.fresh_world
                = (Raise e, w1)
                /\ exn_cls e = TypeError)
  /\ exists d w',
       process_request Demo.demo_env [ (u "text", VInt 5) ] Demo.fresh_world = (Ret d, w')
       /\ dict_keys d = [u "error"; u "timestamp"].
Proof.
  split; [eexists _, _; split; reflexivity|].
  destruct error_handling_of_public_operations as (Hrequest & _ & _).
  destruct (Hrequest Demo.demo_env [ (u "text", VInt 5) ] Demo.fresh_world)
    as (d & w' & Hret & Herr).
  exists d, w'. split; [exact Hret|].
  eapply Herr. reflexivity.
Defined.

(** C2 does not hold of every public operation: exporting a network to an
    unsupported format raises [ValueError]. *)
Lemma export_network_propagates :
  (NetworkAnalysis.export_network Demo.demo_algorithms Demo.demo_nlp Demo.demo_env
     (NetworkAnalysis.init []) (u "network.xml") (u "xml") Demo.fresh_world).1
  = Raise (Exn ValueError (u "Unsupported format: xml")).
Proof. reflexivity. Qed.

End ErrorHandling.

(** ** [BatchProcessor.process_folder] *)

Section Quiet.

Lemma quiet_ret {A} (a : A) : quiet (io_ret a).
Proof. done. Qed.

Lemma quiet_raise {A} e : quiet (@io_raise A e).
Proof. done. Qed.

Lemma quiet_lift {A} (o : outcome A) : quiet (io_lift o).
Proof. done. Qed.

Lemma quiet_now E : quiet (now E).
Proof. done. Qed.

Lemma quiet_bind {A B} (m : io A) (k : A -> io B) :
  quiet m -> (forall a, quiet (k a)) -> quiet (io_bind m k).
Proof.
  intros Hm Hk w. unfold io_bind. specialize (Hm w).
  destruct (m w) as [[a|e] w1]; simpl in *; [|done].
  by rewrite Hk.
Qed.

Lemma quiet_try {A} (m : io A) (h : exn -> io A) :
  quiet m -> (forall e, quiet (h e)) -> quiet (try_except m h).
Proof.
  intros Hm Hh w. unfold try_except. specialize (Hm w).
  destruct (m w) as [[a|e] w1]; simpl in *; [done|].
  by rewrite Hh.
Qed.

End Quiet.

Section ProcessFolder.
Import DigitalHumanities BatchProcessor.

Lemma process_request_quiet E request : quiet (process_request E request).
Proof.
  apply quiet_try.
  - unfold process_request_body, update_system.
    repeat first [ apply quiet_bind; [|intros ?] | apply quiet_lift | apply quiet_now
                 | apply quiet_ret ].
  - intros e. apply quiet_bind; [apply quiet_now | intros ?; apply quiet_ret].
Qed.

Lemma process_request_spec E request w :
  exists d w', process_request E request w = (Ret d, w') /\ trace w' = trace w.
Proof.
  destruct (process_request_returns E request w) as (d & w' & Hd).
  exists d, w'. split; [done|].
  pose proof (process_request_quiet E request w) as Hq. by rewrite Hd in Hq.
Qed.

Lemma process_chunks_spec E file_name chunks : forall i results w,
  exists results' w',
    process_chunks E file_name i chunks results w = (Ret results', w')
    /\ trace w' = trace w.
Proof.
  induction chunks as [|chunk chunks IH]; intros i results w; simpl.
  - by eexists _, _.
  - unfold io_bind at 1.
    match goal with |- context [process_request E ?r w] =>
      destruct (process_request_spec E r w) as (d & w1 & -> & Hq) end.
    match goal with |- context [process_chunks E file_name ?j chunks ?rs w1] =>
      destruct (IH j rs w1) as (results' & w' & -> & Ht) end.
    eexists _, _. split; [reflexivity | congruence].
Qed.

(** [process_file] always returns, and leaves no event. *)
Lemma process_file_spec E content file_name w :
  exists result w', process_file E content file_name w = (Ret result, w') /\ trace w' = trace w.
Proof.
  unfold process_file. destruct (1000000 <? Z.of_nat (length content)).
  - assert (exists chunks, _split_content content 500000 = Ret chunks) as [chunks ->]
      by (by eexists).
    unfold io_bind at 1, io_lift.
    destruct (process_chunks_spec E file_name chunks 0 [] w) as (results & w' & Hr & Ht).
    unfold io_bind. rewrite Hr. by eexists _, _.
  - unfold io_bind.
    match goal with |- context [process_request E ?r w] =>
      destruct (process_request_spec E r w) as (d & w' & -> & Hq) end.
    by eexists _, _.
Qed.

Lemma writes_snoc t ev :
  writes (t ++ [ev])
  = writes t ++ match ev with EWrite path v => [(path, v)] | _ => [] end.
Proof. unfold writes. rewrite omap_app. by destruct ev. Qed.

Lemma created_snoc t ev :
  created (t ++ [ev])
  = created t ++ match ev with EMakedirs path => [path] | _ => [] end.
Proof. unfold created. rewrite omap_app. by destruct ev. Qed.

(** One file of the walk: the entry is counted, and either its result is
    written and it is recorded as a success, or nothing is written and it is
    recorded as a failure. *)
Lemma process_entry_spec E output_folder root file_name st w :
  exists st' w',
    process_entry E output_folder root file_name st w = (Ret st', w')
    /\ created (trace w') = created (trace w)
    /\ start_time st' = start_time st
    /\ (stats_consistent st -> stats_consistent st')
    /\ exists results,
         writes (trace w') = writes (trace w) ++ results
         /\ map fst results
            = if succeeds E output_folder (root, file_name)
              then [result_path E output_folder file_name] else [].
Proof.
  unfold process_entry, succeeds, try_except. cbn [fst snd].
  unfold io_bind at 1 2. cbn [print emit clock trace].
  unfold io_bind at 1, io_lift at 1.
  destruct (open_read E (path_join E root file_name)) as [content|e].
  - unfold io_bind at 1.
    match goal with |- context [process_file E content file_name ?w0] =>
      destruct (process_file_spec E content file_name w0) as (result & w1 & -> & Hq) end.
    cbn [trace] in Hq. unfold io_bind at 1, attempt.
    destruct (open_write E (result_path E output_folder file_name)) as [e|].
    + cbn [io_raise io_bind print emit io_ret clock trace].
      eexists _, _. split; [reflexivity|]. cbn [trace start_time].
      rewrite !created_snoc, !writes_snoc, Hq, !created_snoc, !writes_snoc, !app_nil_r.
      split_and!; [done | done | | exists []; by rewrite app_nil_r].
      intros (Hsum & Hlen & Hst).
      split_and!; cbn [total_files processed_files failed_files files].
      * lia.
      * rewrite length_app. simpl. lia.
      * apply Forall_app. split; [done|]. constructor; [by right | constructor].
    + cbn [io_raise io_bind print emit io_ret clock trace].
      eexists _, _. split; [reflexivity|]. cbn [trace start_time].
      rewrite !created_snoc, !writes_snoc, Hq, !created_snoc, !writes_snoc, !app_nil_r.
      split_and!; [done | done | | by eexists [_]].
      intros (Hsum & Hlen & Hst).
      split_and!; cbn [total_files processed_files failed_files files].
      * lia.
      * rewrite length_app. simpl. lia.
      * apply Forall_app. split; [done|]. constructor; [by left | constructor].
  - cbn [io_raise io_bind print emit io_ret clock trace].
    eexists _, _. split; [reflexivity|]. cbn [trace start_time].
    rewrite !created_snoc, !writes_snoc, !app_nil_r.
    split_and!; [done | done | | exists []; by rewrite app_nil_r].
    intros (Hsum & Hlen & Hst).
    split_and!; cbn [total_files processed_files failed_files files].
    + lia.
    + rewrite length_app. simpl. lia.
    + apply Forall_app. split; [done|]. constructor; [by right | constructor].
Qed.

Lemma process_names_spec E output_folder file_extensions root names : forall st w,
  exists st' w',
    process_names E output_folder file_extensions root names st w = (Ret st', w')
    /\ created (trace w') = created (trace w)
    /\ start_time st' = start_time st
    /\ (stats_consistent st -> stats_consistent st')
    /\ exists results,
         writes (trace w') = writes (trace w) ++ results
         /\ map fst results
            = map (fun file => result_path E output_folder file.2)
                  (filter (succeeds E output_folder)
                          (map (pair root) (filter (has_extension file_extensions) names))).
Proof.
  induction names as [|file_name names IH]; intros st w.
  - exists st, w. split_and!; try done. exists []. by rewrite app_nil_r.
  - cbn [process_names]. rewrite filter_cons.
    destruct (has_extension file_extensions file_name) eqn:Hext.
    + rewrite decide_True by done. cbn [map]. rewrite filter_cons.
      unfold io_bind.
      destruct (process_entry_spec E output_folder root file_name st w)
        as (st1 & w1 & -> & Hc1 & Hs1 & Hi1 & results1 & Hw1 & Hr1).
      destruct (IH st1 w1) as (st' & w' & -> & Hc & Hs & Hi & results & Hw & Hr).
      exists st', w'. split_and!; [done | congruence | congruence | tauto |].
      exists (results1 ++ results). split; [by rewrite Hw, Hw1, app_assoc|].
      rewrite map_app, Hr1, Hr.
      destruct (succeeds E output_folder (root, file_name)).
      * reflexivity.
      * reflexivity.
    + apply IH.
Qed.

Lemma process_walk_spec E output_folder file_extensions listing : forall st w,
  exists st' w',
    process_walk E output_folder file_extensions listing st w = (Ret st', w')
    /\ created (trace w') = created (trace w)
    /\ start_time st' = start_time st
    /\ (stats_consistent st -> stats_consistent st')
    /\ exists results,
         writes (trace w') = writes (trace w) ++ results
         /\ map fst results
            = map (fun file => result_path E output_folder file.2)
                  (filter (succeeds E output_folder)
                     (flat_map (fun '(root, _, names) =>
                                  map (pair root)
                                      (filter (has_extension file_extensions) names))
                               listing)).
Proof.
  induction listing as [|[[root dirs] names] listing IH]; intros st w.
  - exists st, w. split_and!; try done. exists []. by rewrite app_nil_r.
  - cbn [process_walk flat_map]. unfold io_bind.
    destruct (process_names_spec E output_folder file_extensions root names st w)
      as (st1 & w1 & -> & Hc1 & Hs1 & Hi1 & results1 & Hw1 & Hr1).
    destruct (IH st1 w1) as (st' & w' & -> & Hc & Hs & Hi & results & Hw & Hr).
    exists st', w'. split_and!; [done | congruence | congruence | tauto |].
    exists (results1 ++ results). split; [by rewrite Hw, Hw1, app_assoc|].
    by rewrite filter_app, !map_app, Hr1, Hr.
Qed.

(** The whole run on an existing input folder.  It raises only when the
    output folder cannot be created or the summary cannot be written;
    otherwise it returns the summary, having written one result per file
    that went through, in the order of the walk, and the summary last. *)
Lemma process_folder_spec E input_folder output_folder file_extensions w :
  path_exists E input_folder = true ->
  match (if path_exists E output_folder then None else makedirs E output_folder) with
  | Some e =>
    process_folder E input_folder output_folder file_extensions w = (Raise e, w)
  | None =>
    exists st w1 results,
      stats_consistent st
      /\ writes (trace w1) = writes (trace w) ++ results
      /\ map fst results
         = map (fun file => result_path E output_folder file.2)
               (filter (succeeds E output_folder)
                       (candidates E input_folder file_extensions))
      /\ created (trace w1)
         = created (trace w) ++ (if path_exists E output_folder then [] else [output_folder])
      /\ match open_write E (stats_path E output_folder) with
         | Some e =>
           process_folder E input_folder output_folder file_extensions w = (Raise e, w1)
         | None =>
           exists w',
             process_folder E input_folder output_folder file_extensions w
             = (Ret (stats_dict st), w')
             /\ writes (trace w')
                = writes (trace w1) ++ [(stats_path E output_folder, VDict (stats_dict st))]
             /\ created (trace w') = created (trace w1)
         end
  end.
Proof.
  intros Hin.
  remember (process_folder E input_folder output_folder file_extensions w) as run eqn:Hrun.
  unfold process_folder in Hrun. rewrite Hin in Hrun. cbn [negb] in Hrun.
  unfold io_bind at 1 in Hrun.
  assert ((if negb (path_exists E output_folder)
           then attempt (makedirs E output_folder) (EMakedirs output_folder)
           else io_ret tt) w
          = match (if path_exists E output_folder then None else makedirs E output_folder) with
            | Some e => (Raise e, w)
            | None => (Ret tt, World (clock w)
                         (trace w ++ (if path_exists E output_folder then []
                                      else [EMakedirs output_folder])))
            end) as Hfirst.
  { destruct (path_exists E output_folder); cbn [negb].
    - rewrite app_nil_r. by destruct w.
    - unfold attempt. by destruct (makedirs E output_folder). }
  rewrite Hfirst in Hrun. clear Hfirst.
  destruct (if path_exists E output_folder then None else makedirs E output_folder)
    as [e|] eqn:Hmk; [done|].
  unfold io_bind at 1 in Hrun. cbn [now clock trace] in Hrun.
  unfold io_bind at 1 2 3 in Hrun. cbn [print emit clock trace] in Hrun.
  unfold io_bind at 1 in Hrun.
  match type of Hrun with context [process_walk E output_folder file_extensions ?l ?st0 ?w0] =>
    destruct (process_walk_spec E output_folder file_extensions l st0 w0)
      as (st1 & w1 & Hwalk & Hc & Hs & Hi & results & Hw & Hr) end.
  rewrite Hwalk in Hrun. clear Hwalk.
  cbn [trace] in Hc, Hw.
  rewrite !created_snoc, !app_nil_r in Hc. rewrite !writes_snoc, !app_nil_r in Hw.
  unfold io_bind at 1 in Hrun. cbn [now clock trace] in Hrun.
  unfold io_bind at 1 2 3 4 5 6 7 in Hrun. cbn [print emit clock trace] in Hrun.
  cbn [total_files processed_files failed_files start_time end_time files] in Hrun.
  remember (Stats (total_files st1) (processed_files st1) (failed_files st1)
                  (start_time st1) (Some (strftime_now E (clock w1))) (files st1))
    as st eqn:Hst.
  match type of Hrun with _ = io_bind _ _ ?w0 => remember w0 as w2 eqn:Hw2 end.
  exists st, w2, results.
  assert (writes (trace w2) = writes (trace w1)) as Hwrites
    by (subst w2; cbn [trace]; by rewrite !writes_snoc, !app_nil_r).
  assert (created (trace w2) = created (trace w1)) as Hcreated
    by (subst w2; cbn [trace]; by rewrite !created_snoc, !app_nil_r).
  split_and!.
  - destruct Hi as (Hsum & Hlen & Hfiles).
    { split_and!; cbn [total_files processed_files failed_files files length];
        [lia | done | constructor]. }
    subst st. split_and!; cbn [total_files processed_files failed_files files]; done.
  - rewrite Hwrites, Hw. unfold writes at 1. rewrite omap_app. fold (writes (trace w)).
    by destruct (path_exists E output_folder); cbn [omap]; rewrite app_nil_r.
  - exact Hr.
  - rewrite Hcreated, Hc. unfold created at 1. rewrite omap_app. fold (created (trace w)).
    by destruct (path_exists E output_folder).
  - unfold io_bind at 1, attempt in Hrun.
    destruct (open_write E (stats_path E output_folder)) as [e|]; [done|].
    cbn [io_raise io_bind print emit io_ret clock trace] in Hrun.
    eexists. split; [exact Hrun|]. cbn [trace].
    by rewrite !writes_snoc, !created_snoc, !app_nil_r.
Qed.

(** C5.  When the input folder does not exist, [process_folder] returns a
    dictionary holding an ["error"] entry and nothing else happens: the world
    afterwards is the world before, so no folder was created, no file was
    written and nothing was printed. *)
Theorem process_folder_missing_input E input_folder output_folder file_extensions w :
  path_exists E input_folder = false ->
  exists d,
    process_folder E input_folder output_folder file_extensions w = (Ret d, w)
    /\ d = [ (u "error", VStr (u "输入文件夹不存在: " ++ input_folder)) ]
    /\ dict_has (u "error") d = true.
Proof.
  intros Hmissing. unfold process_folder. rewrite Hmissing. cbn [negb].
  eexists. split; [reflexivity|]. split; reflexivity.
Qed.

Lemma process_folder_missing_input_witness :
  path_exists Demo.demo_env (u "archive") = false
  /\ exists d,
       process_folder Demo.demo_env (u "archive") (u "out") default_file_extensions
         Demo.fresh_world
       = (Ret d, Demo.fresh_world)
       /\ d = [ (u "error", VStr (u "输入文件夹不存在: archive")) ]
       /\ dict_has (u "error") d = true.
Proof.
  split; [reflexivity|].
  apply (process_folder_missing_input Demo.demo_env (u "archive") (u "out")).
  reflexivity.
Defined.

(** C9.  The dictionary a run on an existing input folder returns satisfies
    [total_files = processed_files + failed_files], and its ["files"] list
    has [total_files] entries, each with status ["success"] or ["failed"]. *)
Theorem process_folder_stats_invariant E input_folder output_folder file_extensions w d w' :
  path_exists E input_folder = true ->
  process_folder E input_folder output_folder file_extensions w = (Ret d, w') ->
  exists total processed failed entries,
    dict_get (u "total_files") d = Some (VInt total)
    /\ dict_get (u "processed_files") d = Some (VInt processed)
    /\ dict_get (u "failed_files") d = Some (VInt failed)
    /\ dict_get (u "files") d = Some (VList (map VDict entries))
    /\ total = processed + failed
    /\ Z.of_nat (length entries) = total
    /\ Forall status_known entries.
Proof.
  intros Hin Hrun.
  pose proof (process_folder_spec E input_folder output_folder file_extensions w Hin) as Hspec.
  destruct (if path_exists E output_folder then None else makedirs E output_folder)
    as [e|]; [congruence|].
  destruct Hspec as (st & w1 & results & (Hsum & Hlen & Hst) & _ & _ & _ & Hend).
  destruct (open_write E (stats_path E output_folder)) as [e|]; [congruence|].
  destruct Hend as (w2 & Hret & _). rewrite Hret in Hrun. injection Hrun as <- <-.
  exists (total_files st), (processed_files st), (failed_files st), (files st).
  split_and!; done.
Qed.

(** The run on the folder [data]: four files are taken up, three go through
    and one fails. *)
Lemma process_folder_stats_invariant_witness :
  path_exists Demo.demo_env (u "data") = true
  /\ exists d w',
       process_folder Demo.demo_env (u "data") (u "out") default_file_extensions
         Demo.fresh_world = (Ret d, w')
       /\ dict_get (u "total_files") d = Some (VInt 4)
       /\ dict_get (u "processed_files") d = Some (VInt 3)
       /\ dict_get (u "failed_files") d = Some (VInt 1)
       /\ exists total processed failed entries,
            dict_get (u "total_files") d = Some (VInt total)
            /\ dict_get (u "processed_files") d = Some (VInt processed)
            /\ dict_get (u "failed_files") d = Some (VInt failed)
            /\ dict_get (u "files") d = Some (VList (map VDict entries))
            /\ total = processed + failed
            /\ Z.of_nat (length entries) = total
            /\ Forall status_known entries.
Proof.
  split; [reflexivity|].
  destruct (process_folder Demo.demo_env (u "data") (u "out") default_file_extensions
              Demo.fresh_world) as [[d|e] w'] eqn:Hrun; vm_compute in Hrun; [|discriminate].
  exists d, w'. split; [reflexivity|].
  injection Hrun as Hd Hw.
  split_and!; try (rewrite <- Hd; reflexivity).
  apply (process_folder_stats_invariant Demo.demo_env (u "data") (u "out")
           default_file_extensions Demo.fresh_world d w'); [reflexivity|].
  rewrite <- Hd, <- Hw. vm_compute. reflexivity.
Defined.

(** C3, as the code has it.  A result file is named after the input file:
    the output folder joined with the name without its extension and
    [_result.json].  On an existing input folder the run returns whenever
    the output folder exists or can be created and the summary can be
    written.  When it returns, it has written one result for each file of the
    walk with a configured extension that could be read and whose result
    could be written, in the order of the walk, then the summary
    [batch_processing_stats.json] holding the returned dictionary, and
    nothing else: a file that failed has no result file. *)
Theorem process_folder_writes E input_folder output_folder file_extensions w :
  path_exists E input_folder = true ->
  (forall file_name,
     result_path E output_folder file_name
     = path_join E output_folder ((splitext E file_name).1 ++ u "_result.json"))
  /\ stats_path E output_folder = path_join E output_folder (u "batch_processing_stats.json")
  /\ (path_exists E output_folder = true \/ makedirs E output_folder = None ->
      open_write E (stats_path E output_folder) = None ->
      exists d w',
        process_folder E input_folder output_folder file_extensions w = (Ret d, w'))
  /\ forall d w',
       process_folder E input_folder output_folder file_extensions w = (Ret d, w') ->
       exists results,
         writes (trace w')
         = writes (trace w) ++ results ++ [(stats_path E output_folder, VDict d)]
         /\ map fst results
            = map (fun file => result_path E output_folder file.2)
                  (filter (succeeds E output_folder)
                          (candidates E input_folder file_extensions)).
Proof.
  intros Hin.
  pose proof (process_folder_spec E input_folder output_folder file_extensions w Hin) as Hspec.
  split_and!; [done | done | |].
  - intros Hout Hstats.
    destruct (if path_exists E output_folder then None else makedirs E output_folder)
      as [e|] eqn:Hmk.
    { destruct Hout as [Hout|Hout]; rewrite Hout in Hmk; [done|].
      by destruct (path_exists E output_folder). }
    destruct Hspec as (st & w1 & results & _ & _ & _ & _ & Hend).
    rewrite Hstats in Hend. destruct Hend as (w' & Hret & _). eauto.
  - intros d w' Hrun.
    destruct (if path_exists E output_folder then None else makedirs E output_folder)
      as [e|]; [congruence|].
    destruct Hspec as (st & w1 & results & _ & Hw & Hr & _ & Hend).
    destruct (open_write E (stats_path E output_folder)) as [e|]; [congruence|].
    destruct Hend as (w2 & Hret & Hw2 & _). rewrite Hret in Hrun. injection Hrun as <- <-.
    exists results. split; [|done]. by rewrite Hw2, Hw, app_assoc.
Qed.

(** The run on the folder [data] writes three results and the summary. *)
Lemma process_folder_writes_witness :
  path_exists Demo.demo_env (u "data") = true
  /\ exists d w',
       process_folder Demo.demo_env (u "data") (u "out") default_file_extensions
         Demo.fresh_world = (Ret d, w')
       /\ map fst (writes (trace w'))
          = [ u "out/a_result.json"; u "out/a_result.json"; u "out/c_result.json";
              u "out/batch_processing_stats.json" ]
       /\ exists results,
            writes (trace w')
            = writes (trace Demo.fresh_world) ++ results
              ++ [(stats_path Demo.demo_env (u "out"), VDict d)].
Proof.
  split; [reflexivity|].
  destruct (process_folder_writes Demo.demo_env (u "data") (u "out")
              default_file_extensions Demo.fresh_world) as (_ & _ & Hreturns & Hwrites);
    [reflexivity|].
  destruct Hreturns as (d & w' & Hrun); [by right | reflexivity |].
  exists d, w'. split; [exact Hrun|].
  destruct (Hwrites d w' Hrun) as (results & Hw & Hr).
  split; [|by exists results].
  rewrite Hw. cbn [writes Demo.fresh_world trace omap app].
  rewrite !map_app, Hr. vm_compute. reflexivity.
Defined.

(** C3 does not hold as stated: [data/b.md] has a configured extension, but
    it cannot be decoded, and the run writes no [b_result.json]. *)
Lemma no_result_for_unreadable_file :
  (u "data", [u "sub"], [u "a.txt"; u "b.md"; u "notes.bin"])
    ∈ walk Demo.demo_env (u "data")
  /\ has_extension default_file_extensions (u "b.md") = true
  /\ result_path Demo.demo_env (u "out") (u "b.md") = u "out/b_result.json"
  /\ u "out/b_result.json"
       ∉ map fst (writes (trace (process_folder Demo.demo_env (u "data") (u "out")
                                   default_file_extensions Demo.fresh_world).2)).
Proof.
  split_and!; [by left | reflexivity | reflexivity |].
  vm_compute. intros Hin.
  repeat (apply elem_of_cons in Hin as [Hin|Hin]; [discriminate Hin|]).
  by apply not_elem_of_nil in Hin.
Qed.

End ProcessFolder.

(** ** [NetworkAnalysis.build_network] *)

Section Graphs.
Import Nx.

Lemma edge_weight_neighbours g a b : edge_weight g a b = dict_get b (neighbours g a).
Proof. unfold edge_weight, neighbours. by destruct (dict_get a g). Qed.

Lemma neighbours_set g k v a :
  neighbours (dict_set k v g) a = if decide (a = k) then v else neighbours g a.
Proof.
  unfold neighbours. destruct (decide (a = k)) as [->|Hne].
  - by rewrite dict_get_set_eq.
  - by rewrite dict_get_set_ne.
Qed.

Lemma neighbours_add_node g n a : neighbours (add_node n g) a = neighbours g a.
Proof.
  unfold add_node. destruct (dict_has n g) eqn:Hn; [done|].
  rewrite neighbours_set. destruct (decide (a = n)) as [->|]; [|done].
  unfold neighbours. destruct (dict_get n g) eqn:Hg; [|done].
  apply dict_get_has in Hg. congruence.
Qed.

(** After [add_edge], the edge between the two endpoints has the new weight,
    in both directions, and every other edge is as before. *)
Lemma edge_weight_add_edge g s t w a b :
  edge_weight (add_edge s t w g) a b
  = if decide ((a, b) = (s, t) \/ (a, b) = (t, s)) then Some w else edge_weight g a b.
Proof.
  rewrite !edge_weight_neighbours. unfold add_edge. cbv zeta.
  rewrite neighbours_set. destruct (decide (a = t)) as [->|Hat].
  - rewrite neighbours_set. destruct (decide (b = s)) as [->|Hbs].
    + rewrite dict_get_set_eq. rewrite decide_True; [done | by right].
    + rewrite dict_get_set_ne by done.
      destruct (decide (t = s)) as [->|Hts].
      * rewrite dict_get_set_ne by done. rewrite !neighbours_add_node.
        rewrite decide_False; [done | intros [?|?]; simplify_eq].
      * rewrite !neighbours_add_node.
        rewrite decide_False; [done | intros [?|?]; simplify_eq].
  - rewrite neighbours_set. destruct (decide (a = s)) as [->|Has].
    + destruct (decide (b = t)) as [->|Hbt].
      * rewrite dict_get_set_eq. rewrite decide_True; [done | by left].
      * rewrite dict_get_set_ne by done. rewrite !neighbours_add_node.
        rewrite decide_False; [done | intros [?|?]; simplify_eq].
    + rewrite !neighbours_add_node.
      rewrite decide_False; [done | intros [?|?]; simplify_eq].
Qed.

Lemma edge_weight_add_node g n a b : edge_weight (add_node n g) a b = edge_weight g a b.
Proof. by rewrite !edge_weight_neighbours, neighbours_add_node. Qed.

Lemma dict_has_neighbours g a b :
  dict_has b (neighbours g a) = false <-> edge_weight g a b = None.
Proof.
  rewrite edge_weight_neighbours.
  destruct (dict_has b (neighbours g a)) eqn:Hb.
  - apply dict_has_get in Hb as [w Hw]. rewrite Hw. split; discriminate.
  - destruct (dict_get b (neighbours g a)) eqn:Hg; [|done].
    apply dict_get_has in Hg. congruence.
Qed.

(** Storing a neighbour dictionary under a node replaces that node's term of
    the degree sum. *)
Lemma degree_sum_set g k v :
  degree_sum (dict_set k v g)
  = degree_sum g + degree_term k v
    - (if dict_has k g then degree_term k (neighbours g k) else 0).
Proof.
  unfold neighbours.
  induction g as [|[k0 v0] g IH]; cbn [dict_set dict_has dict_get degree_sum foldr].
  - lia.
  - destruct (decide (k0 = k)) as [->|Hne]; cbn [degree_sum foldr from_option id].
    + fold (degree_sum g). lia.
    + fold (degree_sum g) (degree_sum (dict_set k v g)). rewrite IH. lia.
Qed.

Lemma degree_sum_add_node g n : degree_sum (add_node n g) = degree_sum g.
Proof.
  unfold add_node. destruct (dict_has n g) eqn:Hn; [done|].
  rewrite degree_sum_set, Hn. unfold degree_term. cbn. lia.
Qed.

Lemma dict_has_add_node g n a :
  dict_has a (add_node n g) = if decide (a = n) then true else dict_has a g.
Proof.
  unfold add_node. destruct (dict_has n g) eqn:Hn.
  - destruct (decide (a = n)) as [->|]; done.
  - apply dict_has_set.
Qed.

(** A new edge between two different nodes adds two to the degree sum. *)
Lemma degree_sum_add_edge g s t w :
  s <> t -> edge_weight g s t = None -> edge_weight g t s = None ->
  degree_sum (add_edge s t w g) = degree_sum g + 2.
Proof.
  intros Hne Hst Hts. apply dict_has_neighbours in Hst, Hts.
  assert (t <> s) as Hne' by congruence.
  unfold add_edge. cbv zeta.
  set (g1 := add_node t (add_node s g)).
  assert (degree_sum g1 = degree_sum g) as Hsum
    by (subst g1; by rewrite !degree_sum_add_node).
  assert (forall a, neighbours g1 a = neighbours g a) as Hnb
    by (intros a; subst g1; by rewrite !neighbours_add_node).
  assert (dict_has s g1 = true) as Hs.
  { subst g1. rewrite !dict_has_add_node. rewrite (decide_False (P := s = t)) by done.
    by rewrite decide_True. }
  assert (dict_has t g1 = true) as Ht
    by (subst g1; rewrite dict_has_add_node; by rewrite decide_True).
  rewrite degree_sum_set, neighbours_set, (decide_False (P := t = s)) by done.
  rewrite dict_has_set, (decide_False (P := t = s)) by done.
  rewrite degree_sum_set, !Hnb, Hs, Ht, Hsum.
  unfold degree_term.
  rewrite !dict_length_set, !dict_has_set, Hst, Hts.
  rewrite (decide_False (P := s = t)), (decide_False (P := t = s)) by done.
  destruct (dict_has t (neighbours g t)), (dict_has s (neighbours g s)); lia.
Qed.

End Graphs.

Section BuildNetwork.
Import Nx NetworkAnalysis.

(** The smaller name comes first in a key, whatever the order of the pair. *)
Lemma ordered_cases s t : ordered s t = (s, t) \/ ordered s t = (t, s).
Proof. unfold ordered. destruct (str_gt s t); auto. Qed.

Lemma ordered_sorted s t x y :
  s <> t -> ordered s t = (x, y) -> x <> y /\ str_gt x y = false.
Proof.
  unfold ordered. intros Hne. destruct (str_gt s t) eqn:Hgt; intros [= <- <-].
  - split; [done | by apply str_gt_asym].
  - done.
Qed.

Lemma ordered_iff x y (p : pystr * pystr) :
  x <> y -> str_gt x y = false ->
  (p.1 <> p.2 /\ ordered p.1 p.2 = (x, y)) <-> (p = (x, y) \/ p = (y, x)).
Proof.
  intros Hne Hgt. destruct p as [s t]. cbn [fst snd]. split.
  - intros [_ Hord]. destruct (ordered_cases s t) as [H|H]; rewrite H in Hord.
    + left. done.
    + right. by injection Hord as -> ->.
  - intros [[= -> ->]|[= -> ->]]; (split; [done|]); unfold ordered.
    + by rewrite Hgt.
    + by rewrite (str_gt_total x y Hne Hgt).
Qed.

Lemma count_relationship_get key counts p :
  dict_get key (count_relationship counts p)
  = if decide (counted_under key p) then Some (default 0 (dict_get key counts) + 1)
    else dict_get key counts.
Proof.
  unfold count_relationship, counted_under. destruct p as [s t]. cbn [fst snd].
  destruct (decide (s = t)) as [->|Hne].
  - rewrite decide_False; [done | intros [? _]; done].
  - cbv zeta. destruct (decide (ordered s t = key)) as [<-|Hkey].
    + rewrite dict_get_set_eq. by rewrite decide_True.
    + rewrite dict_get_set_ne by done. rewrite decide_False; [done | intros [_ ?]; done].
Qed.

(** Every key holds the number of pairs counted under it, and a key under
    which nothing was counted is absent. *)
Lemma count_relationships_get relationships key :
  dict_get key (count_relationships relationships)
  = let n := length (filter (counted_under key) relationships) in
    if decide (n = 0%nat) then None else Some (Z.of_nat n).
Proof.
  unfold count_relationships.
  induction relationships as [|p relationships IH] using rev_ind; [done|].
  rewrite foldl_app. cbn [foldl]. rewrite count_relationship_get, IH.
  rewrite filter_app, length_app, filter_cons, filter_nil. cbv zeta.
  destruct (decide (counted_under key p)); cbn [length].
  - destruct (decide (length (filter (counted_under key) relationships) = 0%nat));
      destruct (decide ((length (filter (counted_under key) relationships) + 1)%nat
                        = 0%nat)); try lia; cbn [from_option id]; f_equal; lia.
  - rewrite Nat.add_0_r. done.
Qed.

Lemma count_relationships_NoDup relationships :
  NoDup (dict_keys (count_relationships relationships)).
Proof.
  unfold count_relationships.
  induction relationships as [|[s t] relationships IH] using rev_ind; [constructor|].
  rewrite foldl_app. cbn [foldl count_relationship].
  destruct (decide (s = t)); [done|]. by apply dict_set_NoDup.
Qed.

(** An edge of the graph after the loop was there before or comes from one
    of the counted pairs, with that pair's count as its weight. *)
Lemma add_relationships_edge counts : forall g a b w,
  edge_weight (add_relationships counts g) a b = Some w ->
  edge_weight g a b = Some w
  \/ exists s t, ((s, t), w) ∈ counts /\ ((a, b) = (s, t) \/ (a, b) = (t, s)).
Proof.
  unfold add_relationships.
  induction counts as [|[[s t] w'] counts IH]; intros g a b w Hedge; [by left|].
  cbn [foldl] in Hedge. apply IH in Hedge as [Hedge|(s' & t' & Hin & Hab)].
  - cbn [add_relationship] in Hedge. rewrite edge_weight_add_edge in Hedge.
    destruct (decide ((a, b) = (s, t) \/ (a, b) = (t, s))) as [Hab|_].
    + injection Hedge as <-. right. exists s, t. split; [by left | done].
    + left. by rewrite !edge_weight_add_node in Hedge.
  - right. exists s', t'. split; [by right | done].
Qed.

(** Every key of the counts is an ordered pair of two different names. *)
Lemma count_relationships_sorted relationships :
  Forall (fun item => item.1.1 <> item.1.2 /\ str_gt item.1.1 item.1.2 = false)
         (count_relationships relationships).
Proof.
  apply Forall_forall. intros [[s t] w] Hin. cbn [fst snd].
  apply dict_elem_get in Hin; [|apply count_relationships_NoDup].
  rewrite count_relationships_get in Hin. cbv zeta in Hin.
  destruct (filter (counted_under (s, t)) relationships) as [|p l] eqn:Hf; [done|].
  assert (p ∈ filter (counted_under (s, t)) relationships) as Hp by (rewrite Hf; by left).
  apply list_elem_of_filter in Hp as [[Hp1 Hp2] _].
  by apply (ordered_sorted p.1 p.2).
Qed.

Lemma dict_has_add_edge g s t w a :
  dict_has a (add_edge s t w g) = true <-> a = s \/ a = t \/ dict_has a g = true.
Proof.
  unfold add_edge. cbv zeta. rewrite !dict_has_set, !dict_has_add_node.
  destruct (decide (a = t)), (decide (a = s)); intuition congruence.
Qed.

Lemma add_node_NoDup g n : NoDup (nodes g) -> NoDup (nodes (add_node n g)).
Proof.
  unfold add_node, nodes. destruct (dict_has n g); [done|]. apply dict_set_NoDup.
Qed.

Lemma add_edge_NoDup g s t w : NoDup (nodes g) -> NoDup (nodes (add_edge s t w g)).
Proof.
  intros Hg. unfold add_edge, nodes. cbv zeta.
  do 2 apply dict_set_NoDup. by do 2 apply add_node_NoDup.
Qed.

(** The nodes after the loop are those before and the names of the counted
    pairs, each once. *)
Lemma add_relationships_nodes counts : forall g a,
  a ∈ nodes (add_relationships counts g)
  <-> a ∈ nodes g \/ exists s t w, ((s, t), w) ∈ counts /\ (a = s \/ a = t).
Proof.
  unfold add_relationships, nodes.
  induction counts as [|[[s t] w] counts IH]; intros g a; cbn [foldl].
  - split; [by left|]. intros [?|(s & t & w & Hin & _)]; [done|].
    by apply not_elem_of_nil in Hin.
  - rewrite IH. cbn [add_relationship].
    rewrite <- !dict_has_keys, dict_has_add_edge, !dict_has_add_node.
    split.
    + intros [[->|[->|Hg]]|(s' & t' & w' & Hin & Ha)].
      * right. exists s, t, w. split; [by left | by left].
      * right. exists s, t, w. split; [by left | by right].
      * destruct (decide (a = t)) as [->|]; [right; exists s, t, w; split; [by left|by right]|].
        destruct (decide (a = s)) as [->|]; [right; exists s, t, w; split; [by left|by left]|].
        by left.
      * right. exists s', t', w'. split; [by right | done].
    + intros [Hg|(s' & t' & w' & [[= -> -> ->]|Hin]%elem_of_cons & Ha)].
      * left. right. right.
        destruct (decide (a = t)); [done|]. by destruct (decide (a = s)).
      * left. tauto.
      * right. by exists s', t', w'.
Qed.

Lemma add_relationships_NoDup counts : forall g,
  NoDup (nodes g) -> NoDup (nodes (add_relationships counts g)).
Proof.
  unfold add_relationships.
  induction counts as [|[[s t] w] counts IH]; intros g Hg; cbn [foldl]; [done|].
  apply IH. cbn [add_relationship]. apply add_edge_NoDup. by do 2 apply add_node_NoDup.
Qed.

(** A key is counted exactly when some extracted pair falls under it. *)
Lemma count_relationships_elem relationships key w :
  (key, w) ∈ count_relationships relationships
  <-> w = Z.of_nat (length (filter (counted_under key) relationships))
      /\ exists p, p ∈ relationships /\ counted_under key p.
Proof.
  split.
  - intros Hin. apply dict_elem_get in Hin; [|apply count_relationships_NoDup].
    rewrite count_relationships_get in Hin. cbv zeta in Hin.
    destruct (filter (counted_under key) relationships) as [|p l] eqn:Hf; [done|].
    assert (p ∈ filter (counted_under key) relationships) as Hp by (rewrite Hf; by left).
    apply list_elem_of_filter in Hp as [Hp1 Hp2].
    split; [|by exists p]. cbn [length] in Hin. rewrite decide_False in Hin by done.
    by injection Hin.
  - intros [-> (p & Hp & Hkey)]. apply dict_get_elem.
    rewrite count_relationships_get. cbv zeta.
    assert (p ∈ filter (counted_under key) relationships) as Hin
      by (by apply list_elem_of_filter).
    destruct (filter (counted_under key) relationships) as [|q l];
      [by apply not_elem_of_nil in Hin|].
    cbn [length]. by rewrite decide_False.
Qed.

(** The nodes of the graph of a new object are the names extracted in a pair
    with a different name, each once. *)
Lemma build_network_nodes N texts :
  NoDup (nodes (graph (build_network N (init texts))))
  /\ forall a,
       a ∈ nodes (graph (build_network N (init texts)))
       <-> exists p, p ∈ extract_relationships N (init texts)
                     /\ p.1 <> p.2 /\ (a = p.1 \/ a = p.2).
Proof.
  unfold build_network. cbn [graph].
  set (relationships := extract_relationships N (init texts)).
  split; [apply add_relationships_NoDup; constructor|].
  intros a. rewrite add_relationships_nodes. split.
  - intros [Hin|(s & t & w & Hin & Ha)]; [by apply not_elem_of_nil in Hin|].
    apply count_relationships_elem in Hin as [_ (p & Hp & Hne & Hord)].
    exists p. split_and!; [done | done |].
    destruct (ordered_cases p.1 p.2) as [H|H]; rewrite H in Hord;
      injection Hord as <- <-; tauto.
  - intros (p & Hp & Hne & Ha). right.
    destruct (ordered p.1 p.2) as [s t] eqn:Hord.
    exists s, t, (Z.of_nat (length (filter (counted_under (s, t)) relationships))).
    split.
    + apply count_relationships_elem. split; [done|]. by exists p.
    + destruct (ordered_cases p.1 p.2) as [H|H]; rewrite H in Hord;
        injection Hord as <- <-; tauto.
Qed.

(** A counted pair is an edge of the graph, in both directions, with its
    count as weight. *)
Lemma add_relationships_edge_complete counts :
  NoDup (dict_keys counts) ->
  Forall (fun item => item.1.1 <> item.1.2 /\ str_gt item.1.1 item.1.2 = false) counts ->
  forall s t w a b,
    ((s, t), w) ∈ counts -> (a, b) = (s, t) \/ (a, b) = (t, s) ->
    edge_weight (add_relationships counts empty_graph) a b = Some w.
Proof.
  induction counts as [|[[s0 t0] w0] counts IH] using rev_ind;
    intros Hdup Hsorted s t w a b Hin Hab; [by apply not_elem_of_nil in Hin|].
  unfold dict_keys in Hdup. rewrite map_app in Hdup. cbn [map fst] in Hdup.
  apply NoDup_app in Hdup as (Hdup & Hfresh & _).
  apply Forall_app in Hsorted as [Hsorted [[Hne Hgt] _]%Forall_cons].
  cbn [fst snd] in Hne, Hgt.
  unfold add_relationships. rewrite foldl_app. cbn [foldl add_relationship].
  fold (add_relationships counts empty_graph).
  rewrite edge_weight_add_edge, !edge_weight_add_node.
  apply elem_of_app in Hin as [Hin|[= -> -> ->]%list_elem_of_singleton].
  - rewrite decide_False; [by apply (IH Hdup Hsorted s t)|].
    intros Hab0.
    assert ((s, t) = (s0, t0) \/ (s, t) = (t0, s0)) as [[= -> ->]|[= -> ->]]
      by (destruct Hab as [[= -> ->]|[= -> ->]], Hab0 as [[= <- <-]|[= <- <-]]; auto).
    + apply (Hfresh (s0, t0)); [|by left]. apply list_elem_of_fmap. by exists (s0, t0, w).
    + apply (proj1 (Forall_forall _ _) Hsorted) in Hin as [_ Hgt']. cbn [fst snd] in Hgt'.
      rewrite (str_gt_total s0 t0 Hne Hgt) in Hgt'. done.
  - by rewrite decide_True.
Qed.

(** C10.  In the graph [build_network] builds for a new object, an edge never
    joins a node to itself, and its weight is positive and equal to the
    number of extracted pairs made of its two endpoints, in either order;
    and there is such an edge for every two different names extracted
    together. *)
Theorem build_network_edge_weights (N : nlp) (texts : list pystr) (a b : pystr) (w : Z) :
  edge_weight (graph (build_network N (init texts))) a b = Some w
  <-> a <> b
      /\ 0 < w
      /\ w = pairs_between a b (extract_relationships N (init texts)).
Proof.
  unfold build_network, pairs_between.
  set (relationships := extract_relationships N (init texts)).
  cbn [graph init]. split.
  - intros Hedge.
    apply add_relationships_edge in Hedge as [Hedge|(s & t & Hin & Hab)];
      [cbv in Hedge; discriminate Hedge|].
    apply count_relationships_elem in Hin as [-> (p & Hp & Hp1 & Hp2)].
    destruct (ordered_sorted p.1 p.2 s t Hp1 Hp2) as [Hne Hgt].
    assert (filter (counted_under (s, t)) relationships
            = filter (fun p => p = (a, b) \/ p = (b, a)) relationships) as Hcount.
    { apply list_filter_iff. intros q. unfold counted_under.
      rewrite (ordered_iff s t q Hne Hgt).
      destruct Hab as [[= -> ->]|[= -> ->]]; tauto. }
    assert (p ∈ filter (counted_under (s, t)) relationships) as Hin
      by (by apply list_elem_of_filter).
    split_and!.
    + destruct Hab as [[= -> ->]|[= -> ->]]; congruence.
    + destruct (filter (counted_under (s, t)) relationships);
        [by apply not_elem_of_nil in Hin | cbn [length]; lia].
    + by rewrite Hcount.
  - intros (Hne & Hpos & ->).
    destruct (ordered a b) as [s t] eqn:Hord.
    destruct (ordered_sorted a b s t Hne Hord) as [Hst Hgt].
    assert ((a, b) = (s, t) \/ (a, b) = (t, s)) as Hab
      by (destruct (ordered_cases a b) as [H|H]; rewrite H in Hord;
          injection Hord as <- <-; auto).
    assert (filter (counted_under (s, t)) relationships
            = filter (fun p => p = (a, b) \/ p = (b, a)) relationships) as Hcount.
    { apply list_filter_iff. intros q. unfold counted_under.
      rewrite (ordered_iff s t q Hst Hgt).
      destruct Hab as [[= -> ->]|[= -> ->]]; tauto. }
    apply (add_relationships_edge_complete _ (count_relationships_NoDup relationships)
             (count_relationships_sorted relationships) s t); [|done].
    apply count_relationships_elem. split; [by rewrite Hcount|].
    rewrite <- Hcount in Hpos.
    destruct (filter (counted_under (s, t)) relationships) as [|p l] eqn:Hf;
      [cbn [length] in Hpos; lia|].
    assert (p ∈ filter (counted_under (s, t)) relationships) as Hp
      by (rewrite Hf; by left).
    apply list_elem_of_filter in Hp as [Hp1 Hp2]. by exists p.
Qed.

(** Ada and Charles Babbage are named together twice, once in each order. *)
Lemma build_network_edge_weights_witness :
  edge_weight (graph (build_network Demo.demo_nlp (init Demo.letters)))
              (u "Charles Babbage") (u "Ada") = Some 2
  /\ u "Charles Babbage" <> u "Ada"
  /\ 0 < 2
  /\ 2 = pairs_between (u "Charles Babbage") (u "Ada")
                       (extract_relationships Demo.demo_nlp (init Demo.letters)).
Proof.
  split; [vm_compute; reflexivity|].
  apply (proj1 (build_network_edge_weights Demo.demo_nlp Demo.letters _ _ _)).
  vm_compute. reflexivity.
Defined.

(** The two [while] loops stop on their own: the inner one never moves
    backwards, and any fuel that covers the tokens left gives the same
    result, so the length of the sentence is enough. *)
Lemma entity_end_advances N fuel tagged_tokens : forall j entity,
  (j <= (entity_end N fuel tagged_tokens j entity).1)%nat.
Proof.
  induction fuel as [|fuel IH]; intros j entity; cbn [entity_end]; [done|].
  destruct (tagged_tokens !! j) as [token|]; [|done].
  destruct (is_proper_noun N token); [|done].
  specialize (IH (S j) (entity ++ u " " ++ token.1)). lia.
Qed.

Lemma entity_end_enough_fuel N tagged_tokens fuel1 : forall fuel2 j entity,
  (length tagged_tokens - j <= fuel1)%nat -> (length tagged_tokens - j <= fuel2)%nat ->
  entity_end N fuel1 tagged_tokens j entity = entity_end N fuel2 tagged_tokens j entity.
Proof.
  induction fuel1 as [|fuel1 IH]; intros [|fuel2] j entity H1 H2; cbn [entity_end];
    try done.
  - rewrite lookup_ge_None_2 by lia. done.
  - rewrite lookup_ge_None_2 by lia. done.
  - destruct (tagged_tokens !! j) as [token|] eqn:Hj; [|done].
    destruct (is_proper_noun N token); [|done].
    apply lookup_lt_Some in Hj. apply IH; lia.
Qed.

Lemma entity_loop_enough_fuel N tagged_tokens fuel1 : forall fuel2 i entities,
  (length tagged_tokens - i <= fuel1)%nat -> (length tagged_tokens - i <= fuel2)%nat ->
  entity_loop N fuel1 tagged_tokens i entities = entity_loop N fuel2 tagged_tokens i entities.
Proof.
  induction fuel1 as [|fuel1 IH]; intros [|fuel2] i entities H1 H2; cbn [entity_loop];
    try done.
  - rewrite lookup_ge_None_2 by lia. done.
  - rewrite lookup_ge_None_2 by lia. done.
  - destruct (tagged_tokens !! i) as [token|] eqn:Hi; [|done].
    apply lookup_lt_Some in Hi.
    destruct (is_proper_noun N token).
    + pose proof (entity_end_advances N (length tagged_tokens) tagged_tokens (S i) token.1)
        as Hadv.
      destruct (entity_end N (length tagged_tokens) tagged_tokens (S i) token.1)
        as [j entity]. cbn [fst] in Hadv. apply IH; lia.
    + apply IH; lia.
Qed.

(** ** [NetworkAnalysis.analyze_network] *)

(** Adding counted pairs with distinct ordered keys to the empty graph adds
    one edge for each: the degree sum is twice their number. *)
Lemma add_relationships_degree_sum counts :
  NoDup (dict_keys counts) ->
  Forall (fun item => item.1.1 <> item.1.2 /\ str_gt item.1.1 item.1.2 = false) counts ->
  degree_sum (add_relationships counts empty_graph) = 2 * Z.of_nat (length counts).
Proof.
  induction counts as [|[[s t] w] counts IH] using rev_ind; intros Hdup Hsorted; [done|].
  unfold dict_keys in Hdup. rewrite map_app in Hdup. cbn [map fst] in Hdup.
  apply NoDup_app in Hdup as (Hdup & Hfresh & _).
  apply Forall_app in Hsorted as [Hsorted [[Hne Hgt] _]%Forall_cons]. cbn [fst snd] in Hne, Hgt.
  assert (forall a b, (a, b) = (s, t) \/ (a, b) = (t, s) ->
                      edge_weight (add_relationships counts empty_graph) a b = None)
    as Habsent.
  { intros a b Hab.
    destruct (edge_weight (add_relationships counts empty_graph) a b) as [w0|] eqn:Hedge;
      [|done].
    apply add_relationships_edge in Hedge as [Hedge|(s' & t' & Hin & Hab')];
      [cbv in Hedge; discriminate Hedge|].
    assert ((s', t') = (s, t) \/ (s', t') = (t, s)) as Hkey
      by (destruct Hab as [[= -> ->]|[= -> ->]], Hab' as [[= <- <-]|[= <- <-]]; auto).
    destruct Hkey as [[= -> ->]|[= -> ->]].
    - exfalso. apply (Hfresh (s, t)); [|by left].
      apply list_elem_of_fmap. by exists (s, t, w0).
    - exfalso. apply (proj1 (Forall_forall _ _) Hsorted) in Hin as [_ Hgt'].
      cbn [fst snd] in Hgt'. rewrite (str_gt_total s t Hne Hgt) in Hgt'. done. }
  unfold add_relationships. rewrite foldl_app. cbn [foldl add_relationship].
  fold (add_relationships counts empty_graph).
  rewrite degree_sum_add_edge, !degree_sum_add_node; [| done | |].
  - rewrite IH by done. rewrite length_app. cbn [length]. lia.
  - rewrite !edge_weight_add_node. apply Habsent. by left.
  - rewrite !edge_weight_add_node. apply Habsent. by right.
Qed.

(** For a new object, NetworkX's edge count is the number of ordered keys
    under which [build_network] counted a pair. *)
Lemma build_network_number_of_edges N texts :
  number_of_edges (graph (build_network N (init texts)))
  = Z.of_nat (length (count_relationships (extract_relationships N (init texts)))).
Proof.
  unfold build_network, number_of_edges. cbn [graph].
  change (graph (init texts)) with empty_graph.
  rewrite add_relationships_degree_sum;
    [| apply count_relationships_NoDup | apply count_relationships_sorted].
  rewrite Z.mul_comm. apply Z.div_mul. done.
Qed.

(** C7.  [analyze_network] returns a dictionary and leaves the object with
    the graph [build_network] builds when the graph had no node yet, and as
    it was otherwise; the ["nodes"] entry is the number of nodes of that
    graph and the ["edges"] entry its number of edges.  For a new object the
    nodes are, each once, the names extracted in a pair with a different
    name, and the number of edges is the number of ordered keys the pairs
    were counted under. *)
Theorem analyze_network_counts (A : algorithms) (N : nlp) (s : self) :
  exists analysis s',
    analyze_network A N s = (analysis, s')
    /\ s' = (if decide (nodes (graph s) = []) then build_network N s else s)
    /\ dict_get (u "nodes") analysis = Some (VInt (number_of_nodes (graph s')))
    /\ dict_get (u "edges") analysis = Some (VInt (number_of_edges (graph s')))
    /\ number_of_nodes (graph s') = Z.of_nat (length (nodes (graph s')))
    /\ (forall texts, s = init texts ->
          s' = build_network N (init texts)
          /\ NoDup (nodes (graph s'))
          /\ (forall a,
                a ∈ nodes (graph s')
                <-> exists p, p ∈ extract_relationships N s
                              /\ p.1 <> p.2 /\ (a = p.1 \/ a = p.2))
          /\ number_of_edges (graph s')
             = Z.of_nat (length (count_relationships (extract_relationships N s)))).
Proof.
  eexists _, _. split; [reflexivity|]. split_and!.
  - unfold ensure_network. destruct (nodes (graph s)) as [|n l].
    + by rewrite !decide_True.
    + rewrite !decide_False; [done | done | cbn [length]; lia].
  - reflexivity.
  - reflexivity.
  - reflexivity.
  - intros texts ->.
    change (ensure_network N (init texts)) with (build_network N (init texts)).
    destruct (build_network_nodes N texts) as [Hdup Hnodes].
    split_and!; [reflexivity | exact Hdup | exact Hnodes |].
    apply build_network_number_of_edges.
Qed.

(** The two letters: three people, three edges. *)
Lemma analyze_network_counts_witness :
  exists analysis s',
    analyze_network Demo.demo_algorithms Demo.demo_nlp (init Demo.letters) = (analysis, s')
    /\ dict_get (u "nodes") analysis = Some (VInt 3)
    /\ dict_get (u "edges") analysis = Some (VInt 3)
    /\ number_of_edges (graph s')
       = Z.of_nat (length (count_relationships
                             (extract_relationships Demo.demo_nlp (init Demo.letters)))).
Proof.
  destruct (analyze_network_counts Demo.demo_algorithms Demo.demo_nlp (init Demo.letters))
    as (analysis & s' & Hrun & Hs' & Hnodes & Hedges & _ & Hnew).
  exists analysis, s'. destruct (Hnew Demo.letters eq_refl) as (Hbuilt & _ & _ & Hcount).
  split; [exact Hrun|]. rewrite Hnodes, Hedges, Hbuilt.
  split_and!; [vm_compute; reflexivity | vm_compute; reflexivity |].
  rewrite <- Hbuilt. exact Hcount.
Defined.

End BuildNetwork.

(** ** [CulturalAnalyzer]: invalid inputs *)

Section CulturalErrors.
Import CulturalAnalyzer.

Lemma error_is_error {L} message : @returns_error L (Value (error message)).
Proof. eexists. split; [reflexivity|]. by eexists. Qed.

Lemma none_is_no_error {L} : ~ @returns_error L (Value VNone).
Proof. intros (v & [= <-] & d & Hd & _). discriminate Hd. Qed.

(** C4, as the code has it.  On an empty frame the six methods that return
    dictionaries return one with an ["error"] entry, and so do
    [time_series_analysis], [geographic_analysis] and [sentiment_analysis]
    when the time or value column, the latitude or longitude column, or the
    text column is missing.  [network_analysis] returns [None] in both
    cases, and [geographic_analysis] leaves a value column that does not
    exist out without reporting an error. *)
Theorem cultural_analyzer_invalid_input (L : library) (data : DataFrame) :
  (empty data = true ->
     returns_error (descriptive_statistics L data)
     /\ returns_error (correlation_analysis L data)
     /\ (forall n_clusters, returns_error (cluster_analysis L data n_clusters))
     /\ (forall time_col value_col,
           returns_error (time_series_analysis L data time_col value_col).1)
     /\ (forall lat_col lon_col value_col,
           returns_error (geographic_analysis L data lat_col lon_col value_col))
     /\ (forall text_col, returns_error (sentiment_analysis L data text_col))
     /\ (forall node_col edge_col w,
           network_analysis L data node_col edge_col w = (Ret (Value VNone), w)))
  /\ (forall time_col value_col,
        has_column data time_col = false \/ has_column data value_col = false ->
        returns_error (time_series_analysis L data time_col value_col).1)
  /\ (forall lat_col lon_col value_col,
        has_column data lat_col = false \/ has_column data lon_col = false ->
        returns_error (geographic_analysis L data lat_col lon_col value_col))
  /\ (forall text_col,
        has_column data text_col = false ->
        returns_error (sentiment_analysis L data text_col))
  /\ (forall node_col edge_col w,
        has_column data node_col = false \/ has_column data edge_col = false ->
        exists w', network_analysis L data node_col edge_col w = (Ret (Value VNone), w'))
  /\ (forall lat_col lon_col value_col,
        empty data = false ->
        has_column data lat_col = true -> has_column data lon_col = true ->
        has_column data value_col = false ->
        geographic_analysis L data lat_col lon_col (Some value_col)
        = geographic_analysis L data lat_col lon_col None
        /\ ~ returns_error (geographic_analysis L data lat_col lon_col (Some value_col))).
Proof.
  split_and!.
  - intros Hempty. split_and!.
    + unfold descriptive_statistics. rewrite Hempty. apply error_is_error.
    + unfold correlation_analysis. rewrite Hempty. apply error_is_error.
    + intros n. unfold cluster_analysis. rewrite Hempty. apply error_is_error.
    + intros tc vc. unfold time_series_analysis. rewrite Hempty. apply error_is_error.
    + intros lat lon vc. unfold geographic_analysis. rewrite Hempty. apply error_is_error.
    + intros tc. unfold sentiment_analysis. rewrite Hempty. apply error_is_error.
    + intros nc ec w. unfold network_analysis. by rewrite Hempty.
  - intros tc vc Hmissing. unfold time_series_analysis.
    destruct (empty data); [apply error_is_error|].
    destruct Hmissing as [-> | ->]; cbn [negb orb]; [|rewrite orb_true_r];
      apply error_is_error.
  - intros lat lon vc Hmissing. unfold geographic_analysis.
    destruct (empty data); [apply error_is_error|].
    destruct Hmissing as [-> | ->]; cbn [negb orb]; [|rewrite orb_true_r];
      apply error_is_error.
  - intros tc Hmissing. unfold sentiment_analysis.
    destruct (empty data); [apply error_is_error|].
    rewrite Hmissing. apply error_is_error.
  - intros nc ec w Hmissing. unfold network_analysis.
    destruct (empty data); [by eexists|].
    destruct Hmissing as [-> | ->]; cbn [negb orb]; [|rewrite orb_true_r]; by eexists.
  - intros lat lon vc Hempty Hlat Hlon Hvalue. unfold geographic_analysis.
    rewrite Hempty, Hlat, Hlon, Hvalue. cbn [negb orb]. rewrite andb_false_r.
    split; [done|].
    intros (v & [= <-] & d & [= <-] & Herr). vm_compute in Herr. discriminate Herr.
Qed.

(** A frame without rows, and a frame that lacks the columns asked for. *)
Lemma cultural_analyzer_invalid_input_witness :
  empty Demo.empty_frame = true
  /\ returns_error (descriptive_statistics Demo.demo_library Demo.empty_frame)
  /\ returns_error (sentiment_analysis Demo.demo_library Demo.empty_frame (u "name"))
  /\ has_column Demo.small_frame (u "review") = false
  /\ returns_error (sentiment_analysis Demo.demo_library Demo.small_frame (u "review"))
  /\ returns_error
       (time_series_analysis Demo.demo_library Demo.small_frame (u "year") (u "rating")).1.
Proof.
  destruct (cultural_analyzer_invalid_input Demo.demo_library Demo.empty_frame)
    as (Hempty & _).
  destruct (cultural_analyzer_invalid_input Demo.demo_library Demo.small_frame)
    as (_ & Htime & _ & Htext & _).
  destruct (Hempty eq_refl) as (Hdesc & _ & _ & _ & _ & Hsent & _).
  split_and!; [reflexivity | exact Hdesc | apply Hsent | reflexivity | |].
  - apply Htext. reflexivity.
  - apply Htime. left. reflexivity.
Defined.

(** C4 does not hold of [network_analysis]: on an empty frame it returns
    [None], which is no dictionary with an ["error"] entry. *)
Lemma network_analysis_returns_none :
  empty Demo.empty_frame = true
  /\ exists r,
       (network_analysis Demo.demo_library Demo.empty_frame (u "name") (u "links")
          Demo.fresh_world).1 = Ret r
       /\ ~ returns_error r.
Proof.
  split; [reflexivity|]. exists (Value VNone). split; [reflexivity|].
  apply none_is_no_error.
Qed.

End CulturalErrors.

(** ** [ImageAnalyzer.analyze] *)

Section ImageAnalysis.
Import ImageAnalyzer.

(** The colour distribution has the twelve keys, each with a float. *)
Lemma color_distribution_shape C img :
  dict_keys (_analyze_color_distribution C img) = color_keys
  /\ Forall (fun entry => exists f, entry.2 = VFloat f) (_analyze_color_distribution C img).
Proof.
  unfold _analyze_color_distribution.
  destruct (meanStdDev C img 0) as [mean_r std_r], (meanStdDev C img 1) as [mean_g std_g],
    (meanStdDev C img 2) as [mean_b std_b].
  destruct (meanStdDev C (cvtColor C img (u "COLOR_RGB2Lab")) 0) as [mean_l std_l],
    (meanStdDev C (cvtColor C img (u "COLOR_RGB2Lab")) 1) as [mean_a std_a],
    (meanStdDev C (cvtColor C img (u "COLOR_RGB2Lab")) 2) as [mean_b_lab std_b_lab].
  split; [reflexivity|]. repeat constructor; by eexists.
Qed.

(** The texture analysis never raises: its own handler answers with zeros. *)
Lemma analyze_texture_returns C gray w :
  exists texture w', _analyze_texture C gray w = (Ret texture, w').
Proof.
  unfold _analyze_texture, try_except, io_bind, io_lift.
  destruct (glcm_features C gray) as [features|e]; by eexists _, _.
Qed.

(** A successful load sets both images; a failed one leaves the image unset. *)
Lemma init_loaded C path w :
  match imread C path with
  | Some bgr =>
    exists img gray,
      init C path w = (Ret (Self path (Some img) (Some gray)), w)
  | None => exists s w', init C path w = (Ret s, w') /\ image_ s = None
  end.
Proof.
  unfold init, load_image, try_except. cbn [image_path].
  destruct (imread C path) as [bgr|].
  - by eexists _, _.
  - eexists _, _. split; reflexivity.
Qed.

(** C6.  For an analyzer whose image is loaded, [analyze] returns a
    dictionary whose ["color_distribution"] entry is a dictionary with
    exactly the twelve keys, ["mean_l"] and ["std_l"] among them, each
    holding a float, and which has no ["error"] entry; for an analyzer whose
    image is not loaded it returns a dictionary with an ["error"] entry and
    does nothing else. *)
Theorem analyze_color_distribution (C : opencv) (s : self C) (w : world) :
  length color_keys = 12%nat
  /\ (forall img gray,
        image_ s = Some img -> gray_image s = Some gray ->
        exists analysis w' colors,
          analyze C s w = (Ret analysis, w')
          /\ dict_get (u "color_distribution") analysis = Some (VDict colors)
          /\ dict_keys colors = color_keys
          /\ Forall (fun entry => exists f, entry.2 = VFloat f) colors
          /\ dict_has (u "mean_l") colors = true
          /\ dict_has (u "std_l") colors = true
          /\ dict_has (u "error") analysis = false)
  /\ (image_ s = None ->
        exists analysis,
          analyze C s w = (Ret analysis, w) /\ dict_has (u "error") analysis = true).
Proof.
  split; [reflexivity|]. split.
  - intros img gray Himg Hgray. unfold analyze. rewrite Himg, Hgray.
    unfold io_bind.
    destruct (analyze_texture_returns C gray w) as (texture & w' & ->).
    destruct (color_distribution_shape C img) as [Hkeys Hfloats].
    eexists _, _, _. split; [reflexivity|]. split; [reflexivity|].
    split; [exact Hkeys|]. split; [exact Hfloats|].
    split_and!.
    + apply dict_has_keys. rewrite Hkeys. vm_compute.
      do 6 apply list_elem_of_further. apply list_elem_of_here.
    + apply dict_has_keys. rewrite Hkeys. vm_compute.
      do 9 apply list_elem_of_further. apply list_elem_of_here.
    + reflexivity.
  - intros Himg. unfold analyze. rewrite Himg. by eexists.
Qed.

(** An image that loads, and a path that does not. *)
Lemma analyze_color_distribution_witness :
  (exists s analysis w' colors,
     init Demo.demo_opencv (u "art.png") Demo.fresh_world = (Ret s, Demo.fresh_world)
     /\ analyze Demo.demo_opencv s Demo.fresh_world = (Ret analysis, w')
     /\ dict_get (u "color_distribution") analysis = Some (VDict colors)
     /\ dict_keys colors = color_keys)
  /\ (exists s analysis,
        (init Demo.demo_opencv (u "lost.png") Demo.fresh_world).1 = Ret s
        /\ image_ s = None
        /\ analyze Demo.demo_opencv s Demo.fresh_world = (Ret analysis, Demo.fresh_world)
        /\ dict_has (u "error") analysis = true).
Proof.
  split.
  - destruct (analyze_color_distribution Demo.demo_opencv
                (@Self Demo.demo_opencv (u "art.png") (Some tt) (Some tt)) Demo.fresh_world)
      as (_ & Hloaded & _).
    destruct (Hloaded tt tt eq_refl eq_refl)
      as (analysis & w' & colors & Hrun & Hcolors & Hkeys & _).
    exists (@Self Demo.demo_opencv (u "art.png") (Some tt) (Some tt)), analysis, w', colors.
    split_and!; [reflexivity | exact Hrun | exact Hcolors | exact Hkeys].
  - destruct (analyze_color_distribution Demo.demo_opencv
                (@Self Demo.demo_opencv (u "lost.png") None None) Demo.fresh_world)
      as (_ & _ & Hmissing).
    destruct (Hmissing eq_refl) as (analysis & Hrun & Herror).
    exists (@Self Demo.demo_opencv (u "lost.png") None None), analysis.
    split_and!; [reflexivity | reflexivity | exact Hrun | exact Herror].
Defined.

End ImageAnalysis.

(** ** [IntelligentAssistant.identify_needs]: data keys and descriptions of
    any kind *)

Section DataKeys.
Import DigitalHumanities.

Lemma find_first {A} (f : A -> bool) before e after :
  Forall (fun x => f x = false) before -> f e = true ->
  find f (before ++ e :: after) = Some e.
Proof.
  intros Hbefore He. induction Hbefore as [|x before Hx _ IH]; cbn [app find].
  - by rewrite He.
  - by rewrite Hx.
Qed.

Lemma data_branch_ret request key skill intent v :
  dict_get key request = Some v ->
  data_branch request key skill intent initial_needs = Ret (data_needs key skill intent v).
Proof. intros Hget. unfold data_branch, dict_item. rewrite Hget. reflexivity. Qed.

(** The chain of [if]/[elif] tests the data keys in the order of the table
    and runs the branch of the first key the request has. *)
Lemma identify_needs_table request :
  identify_needs request
  = match find (fun e => dict_has e.1 request) data_key_skills with
    | Some (key, (skill, intent)) => data_branch request key skill intent initial_needs
    | None =>
      if dict_has (u "description") request then
        description <- dict_item (u "description") request ;;
        scan_skills knowledge_base_keywords description request initial_needs
      else Ret initial_needs
    end.
Proof.
  unfold identify_needs, data_key_skills. cbn [find fst].
  repeat (match goal with
          | |- context [if dict_has ?k request then _ else _] =>
            destruct (dict_has k request); [reflexivity|]
          end).
  reflexivity.
Qed.

Lemma str_in_value_found k description :
  iterable description = true -> str_in_value k description = Ret (found_in description k).
Proof. by destruct description. Qed.

Lemma scan_keywords_found skill keywords description request :
  iterable description = true ->
  scan_keywords skill keywords description request initial_needs
  = Ret (if existsb (found_in description) keywords then keyword_needs skill request
         else initial_needs).
Proof.
  intros Hit. induction keywords as [|k keywords IH]; [done|].
  cbn [scan_keywords existsb]. rewrite (str_in_value_found k description Hit).
  cbn [obind]. destruct (found_in description k); [reflexivity | exact IH].
Qed.

Lemma scan_skills_found kb description request :
  iterable description = true ->
  scan_skills kb description request initial_needs
  = Ret (match find (fun e => existsb (found_in description) e.2) kb with
         | Some (skill, _) => keyword_needs skill request
         | None => initial_needs
         end).
Proof.
  intros Hit. induction kb as [|[skill keywords] kb IH]; [done|].
  cbn [scan_skills find snd]. rewrite scan_keywords_found by done.
  destruct (existsb (found_in description) keywords); [reflexivity | exact IH].
Qed.

Lemma scan_skills_not_iterable description request :
  iterable description = false ->
  scan_skills knowledge_base_keywords description request initial_needs
  = Raise (Exn TypeError
             (u "argument of type '" ++ type_name description ++ u "' is not iterable")).
Proof. destruct description; try discriminate; intros _; reflexivity. Qed.

Lemma data_keys_table : map fst data_key_skills = data_keys.
Proof. reflexivity. Qed.

Lemma find_data_key_none (request : pydict) :
  find (fun e => dict_has e.1 request) data_key_skills = None
  <-> Forall (fun key => dict_has key request = false) data_keys.
Proof.
  rewrite <- data_keys_table, Forall_fmap. split.
  - intros Hnone. apply Forall_forall. intros e He.
    apply (find_none _ _ Hnone). by apply list_elem_of_In.
  - intros Hall. destruct (find _ data_key_skills) as [e|] eqn:Hfind; [|done].
    apply find_some in Hfind as [He Hhas]. apply list_elem_of_In in He.
    apply (proj1 (Forall_forall _ _) Hall) in He. cbn in He. congruence.
Qed.

(** What [identify_needs] computes, in closed form. *)
Lemma identify_needs_closed_form request :
  identify_needs request
  = match find (fun e => dict_has e.1 request) data_key_skills with
    | Some (key, (skill, intent)) =>
      Ret (data_needs key skill intent (default VNone (dict_get key request)))
    | None =>
      match dict_get (u "description") request with
      | Some description =>
        if iterable description then
          Ret (match find (fun e => existsb (found_in description) e.2)
                          knowledge_base_keywords with
               | Some (skill, _) => keyword_needs skill request
               | None => initial_needs
               end)
        else Raise (Exn TypeError
                      (u "argument of type '" ++ type_name description
                         ++ u "' is not iterable"))
      | None => Ret initial_needs
      end
    end.
Proof.
  rewrite identify_needs_table.
  destruct (find _ data_key_skills) as [[key [skill intent]]|] eqn:Hfind.
  - apply find_some in Hfind as [_ Hhas]. cbn [fst] in Hhas.
    apply dict_has_get in Hhas as [v Hv]. rewrite Hv. by apply data_branch_ret.
  - destruct (dict_get (u "description") request) as [description|] eqn:Hd.
    + rewrite (dict_get_has _ _ _ Hd). unfold dict_item. rewrite Hd. cbn [obind].
      destruct (iterable description) eqn:Hit.
      * by apply scan_skills_found.
      * by apply scan_skills_not_iterable.
    + destruct (dict_has (u "description") request) eqn:Hhas; [|done].
      apply dict_has_get in Hhas as [v Hv]. congruence.
Qed.

(** X1.  When a request has one of the eight data keys, the first of them in
    the order text, historical_data, heritage_data, art_data, language_data,
    philosophy_data, social_data, education_data decides, whatever the
    description says and whatever the order of the keys in the request: the
    request type and intent are those of that key, the confidence is [0.9],
    [data_types] lists that key alone and [data] holds that key's value
    alone; and a skill is registered under the request type. *)
Theorem identify_needs_by_data_key (request : pydict) before key skill intent after v :
  data_key_skills = before ++ (key, (skill, intent)) :: after ->
  Forall (fun e => dict_has e.1 request = false) before ->
  dict_get key request = Some v ->
  map fst data_key_skills = data_keys
  /\ identify_needs request
     = Ret [ (u "request_type", VStr skill);
             (u "data_types", VList [VStr key]);
             (u "intent", VStr intent);
             (u "confidence", VFloat 0.9);
             (u "data", VDict [ (key, v) ]) ]
  /\ dict_has skill skills = true.
Proof.
  intros Htable Hbefore Hget. split; [reflexivity|]. split.
  - rewrite identify_needs_closed_form, Htable.
    rewrite find_first; [by rewrite Hget | done | by apply (dict_get_has _ _ v)].
  - assert ((key, (skill, intent)) ∈ data_key_skills) as Hin
      by (rewrite Htable; apply elem_of_app; right; left).
    unfold data_key_skills in Hin.
    repeat (apply elem_of_cons in Hin as [[= -> -> ->]|Hin]; [reflexivity|]).
    by apply not_elem_of_nil in Hin.
Qed.

(** A request that lists its art data before its heritage data and whose
    description speaks of text: the heritage data decide. *)
Lemma identify_needs_by_data_key_witness :
  identify_needs [ (u "description", VStr (u "分析文本"));
                   (u "art_data", VList [VStr (u "画")]);
                   (u "heritage_data", VStr (u "长城")) ]
  = Ret [ (u "request_type", VStr (u "cultural_heritage"));
          (u "data_types", VList [VStr (u "heritage_data")]);
          (u "intent", VStr (u "preserve_heritage"));
          (u "confidence", VFloat 0.9);
          (u "data", VDict [ (u "heritage_data", VStr (u "长城")) ]) ]
  /\ dict_has (u "cultural_heritage") skills = true.
Proof.
  refine (proj2 (identify_needs_by_data_key _ (take 2 data_key_skills) _ _ _
                   (drop 3 data_key_skills) _ _ _ _)).
  - reflexivity.
  - repeat constructor.
  - reflexivity.
Defined.

(** X2.  [identify_needs] raises in one case only: the request has none of
    the eight data keys and its description is neither a string nor a list
    nor a dictionary.  The exception is then the [TypeError] of the first
    [keyword in description] test. *)
Theorem identify_needs_raises_iff (request : pydict) (e : exn) :
  identify_needs request = Raise e
  <-> Forall (fun key => dict_has key request = false) data_keys
      /\ exists description,
           dict_get (u "description") request = Some description
           /\ iterable description = false
           /\ e = Exn TypeError
                    (u "argument of type '" ++ type_name description
                       ++ u "' is not iterable").
Proof.
  rewrite identify_needs_closed_form, <- find_data_key_none.
  destruct (find _ data_key_skills) as [[key [skill intent]]|].
  - split; [discriminate | by intros [? _]].
  - destruct (dict_get (u "description") request) as [description|].
    + destruct (iterable description) eqn:Hit.
      * split; [discriminate|]. intros (_ & d & [= <-] & ? & _). congruence.
      * split.
        -- intros [= <-]. split; [done|]. by exists description.
        -- intros (_ & d & [= <-] & _ & ->). done.
    + split; [discriminate|]. by intros (_ & d & ? & _).
Qed.

End DataKeys.
(** ** [DigitalHumanities.process_request]: which skill runs, and when the
    request fails *)

Section Dispatch.
Import DigitalHumanities.

(** A skill that does not find its key in [data] looks it up in
    [data["data"]]. *)
Lemma find_field_nested key (needs inner : pydict) :
  dict_has key needs = false ->
  dict_get (u "data") needs = Some (VDict inner) ->
  find_field key (VDict needs) = Ret (default VNone (dict_get key inner)).
Proof.
  intros Hkey Hdata. unfold find_field. cbn [str_in_value obind]. rewrite Hkey.
  rewrite (dict_get_has _ _ _ Hdata). cbn [py_getitem]. unfold dict_item at 1.
  rewrite Hdata. cbn [obind str_in_value].
  destruct (dict_has key inner) eqn:Hin.
  - apply dict_has_get in Hin as [v Hv]. cbn [py_getitem]. unfold dict_item.
    by rewrite Hv.
  - destruct (dict_get key inner) as [v|] eqn:Hv; [|done].
    apply dict_get_has in Hv. congruence.
Qed.

Lemma drop_punctuation_returns items :
  (exists kept, drop_punctuation items = Ret kept)
  <-> forallb (fun item => match item with VStr _ => true | _ => false end) items = true.
Proof.
  induction items as [|item items IH]; cbn [drop_punctuation forallb].
  - split; [done | by eexists].
  - destruct item; cbn [andb];
      try (split; [intros [kept Hkept]; discriminate Hkept | discriminate]).
    rewrite <- IH. split.
    + intros [kept Hkept]. destruct (drop_punctuation items) as [kept'|e]; [by eexists|done].
    + intros [kept' ->]. by eexists.
Qed.

Lemma extract_keywords_returns text num_keywords :
  (exists keywords, _extract_keywords text num_keywords = Ret keywords)
  <-> match text with
      | VStr _ | VDict _ => True
      | VList l =>
        forallb (fun item => match item with VStr _ => true | _ => false end) l = true
      | _ => False
      end.
Proof.
  unfold _extract_keywords. destruct text as [| | | |s|l|d]; cbn [py_iter obind];
    try (split; [intros [kept Hkept]; discriminate Hkept | done]).
  - split; [done|]. intros _.
    destruct (proj2 (drop_punctuation_returns (map (fun c => VStr [c]) s))) as [kept ->].
    { induction s as [|c s IH]; [done | exact IH]. }
    by eexists.
  - rewrite <- drop_punctuation_returns. split.
    + intros [kws Hkws]. destruct (drop_punctuation l) as [kept|e]; [by eexists | done].
    + intros [kept ->]. by eexists.
  - split; [done|]. intros _.
    destruct (proj2 (drop_punctuation_returns (map VStr (dict_keys d)))) as [kept ->].
    { induction d as [|[k v] d IH]; [done | exact IH]. }
    by eexists.
Qed.

(** The text analysis on the [needs] of a request: the text is looked up in
    [needs["data"]]. *)
Lemma text_process_nested (needs inner : pydict) :
  dict_has (u "text") needs = false ->
  dict_get (u "data") needs = Some (VDict inner) ->
  TextAnalysis_process (VDict needs)
  = let text := default VNone (dict_get (u "text") inner) in
    if truthy text then
      text_length <- py_len text ;;
      keywords <- _extract_keywords text 10 ;;
      Ret (skill_result (u "text_analysis") [VStr (u "text_processing")]
             [ (u "text_length", VInt text_length);
               (u "character_count", VInt text_length);
               (u "keywords", VList (map VStr keywords)) ])
    else Ret (skill_result (u "text_analysis") [] []).
Proof.
  intros Hkey Hdata. unfold TextAnalysis_process.
  by rewrite (find_field_nested _ _ _ Hkey Hdata).
Qed.

Lemma text_process_returns (needs inner : pydict) :
  dict_has (u "text") needs = false ->
  dict_get (u "data") needs = Some (VDict inner) ->
  (exists r, TextAnalysis_process (VDict needs) = Ret r)
  <-> analysable (default VNone (dict_get (u "text") inner)) = true.
Proof.
  intros Hkey Hdata. rewrite (text_process_nested _ _ Hkey Hdata). cbv zeta.
  generalize (default VNone (dict_get (u "text") inner)). intros text.
  destruct (truthy text) eqn:Htruthy.
  - pose proof (extract_keywords_returns text 10) as Hex.
    destruct text as [|b|z|f|s|l|d]; cbn [analysable py_len obind];
      rewrite ?Htruthy; cbn [negb];
      try (split; [intros [r Hr]; discriminate Hr | discriminate]).
    + split; [done|]. intros _. destruct (proj2 Hex I) as [kws ->]. by eexists.
    + rewrite <- Hex. split.
      * intros [r Hr]. destruct (_extract_keywords (VList l) 10); [by eexists | done].
      * intros [kws ->]. by eexists.
    + split; [done|]. intros _. destruct (proj2 Hex I) as [kws ->]. by eexists.
  - split; [|by eexists]. intros _.
    destruct text as [|b|z|f|s|l|d]; cbn [analysable]; rewrite ?Htruthy; try done.
    cbn [truthy] in Htruthy. destruct l; [done | discriminate Htruthy].
Qed.

(** Every skill but the text analysis returns whatever it is given, as long
    as [data["data"]] is a dictionary. *)
Lemma other_skills_return skill process (needs inner : pydict) :
  dict_get skill skills = Some process ->
  skill <> u "text_analysis" ->
  Forall (fun key => dict_has key needs = false) data_keys ->
  dict_get (u "data") needs = Some (VDict inner) ->
  exists r, process (VDict needs) = Ret r.
Proof.
  intros Hskill Hne Hkeys Hdata.
  assert (forall key, key ∈ data_keys ->
            find_field key (VDict needs) = Ret (default VNone (dict_get key inner)))
    as Hfield.
  { intros key Hkey. apply find_field_nested; [|done].
    by apply (proj1 (Forall_forall _ _) Hkeys). }
  unfold skills in Hskill. cbn [dict_get] in Hskill.
  repeat (match type of Hskill with
          | (if decide (?k = skill) then _ else _) = _ =>
            destruct (decide (k = skill)) as [<-|_];
              [injection Hskill as <- | ]
          end); try discriminate Hskill; try (by destruct Hne); clear Hne.
  - unfold HistoricalResearch_process. rewrite Hfield by (vm_compute; set_solver).
    cbn [obind]. destruct (truthy _); [destruct (default _ _)|]; by eexists.
  - unfold ArtCulturalResearch_process. rewrite Hfield by (vm_compute; set_solver).
    cbn [obind]. destruct (truthy _); by eexists.
  - unfold LanguageResearch_process, flag_process.
    rewrite Hfield by (vm_compute; set_solver).
    cbn [obind]. destruct (truthy _); by eexists.
  - unfold PhilosophyResearch_process, flag_process.
    rewrite Hfield by (vm_compute; set_solver).
    cbn [obind]. destruct (truthy _); by eexists.
  - unfold SocialCulturalAnalysis_process, flag_process.
    rewrite Hfield by (vm_compute; set_solver).
    cbn [obind]. destruct (truthy _); by eexists.
  - unfold CulturalHeritage_process, flag_process.
    rewrite Hfield by (vm_compute; set_solver).
    cbn [obind]. destruct (truthy _); by eexists.
  - unfold PublicEducation_process, flag_process.
    rewrite Hfield by (vm_compute; set_solver).
    cbn [obind]. destruct (truthy _); by eexists.
Qed.

End Dispatch.
Section Requests.
Import DigitalHumanities.

(** The body of [process_request], step by step: the clock is read twice on
    the way to a result and not at all on the way to an exception. *)
Lemma process_request_body_eq E request w :
  process_request_body E request w
  = match identify_needs request with
    | Raise e => (Raise e, w)
    | Ret needs =>
      match run_skills (match_skills needs) [] with
      | Raise e => (Raise e, w)
      | Ret results =>
        (Ret [ (u "request", VDict request);
               (u "identified_needs", VDict needs);
               (u "matched_skills", VDict (match_skills needs));
               (u "results", VDict results);
               (u "validation", VDict (validate_results results));
               (u "timestamp", VStr (strftime_now E (clock w)));
               (u "version", VStr version) ],
         World (S (S (clock w))) (trace w))
      end
    end.
Proof.
  unfold process_request_body, update_system, io_bind, io_lift, now, io_ret.
  destruct (identify_needs request) as [needs|e]; [|done].
  by destruct (run_skills (match_skills needs) []).
Qed.

Lemma dict_has_false_get {V} (k : pystr) (d : list (pystr * V)) :
  dict_has k d = false -> dict_get k d = None.
Proof.
  intros Hhas. destruct (dict_get k d) as [v|] eqn:Hget; [|done].
  apply dict_get_has in Hget. congruence.
Qed.

(** What holds of a dictionary with the five keys of [needs]. *)
Lemma needs_form s data_types intent confidence inner :
  s <> [] ->
  let needs := [ (u "request_type", VStr s); (u "data_types", data_types);
                 (u "intent", intent); (u "confidence", confidence);
                 (u "data", VDict inner) ] in
  dict_get (u "request_type") needs = Some (VStr s)
  /\ dict_get (u "data") needs = Some (VDict inner)
  /\ Forall (fun key => dict_has key needs = false) data_keys
  /\ match_skills needs = [ (s, VDict needs) ].
Proof.
  intros Hs needs.
  split; [reflexivity|]. split; [vm_compute; reflexivity|].
  split; [repeat constructor|].
  unfold match_skills.
  change (dict_get (u "request_type") needs) with (Some (VStr s)).
  cbn [from_option id truthy]. by rewrite bool_decide_eq_false_2.
Qed.

(** The shape of every [needs] dictionary [identify_needs] returns. *)
Lemma identify_needs_shape request needs :
  identify_needs request = Ret needs ->
  exists s inner,
    dict_get (u "request_type") needs = Some (VStr s)
    /\ dict_get (u "data") needs = Some (VDict inner)
    /\ Forall (fun key => dict_has key needs = false) data_keys
    /\ match_skills needs = [ (s, VDict needs) ]
    /\ ((s = u "unknown" /\ needs = initial_needs) \/ dict_has s skills = true)
    /\ default VNone (dict_get (u "text") inner)
       = default VNone (dict_get (u "text") request)
    /\ (s <> u "text_analysis" -> dict_get (u "text") request = None).
Proof.
  rewrite identify_needs_closed_form.
  destruct (find _ data_key_skills) as [[key [skill intent]]|] eqn:Hfind.
  - intros [= <-]. exists skill, [ (key, default VNone (dict_get key request)) ].
    assert (skill <> [] /\ dict_has skill skills = true
            /\ (key = u "text"
                \/ dict_get (u "text") [ (key, default VNone (dict_get key request)) ]
                   = None
                   /\ dict_get (u "text") request = None)) as (Hskill & Hhas & Hkey).
    { unfold data_key_skills in Hfind. cbn [find fst] in Hfind.
      destruct (dict_has (u "text") request) eqn:Htext.
      { injection Hfind as <- <- <-.
        split_and!; [by vm_compute | vm_compute; reflexivity | by left]. }
      apply dict_has_false_get in Htext.
      repeat (match type of Hfind with
              | (if dict_has ?k request then _ else _) = _ =>
                destruct (dict_has k request);
                  [ injection Hfind as <- <- <-;
                    split_and!; [by vm_compute | vm_compute; reflexivity
                                | right; split; [vm_compute; reflexivity | done] ] | ]
              end).
      discriminate Hfind. }
    destruct (needs_form skill (VList [VStr key]) (VStr intent) (VFloat 0.9)
                [ (key, default VNone (dict_get key request)) ] Hskill)
      as (H1 & H2 & H3 & H4).
    split_and!; [exact H1 | exact H2 | exact H3 | exact H4 | by right | |].
    + destruct Hkey as [->|[-> ->]]; [|done].
      cbn [dict_get]. by rewrite decide_True.
    + intros Hne. destruct Hkey as [->|[_ ?]]; [|done].
      apply find_some in Hfind as [Hin _]. exfalso.
      unfold data_key_skills in Hin. cbn [In] in Hin.
      repeat (destruct Hin as [Heq|Hin];
              [pose proof (f_equal fst Heq) as Hk;
               pose proof (f_equal (fun e => e.2.1) Heq) as Hs; cbn [fst snd] in Hk, Hs;
               first [by vm_compute in Hk | by subst] | ]).
      destruct Hin.
  - apply find_data_key_none in Hfind.
    assert (dict_get (u "text") request = None) as Htext.
    { apply Forall_cons in Hfind as [Htext _]. by apply dict_has_false_get. }
    assert (u "unknown" <> []) as Hunknown by (by vm_compute).
    destruct (needs_form (u "unknown") (VList []) (VStr []) (VFloat 0.0) [] Hunknown)
      as (I1 & I2 & I3 & I4).
    destruct (dict_get (u "description") request) as [description|].
    2:{ intros [= <-]. exists (u "unknown"), []. rewrite Htext.
        split_and!; [exact I1 | exact I2 | exact I3 | exact I4 | by left | done | done]. }
    destruct (iterable description); [|done].
    destruct (find _ knowledge_base_keywords) as [[skill keywords]|] eqn:Hkb.
    2:{ intros [= <-]. exists (u "unknown"), []. rewrite Htext.
        split_and!; [exact I1 | exact I2 | exact I3 | exact I4 | by left | done | done]. }
    intros [= <-]. exists skill, request. apply find_some in Hkb as [Hin _].
    assert (skill <> [] /\ dict_has skill skills = true) as [Hskill Hhas].
    { unfold knowledge_base_keywords in Hin. cbn [In] in Hin.
      repeat (destruct Hin as [[= <- <-]|Hin];
              [split; [by vm_compute | vm_compute; reflexivity] | ]).
      destruct Hin. }
    destruct (needs_form skill (VList []) (VStr (u "process_" ++ skill)) (VFloat 0.7)
                request Hskill) as (H1 & H2 & H3 & H4).
    split_and!; [exact H1 | exact H2 | exact H3 | exact H4 | by right | done | done].
Qed.

Lemma run_matched_skill s needs :
  run_skills [ (s, VDict needs) ] []
  = match dict_get s skills with
    | Some process => r <- process (VDict needs) ;; Ret [ (s, VDict r) ]
    | None => Ret []
    end.
Proof.
  cbn [run_skills]. destruct (dict_get s skills) as [process|]; [|done].
  by destruct (process (VDict needs)).
Qed.

(** Whether [identify_needs] raises. *)
Lemma identify_needs_outcome request :
  (Forall (fun key => dict_has key request = false) data_keys
   /\ exists description,
        dict_get (u "description") request = Some description
        /\ iterable description = false)
  <-> exists e, identify_needs request = Raise e.
Proof.
  rewrite identify_needs_closed_form, <- find_data_key_none.
  destruct (find _ data_key_skills) as [[key [skill intent]]|].
  - split; [by intros [? _] | by intros [e ?]].
  - destruct (dict_get (u "description") request) as [description|].
    + destruct (iterable description) eqn:Hit.
      * split; [|by intros [e ?]]. intros (_ & d & [= <-] & ?). congruence.
      * split; [by eexists|]. intros _. split; [done|]. by exists description.
    + split; [|by intros [e ?]]. by intros (_ & d & ? & _).
Qed.

Lemma text_analysis_registered :
  dict_get (u "text_analysis") skills = Some TextAnalysis_process.
Proof. reflexivity. Qed.

Lemma error_dict_has_error message timestamp :
  dict_has (u "error") [ (u "error", VStr message); (u "timestamp", VStr timestamp) ]
  = true.
Proof. reflexivity. Qed.

Lemma result_dict_has_no_error request needs matched results validation timestamp :
  dict_has (u "error")
    [ (u "request", request); (u "identified_needs", needs);
      (u "matched_skills", matched); (u "results", results);
      (u "validation", validation); (u "timestamp", timestamp);
      (u "version", VStr version) ]
  = false.
Proof. reflexivity. Qed.

(** X3.  When [process_request] does not answer with an error dictionary,
    its result has the seven keys; [matched_skills] has exactly one entry,
    keyed by the identified request type.  For the request type ["unknown"]
    no skill is run, [results] is empty and the validation says invalid;
    for any other request type exactly the skill registered under it is run
    on the [needs] dictionary, [results] holds exactly its result and the
    validation says valid.  The clock was read twice and nothing was printed
    or written. *)
Theorem process_request_dispatch E (request : pydict) w d w' :
  process_request E request w = (Ret d, w') ->
  dict_has (u "error") d = false ->
  exists needs s results,
    identify_needs request = Ret needs
    /\ dict_get (u "request_type") needs = Some (VStr s)
    /\ d = [ (u "request", VDict request);
             (u "identified_needs", VDict needs);
             (u "matched_skills", VDict [ (s, VDict needs) ]);
             (u "results", VDict results);
             (u "validation", VDict (validate_results results));
             (u "timestamp", VStr (strftime_now E (clock w)));
             (u "version", VStr version) ]
    /\ w' = World (S (S (clock w))) (trace w)
    /\ ((s = u "unknown" /\ results = []
         /\ dict_get (u "valid") (validate_results results) = Some (VBool false))
        \/ (exists process r,
              dict_get s skills = Some process
              /\ process (VDict needs) = Ret r
              /\ results = [ (s, VDict r) ]
              /\ dict_get (u "valid") (validate_results results) = Some (VBool true))).
Proof.
  rewrite process_request_outcome, process_request_body_eq.
  destruct (identify_needs request) as [needs|e] eqn:Hneeds;
    [|intros [= <- <-]; by rewrite error_dict_has_error].
  destruct (identify_needs_shape _ _ Hneeds)
    as (s & inner & Htype & Hdata & Hkeys & -> & Hknown & _).
  rewrite run_matched_skill.
  destruct (dict_get s skills) as [process|] eqn:Hskill.
  - destruct (process (VDict needs)) as [r|e] eqn:Hrun; cbn [obind];
      [|intros [= <- <-]; by rewrite error_dict_has_error].
    intros [= <- <-] _. exists needs, s, [ (s, VDict r) ].
    split_and!; [done | done | done | done |]. right. by exists process, r.
  - intros [= <- <-] _. exists needs, s, [].
    split_and!; [done | done | done | done |]. left.
    destruct Hknown as [[-> _]|Hhas]; [done|].
    apply dict_has_get in Hhas as [process Hprocess]. congruence.
Qed.

(** A description that mentions the third skill of the knowledge base: the
    art skill runs and finds no art data. *)
Lemma process_request_dispatch_witness :
  exists d w',
    process_request Demo.demo_env Demo.heritage_request Demo.fresh_world = (Ret d, w')
    /\ dict_has (u "error") d = false
    /\ dict_get (u "results") d
       = Some (VDict [ (u "art_cultural_research",
                        VDict (skill_result (u "art_cultural_research") [] [])) ])
    /\ exists needs s results,
         identify_needs Demo.heritage_request = Ret needs
         /\ dict_get (u "request_type") needs = Some (VStr s)
         /\ dict_get (u "results") d = Some (VDict results)
         /\ w' = World 2 [].
Proof.
  destruct (process_request_returns Demo.demo_env Demo.heritage_request Demo.fresh_world)
    as (d & w' & Hrun).
  exists d, w'. pose proof Hrun as Hvalue. vm_compute in Hvalue.
  injection Hvalue as Hd Hw.
  assert (dict_has (u "error") d = false) as Herror
    by (rewrite <- Hd; vm_compute; reflexivity).
  split; [exact Hrun|]. split; [exact Herror|].
  split; [rewrite <- Hd; vm_compute; reflexivity|].
  destruct (process_request_dispatch _ _ _ _ _ Hrun Herror)
    as (needs & s & results & Hneeds & Htype & Hresult & Hworld & _).
  exists needs, s, results.
  split_and!; [exact Hneeds | exact Htype | rewrite Hresult; reflexivity | exact Hworld].
Defined.

(** X4.  [process_request] answers with an error dictionary in two cases
    only: the request has none of the eight data keys and a description that
    is neither a string nor a list nor a dictionary; or its text is a true
    value that is no string, dictionary or list of strings (a number other
    than zero, [True], or a list with an item that is no string).  Every
    other request gets a full result. *)
Theorem process_request_fails_iff E (request : pydict) w :
  exists d w',
    process_request E request w = (Ret d, w')
    /\ (dict_has (u "error") d = true
        <-> (Forall (fun key => dict_has key request = false) data_keys
             /\ exists description,
                  dict_get (u "description") request = Some description
                  /\ iterable description = false)
            \/ (exists text,
                  dict_get (u "text") request = Some text /\ analysable text = false)).
Proof.
  rewrite process_request_outcome, process_request_body_eq.
  pose proof (identify_needs_outcome request) as Hraises.
  destruct (identify_needs request) as [needs|e] eqn:Hneeds.
  - assert (~ (Forall (fun key => dict_has key request = false) data_keys
               /\ exists description,
                    dict_get (u "description") request = Some description
                    /\ iterable description = false)) as Hdescription
      by (intros [e He]%Hraises; discriminate He).
    destruct (identify_needs_shape _ _ Hneeds)
      as (s & inner & Htype & Hdata & Hkeys & -> & Hknown & Htext & Hother).
    rewrite run_matched_skill.
    assert (dict_has (u "text") needs = false) as Hno_text
      by (by apply Forall_cons in Hkeys as [? _]).
    pose proof (text_process_returns needs inner Hno_text Hdata) as Hreturns.
    rewrite Htext in Hreturns.
    destruct (decide (s = u "text_analysis")) as [->|Hs].
    + rewrite text_analysis_registered.
      destruct (TextAnalysis_process (VDict needs)) as [r|e]; cbn [obind].
      * eexists _, _. split; [reflexivity|]. rewrite result_dict_has_no_error.
        split; [discriminate|]. intros [?|(text & Hget & Hbad)]; [done|].
        rewrite Hget in Hreturns. cbn [from_option id] in Hreturns.
        rewrite (proj1 Hreturns) in Hbad by (by eexists). discriminate Hbad.
      * eexists _, _. split; [reflexivity|]. rewrite error_dict_has_error.
        split; [|done]. intros _. right.
        destruct (dict_get (u "text") request) as [text|].
        -- exists text. split; [done|]. cbn [from_option id] in Hreturns.
           destruct (analysable text); [|done].
           destruct (proj2 Hreturns eq_refl) as [r Hr]. discriminate Hr.
        -- destruct (proj2 Hreturns eq_refl) as [r Hr]. discriminate Hr.
    + assert (forall results : pydict, exists d w',
                (Ret [ (u "request", VDict request);
                       (u "identified_needs", VDict needs);
                       (u "matched_skills", VDict [ (s, VDict needs) ]);
                       (u "results", VDict results);
                       (u "validation", VDict (validate_results results));
                       (u "timestamp", VStr (strftime_now E (clock w)));
                       (u "version", VStr version) ],
                 World (S (S (clock w))) (trace w)) = (Ret d, w')
                /\ (dict_has (u "error") d = true
                    <-> (Forall (fun key => dict_has key request = false) data_keys
                         /\ exists description,
                              dict_get (u "description") request = Some description
                              /\ iterable description = false)
                        \/ (exists text,
                              dict_get (u "text") request = Some text
                              /\ analysable text = false))) as Hresult.
      { intros results. eexists _, _. split; [reflexivity|].
        rewrite result_dict_has_no_error.
        split; [discriminate|]. intros [?|(text & Hget & _)]; [done|].
        rewrite (Hother Hs) in Hget. discriminate Hget. }
      destruct (dict_get s skills) as [process|] eqn:Hskill; [|apply Hresult].
      destruct (other_skills_return s process needs inner Hskill Hs Hkeys Hdata)
        as [r ->].
      apply Hresult.
  - eexists _, _. split; [reflexivity|]. rewrite error_dict_has_error.
    split; [|done]. intros _. left. apply Hraises. by exists e.
Qed.

(** A request whose text is a string gets a full result, and the clock is
    read twice. *)
Lemma process_request_text_ok E (request : pydict) (t : pystr) w :
  dict_get (u "text") request = Some (VStr t) ->
  exists d,
    process_request E request w = (Ret d, World (S (S (clock w))) (trace w))
    /\ dict_has (u "error") d = false.
Proof.
  intros Htext. rewrite process_request_outcome, process_request_body_eq.
  destruct (identify_needs request) as [needs|e] eqn:Hneeds.
  - destruct (identify_needs_shape _ _ Hneeds)
      as (s & inner & Htype & Hdata & Hkeys & -> & _ & Hinner & Hother).
    assert (s = u "text_analysis") as ->.
    { destruct (decide (s = u "text_analysis")) as [|Hs]; [done|].
      rewrite (Hother Hs) in Htext. discriminate Htext. }
    rewrite run_matched_skill, text_analysis_registered.
    assert (dict_has (u "text") needs = false) as Hno_text
      by (by apply Forall_cons in Hkeys as [? _]).
    destruct (proj2 (text_process_returns needs inner Hno_text Hdata)) as [r ->].
    { by rewrite Hinner, Htext. }
    eexists. split; [reflexivity|]. apply result_dict_has_no_error.
  - exfalso. apply (dict_get_has _ _ _) in Htext.
    assert (exists e, identify_needs request = Raise e) as Hraise by (by exists e).
    apply identify_needs_outcome in Hraise as [Hkeys _].
    apply Forall_cons in Hkeys as [Hkey _]. congruence.
Qed.

(** X5.  A request whose text is a string is always analysed as text: the
    result has no error; [results] holds the text analysis alone, with the
    length of the text under both ["text_length"] and ["character_count"]
    and the keywords [_extract_keywords] finds; an empty text is reported as
    processed without any operation.  The validation says valid in both
    cases. *)
Theorem process_request_text E (request : pydict) (t : pystr) w :
  dict_get (u "text") request = Some (VStr t) ->
  exists keywords d,
    _extract_keywords (VStr t) 10 = Ret keywords
    /\ process_request E request w = (Ret d, World (S (S (clock w))) (trace w))
    /\ dict_has (u "error") d = false
    /\ dict_get (u "results") d
       = Some (VDict
           [ (u "text_analysis",
              VDict (if decide (t = []) then skill_result (u "text_analysis") [] []
                     else skill_result (u "text_analysis") [VStr (u "text_processing")]
                            [ (u "text_length", VInt (Z.of_nat (length t)));
                              (u "character_count", VInt (Z.of_nat (length t)));
                              (u "keywords", VList (map VStr keywords)) ])) ])
    /\ dict_get (u "validation") d
       = Some (VDict [ (u "valid", VBool true); (u "issues", VList []);
                       (u "confidence", VFloat 0.8) ]).
Proof.
  intros Htext.
  destruct (proj2 (extract_keywords_returns (VStr t) 10) I) as [keywords Hkeywords].
  exists keywords. rewrite process_request_outcome, process_request_body_eq.
  rewrite identify_needs_closed_form. unfold data_key_skills. cbn [find fst].
  rewrite (dict_get_has _ _ _ Htext), Htext. cbn [from_option id].
  change (match_skills (data_needs (u "text") (u "text_analysis") (u "analyze_text") (VStr t)))
    with [ (u "text_analysis",
            VDict (data_needs (u "text") (u "text_analysis") (u "analyze_text") (VStr t))) ].
  rewrite run_matched_skill, text_analysis_registered.
  rewrite (text_process_nested _ [ (u "text", VStr t) ]) by reflexivity.
  change (default VNone (dict_get (u "text") [ (u "text", VStr t) ])) with (VStr t).
  cbv zeta. cbn [truthy py_len]. rewrite Hkeywords. cbn [obind].
  destruct (decide (t = [])) as [->|Hne].
  - eexists. split_and!; [done | reflexivity | reflexivity | reflexivity | reflexivity].
  - rewrite bool_decide_eq_false_2 by done. cbn [negb obind].
    eexists. split_and!; [done | reflexivity | reflexivity | reflexivity | reflexivity].
Qed.

(** A sentence of five characters, given beside a description. *)
Lemma process_request_text_witness :
  exists d,
    process_request Demo.demo_env
      [ (u "description", VStr (u "分析")); (u "text", VStr (u "文化，文化遗产")) ]
      Demo.fresh_world
    = (Ret d, World 2 [])
    /\ dict_get (u "results") d
       = Some (VDict
           [ (u "text_analysis",
              VDict (skill_result (u "text_analysis") [VStr (u "text_processing")]
                       [ (u "text_length", VInt 7);
                         (u "character_count", VInt 7);
                         (u "keywords",
                          VList [VStr (u "文化"); VStr (u "化文"); VStr (u "化遗");
                                 VStr (u "遗产")]) ])) ]).
Proof.
  destruct (process_request_text Demo.demo_env
              [ (u "description", VStr (u "分析")); (u "text", VStr (u "文化，文化遗产")) ]
              (u "文化，文化遗产") Demo.fresh_world eq_refl)
    as (keywords & d & Hkeywords & Hrun & _ & Hresults & _).
  exists d. split; [exact Hrun|]. rewrite Hresults.
  vm_compute in Hkeywords. injection Hkeywords as <-. vm_compute. reflexivity.
Defined.

End Requests.
(** ** Sorting by decreasing key, and counting *)

Section Sorting.
Context {A : Type} (key : A -> Z).

Lemma insert_by_perm x l : insert_by key x l ≡ₚ x :: l.
Proof.
  induction l as [|y l IH]; cbn [insert_by]; [done|].
  destruct (key y <? key x); [done|]. rewrite IH. apply Permutation_swap.
Qed.

Lemma sort_reverse_snoc items x :
  sort_reverse key (items ++ [x]) = insert_by key x (sort_reverse key items).
Proof. unfold sort_reverse. by rewrite foldl_app. Qed.

Lemma sort_reverse_perm items : sort_reverse key items ≡ₚ items.
Proof.
  induction items as [|x items IH] using rev_ind; [done|].
  rewrite sort_reverse_snoc, insert_by_perm, IH. apply Permutation_cons_append.
Qed.

Lemma insert_by_decreasing x l : decreasing key l -> decreasing key (insert_by key x l).
Proof.
  induction l as [|y l IH]; cbn [insert_by decreasing].
  - intros _. split; [constructor | done].
  - intros [Hy Hl]. destruct (key y <? key x) eqn:Hlt.
    + apply Z.ltb_lt in Hlt. cbn [decreasing]. split; [|done].
      constructor; [lia|]. eapply Forall_impl; [exact Hy|]. intros z Hz. cbn in Hz. lia.
    + apply Z.ltb_ge in Hlt. cbn [decreasing]. split; [|by apply IH].
      rewrite insert_by_perm. by constructor.
Qed.

Lemma sort_reverse_decreasing items : decreasing key (sort_reverse key items).
Proof.
  induction items as [|x items IH] using rev_ind; [done|].
  rewrite sort_reverse_snoc. by apply insert_by_decreasing.
Qed.

Lemma decreasing_lookup l : forall i j a b,
  decreasing key l -> (i < j)%nat -> l !! i = Some a -> l !! j = Some b ->
  key b <= key a.
Proof.
  induction l as [|x l IH]; intros i j a b Hl Hij Ha Hb; [done|].
  destruct Hl as [Hx Hl]. destruct j as [|j]; [lia|]. cbn in Hb.
  destruct i as [|i].
  - injection Ha as <-. apply (proj1 (Forall_forall _ _) Hx).
    by apply list_elem_of_lookup_2 in Hb.
  - cbn in Ha. apply (IH i j); [done | lia | done | done].
Qed.

Lemma decreasing_app l1 l2 a b :
  decreasing key (l1 ++ l2) -> a ∈ l1 -> b ∈ l2 -> key b <= key a.
Proof.
  intros Hl Ha Hb.
  apply list_elem_of_lookup_1 in Ha as [i Hi]. apply list_elem_of_lookup_1 in Hb as [j Hj].
  apply (decreasing_lookup (l1 ++ l2) i (length l1 + j) a b Hl).
  - apply lookup_lt_Some in Hi. lia.
  - by apply lookup_app_l_Some.
  - rewrite lookup_app_r by lia. by replace (length l1 + j - length l1)%nat with j by lia.
Qed.


Lemma filter_none (P : A -> Prop) `{forall y, Decision (P y)} l :
  Forall (fun z => ~ P z) l -> filter P l = [].
Proof.
  induction 1 as [|z l Hz _ IH]; [done|]. by rewrite filter_cons, decide_False.
Qed.

(** Items of equal key keep their order: the sort is stable. *)
Lemma insert_by_filter (P : A -> Prop) `{forall y, Decision (P y)} x l :
  (forall y z, P y -> P z -> key y = key z) ->
  decreasing key l ->
  filter P (insert_by key x l) = filter P (l ++ [x]).
Proof.
  intros Hsame. induction l as [|y l IH]; intros Hl; cbn [insert_by app]; [done|].
  destruct Hl as [Hy Hl]. destruct (key y <? key x) eqn:Hlt.
  - apply Z.ltb_lt in Hlt.
    change (y :: l ++ [x]) with ((y :: l) ++ [x]). rewrite filter_app.
    rewrite (filter_cons _ x), (filter_cons _ x [] ), filter_nil.
    destruct (decide (P x)) as [Hx|Hx]; [|by rewrite app_nil_r].
    rewrite filter_none; [done|]. constructor.
    + intros Hy'. specialize (Hsame _ _ Hx Hy'). lia.
    + eapply Forall_impl; [exact Hy|]. intros z Hz Hz'. cbn in Hz.
      specialize (Hsame _ _ Hx Hz'). lia.
  - rewrite !filter_cons, IH by done. by destruct (decide (P y)).
Qed.

Lemma sort_reverse_stable (P : A -> Prop) `{forall y, Decision (P y)} items :
  (forall y z, P y -> P z -> key y = key z) ->
  filter P (sort_reverse key items) = filter P items.
Proof.
  intros Hsame. induction items as [|x items IH] using rev_ind; [done|].
  rewrite sort_reverse_snoc, insert_by_filter by (done || apply sort_reverse_decreasing).
  by rewrite !filter_app, IH.
Qed.

Lemma filter_split (P : A -> Prop) `{forall y, Decision (P y)} l : forall m1 x m2,
  filter P l = m1 ++ x :: m2 ->
  exists l1 l2, l = l1 ++ x :: l2 /\ filter P l1 = m1 /\ filter P l2 = m2.
Proof.
  induction l as [|z l IH]; intros m1 x m2 Hf.
  - rewrite filter_nil in Hf. by destruct m1.
  - rewrite filter_cons in Hf. destruct (decide (P z)) as [Hz|Hz].
    + destruct m1 as [|z' m1]; cbn [app] in Hf; injection Hf as -> Hf.
      * exists [], l. by rewrite filter_nil.
      * destruct (IH _ _ _ Hf) as (l1 & l2 & -> & <- & <-).
        exists (z' :: l1), l2. by rewrite filter_cons, decide_True.
    + destruct (IH _ _ _ Hf) as (l1 & l2 & -> & <- & <-).
      exists (z :: l1), l2. by rewrite filter_cons, decide_False.
Qed.

(** Of two items of equal key, the one that comes first after sorting came
    first before. *)
Lemma sort_reverse_ties `{EqDecision A} items i j x y :
  NoDup items -> (i < j)%nat ->
  sort_reverse key items !! i = Some x -> sort_reverse key items !! j = Some y ->
  key x = key y ->
  exists l1 l2 l3, items = l1 ++ x :: l2 ++ y :: l3.
Proof.
  intros Hdup Hij Hx Hy Hkey.
  assert (NoDup (sort_reverse key items)) as Hdup' by (by rewrite sort_reverse_perm).
  assert (x <> y) as Hne.
  { intros ->. assert (i = j) by (by apply (NoDup_lookup _ i j y Hdup')). lia. }
  destruct (list_elem_of_split_length _ _ _ Hx) as (s1 & s2 & Hs & Hi).
  assert (s2 !! (j - S i)%nat = Some y) as Hy'.
  { rewrite Hs in Hy. rewrite lookup_app_r in Hy by lia.
    replace (j - length s1)%nat with (S (j - S i)) in Hy by lia. done. }
  apply list_elem_of_lookup_2, list_elem_of_split in Hy' as (s3 & s4 & ->).
  assert (filter (fun z => z = x \/ z = y) (sort_reverse key items)
          = filter (fun z => z = x \/ z = y) items) as Hstable.
  { apply sort_reverse_stable. intros z1 z2 [->| ->] [->| ->]; congruence. }
  rewrite Hs in Hstable.
  rewrite filter_app, filter_cons, filter_app, filter_cons in Hstable.
  rewrite (decide_True (P := x = x \/ x = y)), (decide_True (P := y = x \/ y = y))
    in Hstable by auto.
  symmetry in Hstable.
  apply filter_split in Hstable as (l1 & l' & -> & _ & Hrest).
  apply filter_split in Hrest as (l2 & l3 & -> & _ & _).
  by exists l1, l2, l3.
Qed.

End Sorting.

Section Counting.

Lemma occurrences_snoc (x y : pystr) items :
  occurrences x (items ++ [y])
  = occurrences x items + (if decide (y = x) then 1 else 0).
Proof.
  unfold occurrences. rewrite filter_app, length_app, filter_cons, filter_nil.
  destruct (decide (y = x)); cbn [length]; lia.
Qed.

Lemma occurrences_pos (x : pystr) items : 0 < occurrences x items <-> x ∈ items.
Proof.
  unfold occurrences. split.
  - intros Hpos. destruct (filter (fun y => y = x) items) as [|y l] eqn:Hf;
      [cbn [length] in Hpos; lia|].
    assert (y ∈ filter (fun y => y = x) items) as Hy by (rewrite Hf; by left).
    by apply list_elem_of_filter in Hy as [-> ?].
  - intros Hin.
    assert (x ∈ filter (fun y => y = x) items) as Hx by (by apply list_elem_of_filter).
    destruct (filter (fun y => y = x) items); [by apply not_elem_of_nil in Hx|].
    cbn [length]. lia.
Qed.

Lemma tally_snoc items x :
  tally (items ++ [x]) = dict_set x (default 0 (dict_get x (tally items)) + 1) (tally items).
Proof. unfold tally. by rewrite foldl_app. Qed.

(** [tally] holds, for every item, how often it occurs. *)
Lemma tally_get x items :
  dict_get x (tally items)
  = if decide (occurrences x items = 0) then None else Some (occurrences x items).
Proof.
  induction items as [|y items IH] using rev_ind; [done|].
  rewrite tally_snoc, occurrences_snoc.
  assert (0 <= occurrences x items) as Hnonneg by (unfold occurrences; lia).
  destruct (decide (y = x)) as [->|Hne].
  - rewrite dict_get_set_eq, IH.
    rewrite (decide_False (P := occurrences x items + 1 = 0)) by lia.
    destruct (decide (occurrences x items = 0)) as [->|]; cbn [from_option id]; done.
  - rewrite dict_get_set_ne, IH by done. rewrite Z.add_0_r. done.
Qed.

Lemma tally_NoDup items : NoDup (dict_keys (tally items)).
Proof.
  induction items as [|y items IH] using rev_ind; [constructor|].
  rewrite tally_snoc. by apply dict_set_NoDup.
Qed.

Lemma tally_elem x n items :
  (x, n) ∈ tally items <-> n = occurrences x items /\ x ∈ items.
Proof.
  rewrite <- occurrences_pos. split.
  - intros Hin. apply dict_elem_get in Hin; [|apply tally_NoDup].
    rewrite tally_get in Hin. destruct (decide (occurrences x items = 0)); [done|].
    injection Hin as <-. split; [done|]. unfold occurrences in *. lia.
  - intros [-> Hpos]. apply dict_get_elem. rewrite tally_get.
    rewrite decide_False by lia. done.
Qed.

Lemma tally_keys_snoc items x :
  dict_keys (tally (items ++ [x]))
  = if decide (x ∈ items) then dict_keys (tally items) else dict_keys (tally items) ++ [x].
Proof.
  rewrite tally_snoc, dict_keys_set.
  destruct (decide (x ∈ items)) as [Hin|Hout].
  - rewrite (proj2 (dict_has_get x (tally items))); [done|].
    rewrite tally_get, decide_False; [done|]. apply occurrences_pos in Hin. lia.
  - destruct (dict_has x (tally items)) eqn:Hhas; [|done].
    apply dict_has_get in Hhas as [n Hn]. rewrite tally_get in Hn.
    destruct (decide (occurrences x items = 0)); [done|].
    exfalso. apply Hout, occurrences_pos. unfold occurrences in *. lia.
Qed.

(** The keys of [tally] come in the order in which the items are first met. *)
Lemma tally_order items : forall k1 a k2 b k3,
  dict_keys (tally items) = k1 ++ a :: k2 ++ b :: k3 ->
  exists i0, items !! i0 = Some a /\ forall j0, items !! j0 = Some b -> (i0 < j0)%nat.
Proof.
  induction items as [|x items IH] using rev_ind; intros k1 a k2 b k3 Hkeys.
  - by destruct k1.
  - assert (forall i0, items !! i0 = Some a ->
              (forall j0, items !! j0 = Some b -> (i0 < j0)%nat) ->
              exists i0, (items ++ [x]) !! i0 = Some a
                         /\ forall j0, (items ++ [x]) !! j0 = Some b -> (i0 < j0)%nat)
      as Hextend.
    { intros i0 Hi0 Hfirst. exists i0. split; [by apply lookup_app_l_Some|].
      intros j0 Hj0. apply lookup_lt_Some in Hi0 as Hlt.
      destruct (decide (j0 < length items)%nat) as [Hj|Hj]; [|lia].
      rewrite lookup_app_l in Hj0 by done. by apply Hfirst. }
    rewrite tally_keys_snoc in Hkeys. destruct (decide (x ∈ items)) as [Hin|Hout].
    + destruct (IH _ _ _ _ _ Hkeys) as (i0 & Hi0 & Hfirst). by apply (Hextend i0).
    + destruct k3 as [|z k3 _] using rev_ind.
      * replace (k1 ++ a :: k2 ++ [b]) with ((k1 ++ a :: k2) ++ [b]) in Hkeys
          by (by rewrite <- app_assoc).
        apply app_inj_tail in Hkeys as [Hkeys <-].
        assert (a ∈ items) as Ha.
        { apply occurrences_pos. destruct (decide (occurrences a items = 0)) as [H0|]; 
            [|unfold occurrences in *; lia].
          pose proof (tally_get a items) as Hget. rewrite decide_True in Hget by done.
          assert (a ∈ dict_keys (tally items)) as Hkey
            by (rewrite Hkeys; apply elem_of_app; right; left).
          apply dict_has_keys, dict_has_get in Hkey as [n Hn]. congruence. }
        apply list_elem_of_lookup_1 in Ha as [i0 Hi0]. exists i0.
        split; [by apply lookup_app_l_Some|]. intros j0 Hj0.
        apply lookup_lt_Some in Hi0 as Hlt.
        destruct (decide (j0 < length items)%nat) as [Hj|Hj]; [|lia].
        rewrite lookup_app_l in Hj0 by done. exfalso.
        by apply Hout, list_elem_of_lookup_2 with j0.
      * replace (k1 ++ a :: k2 ++ b :: k3 ++ [z])
          with ((k1 ++ a :: k2 ++ b :: k3) ++ [z]) in Hkeys
          by (rewrite <- !app_assoc; cbn; by rewrite <- app_assoc).
        apply app_inj_tail in Hkeys as [Hkeys _].
        destruct (IH _ _ _ _ _ Hkeys) as (i0 & Hi0 & Hfirst). by apply (Hextend i0).
Qed.

End Counting.

(** ** [TextAnalysis._extract_keywords] *)

Section Keywords.
Import DigitalHumanities.

Lemma str_in_char c d : str_in [c] d = true <-> c ∈ d.
Proof.
  rewrite str_in_spec. unfold occurs_in. split.
  - intros (pre & post & ->). apply elem_of_app. right. by left.
  - intros (pre & post & ->)%list_elem_of_split. by exists pre, post.
Qed.

Lemma drop_punctuation_chars s :
  drop_punctuation (map (fun c => VStr [c]) s) = Ret (map (fun c => [c]) (cleaned s)).
Proof.
  unfold cleaned, pystr. induction s as [|c s IH]; [done|].
  cbn [map drop_punctuation]. rewrite IH. cbn [obind]. rewrite filter_cons.
  destruct (str_in [c] punctuation) eqn:Hc.
  - apply str_in_char in Hc. by rewrite decide_False by (by intros ?).
  - rewrite decide_True; [done|]. intros Hin. apply str_in_char in Hin. congruence.
Qed.

Lemma concat_singletons (l : pystr) : concat (map (fun c => [c]) l) = l.
Proof. induction l as [|c l IH]; [done|]. cbn. by rewrite IH. Qed.





Lemma insert_desc_insert_by x l : insert_desc x l = insert_by snd x l.
Proof. induction l as [|y l IH]; [done|]. cbn. by rewrite IH. Qed.

Lemma sorted_desc_sort_reverse items : sorted_desc items = sort_reverse snd items.
Proof.
  unfold sorted_desc, sort_reverse.
  induction items as [|x items IH] using rev_ind; [done|].
  by rewrite !foldl_app, IH; cbn; rewrite insert_desc_insert_by.
Qed.

(** [_extract_keywords] on a string, in closed form. *)
Lemma extract_keywords_str t num_keywords :
  _extract_keywords (VStr t) num_keywords
  = Ret (map fst (take num_keywords (sort_reverse snd (tally (bigrams (cleaned t)))))).
Proof.
  unfold _extract_keywords. cbn [py_iter obind]. rewrite drop_punctuation_chars.
  cbn [obind]. by rewrite concat_singletons, sorted_desc_sort_reverse.
Qed.


(** X7.  The keywords of a string come by decreasing frequency: a keyword
    occurs at least as often among the windows as every keyword after it
    and as every window that was left out, and of two windows that occur
    equally often the one met first in the text comes first. *)
Theorem extract_keywords_ranking (t : pystr) (num_keywords : nat) :
  exists keywords,
    _extract_keywords (VStr t) num_keywords = Ret keywords
    /\ (forall a, a ∈ keywords -> 0 < occurrences a (bigrams (cleaned t)))
    /\ (forall i j a b,
          (i < j)%nat -> keywords !! i = Some a -> keywords !! j = Some b ->
          occurrences b (bigrams (cleaned t)) <= occurrences a (bigrams (cleaned t)))
    /\ (forall a w,
          a ∈ keywords -> w ∈ bigrams (cleaned t) -> w ∉ keywords ->
          length keywords = num_keywords
          /\ occurrences w (bigrams (cleaned t)) <= occurrences a (bigrams (cleaned t)))
    /\ (forall i j a b,
          (i < j)%nat -> keywords !! i = Some a -> keywords !! j = Some b ->
          occurrences a (bigrams (cleaned t)) = occurrences b (bigrams (cleaned t)) ->
          exists i0, bigrams (cleaned t) !! i0 = Some a
                     /\ forall j0, bigrams (cleaned t) !! j0 = Some b -> (i0 < j0)%nat).
Proof.
  rewrite extract_keywords_str. eexists. split; [reflexivity|].
  set (words := bigrams (cleaned t)).
  set (sorted := sort_reverse snd (tally words)).
  assert (forall x, x ∈ sorted <-> x.2 = occurrences x.1 words /\ x.1 ∈ words) as Hsorted.
  { intros [w n]. unfold sorted. rewrite sort_reverse_perm. apply tally_elem. }
  assert (forall i a, map fst (take num_keywords sorted) !! i = Some a ->
            sorted !! i = Some (a, occurrences a words) /\ (i < num_keywords)%nat)
    as Hlookup.
  { intros i a Hi. rewrite list_lookup_fmap in Hi.
    destruct (take num_keywords sorted !! i) as [[a' n]|] eqn:Hi'; [|done].
    injection Hi as <-. apply lookup_take_Some in Hi' as [Hi' Hlt].
    apply list_elem_of_lookup_2 in Hi' as Hin. apply Hsorted in Hin as [Hn _].
    cbn in Hn. by subst n. }
  split_and!.
  - intros a (i & Hi)%list_elem_of_lookup_1. apply Hlookup in Hi as [Hi _].
    apply list_elem_of_lookup_2, Hsorted in Hi as [_ Hin]. by apply occurrences_pos.
  - intros i j a b Hij Ha Hb. apply Hlookup in Ha as [Ha _], Hb as [Hb _].
    apply (decreasing_lookup snd sorted i j _ _ (sort_reverse_decreasing _ _) Hij Ha Hb).
  - intros a w (i & Hi)%list_elem_of_lookup_1 Hw Hout.
    apply Hlookup in Hi as [Hi Hlt].
    assert ((w, occurrences w words) ∈ sorted) as Hin by (by apply Hsorted).
    rewrite <- (take_drop num_keywords sorted) in Hin.
    apply elem_of_app in Hin as [Hin|Hin].
    { exfalso. apply Hout, list_elem_of_fmap. by exists (w, occurrences w words). }
    split.
    + rewrite length_map, length_take. apply list_elem_of_lookup_1 in Hin as [k Hk].
      apply lookup_lt_Some in Hk. rewrite length_drop in Hk. lia.
    + apply (decreasing_app snd (take num_keywords sorted) (drop num_keywords sorted)
               (a, occurrences a words) (w, occurrences w words));
        [rewrite take_drop; apply sort_reverse_decreasing | | done].
      apply list_elem_of_lookup_2 with i. by apply lookup_take_Some.
  - intros i j a b Hij Ha Hb Hsame. apply Hlookup in Ha as [Ha _], Hb as [Hb _].
    assert (a <> b) as Hne.
    { intros ->. assert (NoDup (map fst sorted)) as Hdup
        by (unfold sorted; rewrite sort_reverse_perm; apply tally_NoDup).
      assert (i = j); [|lia].
      apply (NoDup_lookup _ i j b Hdup); rewrite list_lookup_fmap.
      - by rewrite Ha.
      - by rewrite Hb. }
    assert (NoDup (tally words)) as Hdup
      by (apply (NoDup_fmap_1 fst), tally_NoDup).
    destruct (sort_reverse_ties snd (tally words) i j _ _ Hdup Hij Ha Hb)
      as (l1 & l2 & l3 & Htally); [by cbn|].
    apply (tally_order words (map fst l1) a (map fst l2) b (map fst l3)).
    unfold dict_keys. rewrite Htally, map_app. cbn [map fst]. by rewrite map_app.
Qed.

End Keywords.
(** ** [BatchProcessor.process_file] *)

Section ProcessFile.
Import DigitalHumanities BatchProcessor.

Lemma range_up_length step fuel : forall i stop,
  0 < step -> i <= stop -> stop - i <= Z.of_nat fuel ->
  Z.of_nat (length (range_up fuel i stop step)) = (stop - i + step - 1) / step.
Proof.
  induction fuel as [|fuel IH]; intros i stop Hstep Hi Hfuel.
  - cbn [range_up length]. symmetry. apply Z.div_small. lia.
  - cbn [range_up]. destruct (Z.ltb_spec i stop) as [Hlt|Hge].
    + cbn [length]. destruct (Z.le_gt_cases (i + step) stop) as [Hnext|Hlast].
      * rewrite Nat2Z.inj_succ, IH by lia.
        replace (stop - i + step - 1) with (stop - (i + step) + step - 1 + 1 * step) by lia.
        rewrite Z.div_add by lia. lia.
      * rewrite range_up_done by lia. cbn [length].
        apply Z.div_unique with (stop - i - 1); lia.
    + cbn [length]. symmetry. apply Z.div_small. lia.
Qed.

Lemma dict_get_second {V} (k1 k2 : pystr) (v1 v2 : V) rest :
  k1 <> k2 -> dict_get k2 ((k1, v1) :: (k2, v2) :: rest) = Some v2.
Proof. intros Hne. cbn [dict_get]. by rewrite decide_False, decide_True. Qed.

Lemma description_is_not_text : u "description" <> u "text".
Proof. by vm_compute. Qed.

(** The loop over the chunks: one request per chunk, numbered from one, each
    with a full result; two readings of the clock per chunk. *)
Lemma process_chunks_run E file_name chunks : forall i results w,
  exists new,
    process_chunks E file_name i chunks results w
    = (Ret (results ++ new), World (clock w + 2 * length chunks) (trace w))
    /\ length new = length chunks
    /\ forall k chunk,
         chunks !! k = Some chunk ->
         exists d,
           new !! k = Some (VDict [ (u "chunk", VInt (i + Z.of_nat k + 1));
                                    (u "result", VDict d) ])
           /\ process_request E
                [ (u "description",
                   VStr (u "处理文件 " ++ file_name ++ u " 的第 "
                           ++ str_of_Z (i + Z.of_nat k + 1) ++ u " 部分"));
                  (u "text", VStr chunk) ]
                (World (clock w + 2 * k) (trace w))
              = (Ret d, World (clock w + 2 * k + 2) (trace w))
           /\ dict_has (u "error") d = false.
Proof.
  induction chunks as [|chunk chunks IH]; intros i results w.
  - exists []. cbn [process_chunks length]. rewrite app_nil_r.
    split_and!; [| done | intros k c Hk; by rewrite lookup_nil in Hk].
    unfold io_ret. f_equal. destruct w. cbn. f_equal. lia.
  - cbn [process_chunks]. unfold io_bind at 1.
    match goal with |- context [process_request E ?r w] =>
      destruct (process_request_text_ok E r chunk w
                  (dict_get_second _ _ _ _ _ description_is_not_text))
        as (d & Hrun & Herror)
    end.
    rewrite Hrun.
    match goal with |- context [process_chunks E file_name ?j chunks ?rs ?w1] =>
      destruct (IH j rs w1) as (new & -> & Hlen & Hnew)
    end.
    cbn [clock trace] in *.
    exists (VDict [ (u "chunk", VInt (i + 1)); (u "result", VDict d) ] :: new).
    split_and!.
    + rewrite <- app_assoc. cbn [app length]. do 2 f_equal. lia.
    + cbn [length]. by rewrite Hlen.
    + intros [|k] c Hk.
      * injection Hk as <-. exists d. cbn [lookup list_lookup].
        replace (i + Z.of_nat 0 + 1) with (i + 1) by lia.
        replace (World (clock w + 2 * 0) (trace w)) with w
          by (destruct w; cbn; f_equal; lia).
        replace (clock w + 2 * 0 + 2)%nat with (S (S (clock w))) by lia.
        split_and!; [reflexivity | exact Hrun | exact Herror].
      * cbn in Hk. destruct (Hnew k c Hk) as (d' & Hd' & Hrun' & Herror').
        exists d'. cbn [lookup list_lookup].
        replace (i + Z.of_nat (S k) + 1) with (i + 1 + Z.of_nat k + 1) by lia.
        replace (clock w + 2 * S k)%nat with (S (S (clock w)) + 2 * k)%nat by lia.
        split_and!; [exact Hd' | exact Hrun' | exact Herror'].
Qed.

(** X8.  [process_file] always returns, prints and writes nothing, and
    reports the name and the number of characters of the file.  A content
    of more than 1,000,000 characters is cut into chunks of 500,000: there
    are as many chunks as the length divided by 500,000, rounded up; each
    is sent as the text of a request of its own, in order, and the entries
    of ["results"] are numbered from one and hold full results.  Any shorter
    content is sent as the text of one request, whose full result is under
    ["result"]. *)
Theorem process_file_chunks E (content file_name : pystr) w :
  exists result n,
    process_file E content file_name w
    = (Ret result, World (clock w + 2 * n) (trace w))
    /\ dict_get (u "file_name") result = Some (VStr file_name)
    /\ dict_get (u "file_size") result = Some (VInt (Z.of_nat (length content)))
    /\ if 1000000 <? Z.of_nat (length content) then
         exists chunks results,
           _split_content content 500000 = Ret chunks
           /\ n = length chunks
           /\ Z.of_nat (length chunks) = (Z.of_nat (length content) + 499999) / 500000
           /\ dict_get (u "is_large_file") result = Some (VBool true)
           /\ dict_get (u "chunks_processed") result
              = Some (VInt (Z.of_nat (length chunks)))
           /\ dict_get (u "results") result = Some (VList results)
           /\ length results = length chunks
           /\ forall k chunk,
                chunks !! k = Some chunk ->
                exists d,
                  results !! k = Some (VDict [ (u "chunk", VInt (Z.of_nat k + 1));
                                               (u "result", VDict d) ])
                  /\ process_request E
                       [ (u "description",
                          VStr (u "处理文件 " ++ file_name ++ u " 的第 "
                                  ++ str_of_Z (Z.of_nat k + 1) ++ u " 部分"));
                         (u "text", VStr chunk) ]
                       (World (clock w + 2 * k) (trace w))
                     = (Ret d, World (clock w + 2 * k + 2) (trace w))
                  /\ dict_has (u "error") d = false
       else
         exists d,
           n = 1%nat
           /\ dict_get (u "is_large_file") result = Some (VBool false)
           /\ dict_get (u "result") result = Some (VDict d)
           /\ dict_has (u "results") result = false
           /\ process_request E
                [ (u "description", VStr (u "处理文件 " ++ file_name));
                  (u "text", VStr content) ] w
              = (Ret d, World (clock w + 2) (trace w))
           /\ dict_has (u "error") d = false.
Proof.
  unfold process_file. destruct (1000000 <? Z.of_nat (length content)) eqn:Hlarge.
  - assert (exists chunks, _split_content content 500000 = Ret chunks
                           /\ Z.of_nat (length chunks)
                              = (Z.of_nat (length content) + 499999) / 500000)
      as (chunks & Hsplit & Hcount).
    { eexists. split; [reflexivity|]. rewrite length_map.
      rewrite (range_up_length 500000) by lia. f_equal. lia. }
    rewrite Hsplit. unfold io_bind at 1, io_lift. unfold io_bind.
    destruct (process_chunks_run E file_name chunks 0 [] w) as (results & -> & Hlen & Hnew).
    cbn [app]. eexists _, (length chunks). split; [reflexivity|].
    split; [reflexivity|]. split; [reflexivity|].
    exists chunks, results.
    split_and!; [done | done | done | reflexivity | reflexivity | reflexivity | done |].
    intros k chunk Hk. destruct (Hnew k chunk Hk) as (d & Hd & Hrun & Herror).
    exists d. split_and!; [exact Hd | exact Hrun | exact Herror].
  - unfold io_bind.
    match goal with |- context [process_request E ?r w] =>
      destruct (process_request_text_ok E r content w
                  (dict_get_second _ _ _ _ _ description_is_not_text))
        as (d & Hrun & Herror)
    end.
    rewrite Hrun. eexists _, 1%nat. split.
    { unfold io_ret. do 2 f_equal. lia. }
    split; [reflexivity|]. split; [reflexivity|].
    exists d. split_and!; [done | reflexivity | reflexivity | reflexivity | | done].
    do 2 f_equal. lia.
Qed.

End ProcessFile.
(** ** [BatchProcessor.process_folder]: what the summary reports *)

Section Report.
Import DigitalHumanities BatchProcessor.

Lemma process_file_world E content file_name w :
  exists result n,
    process_file E content file_name w = (Ret result, World (clock w + n) (trace w)).
Proof.
  unfold process_file. destruct (1000000 <? Z.of_nat (length content)).
  - assert (exists chunks, _split_content content 500000 = Ret chunks) as [chunks ->]
      by (by eexists).
    unfold io_bind at 1, io_lift. unfold io_bind.
    destruct (process_chunks_run E file_name chunks 0 [] w) as (results & -> & _).
    by eexists _, _.
  - unfold io_bind.
    match goal with |- context [process_request E ?r w] =>
      destruct (process_request_text_ok E r content w
                  (dict_get_second _ _ _ _ _ description_is_not_text))
        as (d & -> & _)
    end.
    eexists _, 2%nat. unfold io_ret. do 2 f_equal. lia.
Qed.

Lemma stats_after_nil E output_folder st : stats_after E output_folder [] st = st.
Proof.
  unfold stats_after. rewrite filter_nil. cbn [length map]. rewrite app_nil_r.
  destruct st. cbn. f_equal; lia.
Qed.

Lemma stats_after_app E output_folder taken1 taken2 st :
  stats_after E output_folder (taken1 ++ taken2) st
  = stats_after E output_folder taken2 (stats_after E output_folder taken1 st).
Proof.
  unfold stats_after. cbn [total_files processed_files failed_files start_time end_time files].
  rewrite filter_app, !length_app, map_app, app_assoc. f_equal; lia.
Qed.

Lemma succeeds_count E output_folder file :
  length (filter (succeeds E output_folder) [file])
  = if succeeds E output_folder file then 1%nat else 0%nat.
Proof.
  rewrite filter_cons, filter_nil. destruct (succeeds E output_folder file); [done|].
  by rewrite decide_False by (by intros ?).
Qed.

(** One file of the walk, exactly. *)
Lemma process_entry_report E output_folder root file_name st w :
  exists w',
    process_entry E output_folder root file_name st w
    = (Ret (stats_after E output_folder [ (root, file_name) ] st), w')
    /\ (clock w <= clock w')%nat.
Proof.
  unfold stats_after. rewrite succeeds_count. cbn [length map].
  unfold process_entry, succeeds, file_entry, try_except. cbn [fst snd].
  unfold io_bind at 1 2. cbn [print emit clock trace].
  unfold io_bind at 1, io_lift at 1.
  destruct (open_read E (path_join E root file_name)) as [content|e].
  - unfold io_bind at 1.
    match goal with |- context [process_file E content file_name ?w0] =>
      destruct (process_file_world E content file_name w0) as (result & n & ->) end.
    cbn [clock trace]. unfold io_bind at 1, attempt.
    destruct (open_write E (result_path E output_folder file_name)) as [e|].
    + cbn [io_raise io_bind print emit io_ret clock trace].
      cbn [total_files processed_files failed_files start_time end_time files].
      unfold io_ret. eexists.
      split; [apply (f_equal2 pair); [do 2 f_equal; lia | reflexivity] | cbn [clock]; lia].
    + cbn [io_raise io_bind print emit io_ret clock trace].
      cbn [total_files processed_files failed_files start_time end_time files].
      unfold io_ret. eexists.
      split; [apply (f_equal2 pair); [do 2 f_equal; lia | reflexivity] | cbn [clock]; lia].
  - cbn [io_raise io_bind print emit io_ret clock trace].
    cbn [total_files processed_files failed_files start_time end_time files].
    unfold io_ret. eexists.
      split; [apply (f_equal2 pair); [do 2 f_equal; lia | reflexivity] | cbn [clock]; lia].
Qed.

Lemma process_names_report E output_folder file_extensions root names : forall st w,
  exists w',
    process_names E output_folder file_extensions root names st w
    = (Ret (stats_after E output_folder
              (map (pair root) (filter (has_extension file_extensions) names)) st), w')
    /\ (clock w <= clock w')%nat.
Proof.
  induction names as [|file_name names IH]; intros st w.
  - exists w. by rewrite filter_nil, stats_after_nil.
  - cbn [process_names]. rewrite filter_cons.
    destruct (has_extension file_extensions file_name) eqn:Hext.
    + rewrite decide_True by done. cbn [map].
      change ((root, file_name) :: ?l) with ([ (root, file_name) ] ++ l).
      rewrite stats_after_app. unfold io_bind.
      destruct (process_entry_report E output_folder root file_name st w)
        as (w1 & -> & Hclock1).
      destruct (IH (stats_after E output_folder [ (root, file_name) ] st) w1)
        as (w' & -> & Hclock).
      exists w'. split; [done | lia].
    + rewrite decide_False by (by intros ?). apply IH.
Qed.

Lemma process_walk_report E output_folder file_extensions listing : forall st w,
  exists w',
    process_walk E output_folder file_extensions listing st w
    = (Ret (stats_after E output_folder
              (flat_map (fun '(root, _, names) =>
                           map (pair root) (filter (has_extension file_extensions) names))
                        listing) st), w')
    /\ (clock w <= clock w')%nat.
Proof.
  induction listing as [|[[root dirs] names] listing IH]; intros st w.
  - exists w. by rewrite stats_after_nil.
  - cbn [process_walk flat_map]. rewrite stats_after_app. unfold io_bind.
    destruct (process_names_report E output_folder file_extensions root names st w)
      as (w1 & -> & Hclock1).
    match goal with |- context [process_walk _ _ _ listing ?st1 w1] =>
      destruct (IH st1 w1) as (w' & -> & Hclock) end.
    exists w'. split; [done | lia].
Qed.

Lemma stats_dict_fields st :
  dict_get (u "total_files") (stats_dict st) = Some (VInt (total_files st))
  /\ dict_get (u "processed_files") (stats_dict st) = Some (VInt (processed_files st))
  /\ dict_get (u "failed_files") (stats_dict st) = Some (VInt (failed_files st))
  /\ dict_get (u "files") (stats_dict st) = Some (VList (map VDict (files st)))
  /\ dict_get (u "start_time") (stats_dict st) = Some (VStr (start_time st))
  /\ dict_get (u "end_time") (stats_dict st)
     = Some (match end_time st with Some t => VStr t | None => VNone end).
Proof. split_and!; vm_compute; reflexivity. Qed.

(** X9.  The summary a run on an existing input folder returns counts
    exactly the files of the walk whose name ends in one of the extensions:
    ["total_files"] is their number, ["processed_files"] the number of those
    that could be read and whose result could be written, ["failed_files"]
    the number of the others; ["files"] has one entry per file, in the order
    of the walk, a success with the path of the result or a failure with the
    message of the exception; ["start_time"] is the time the run started and
    ["end_time"] a time read later. *)
Theorem process_folder_report E input_folder output_folder file_extensions w d w' :
  path_exists E input_folder = true ->
  process_folder E input_folder output_folder file_extensions w = (Ret d, w') ->
  let taken := candidates E input_folder file_extensions in
  let succeeded := filter (succeeds E output_folder) taken in
  dict_get (u "total_files") d = Some (VInt (Z.of_nat (length taken)))
  /\ dict_get (u "processed_files") d = Some (VInt (Z.of_nat (length succeeded)))
  /\ dict_get (u "failed_files") d
     = Some (VInt (Z.of_nat (length taken) - Z.of_nat (length succeeded)))
  /\ dict_get (u "files") d
     = Some (VList (map (fun file => VDict (file_entry E output_folder file)) taken))
  /\ dict_get (u "start_time") d = Some (VStr (strftime_now E (clock w)))
  /\ exists n, (clock w < n)%nat
               /\ dict_get (u "end_time") d = Some (VStr (strftime_now E n)).
Proof.
  intros Hin Hrun taken succeeded.
  unfold process_folder in Hrun. rewrite Hin in Hrun. cbn [negb] in Hrun.
  unfold io_bind at 1 in Hrun.
  assert (exists t0,
            (if negb (path_exists E output_folder)
             then attempt (makedirs E output_folder) (EMakedirs output_folder)
             else io_ret tt) w
            = match (if path_exists E output_folder then None
                     else makedirs E output_folder) with
              | Some e => (Raise e, w)
              | None => (Ret tt, World (clock w) t0)
              end) as [t0 Hfirst].
  { destruct (path_exists E output_folder); cbn [negb].
    - exists (trace w). by destruct w.
    - eexists. unfold attempt. by destruct (makedirs E output_folder). }
  rewrite Hfirst in Hrun. clear Hfirst.
  destruct (if path_exists E output_folder then None else makedirs E output_folder)
    as [e|]; [done|].
  unfold io_bind at 1 in Hrun. cbn [now clock trace] in Hrun.
  unfold io_bind at 1 2 3 in Hrun. cbn [print emit clock trace] in Hrun.
  unfold io_bind at 1 in Hrun.
  match type of Hrun with context [process_walk E output_folder file_extensions ?l ?st0 ?w0] =>
    destruct (process_walk_report E output_folder file_extensions l st0 w0)
      as (w1 & Hwalk & Hclock) end.
  rewrite Hwalk in Hrun. clear Hwalk. cbn [clock] in Hclock.
  unfold io_bind at 1 in Hrun. cbn [now clock trace] in Hrun.
  unfold io_bind at 1 2 3 4 5 6 7 in Hrun. cbn [print emit clock trace] in Hrun.
  unfold io_bind at 1, attempt in Hrun.
  destruct (open_write E (stats_path E output_folder)) as [e|]; [done|].
  cbn [io_raise io_bind print emit io_ret clock trace] in Hrun.
  injection Hrun as <- _.
  fold (candidates E input_folder file_extensions). fold taken.
  unfold stats_after.
  cbn [total_files processed_files failed_files start_time end_time files].
  fold succeeded.
  match goal with |- context [stats_dict ?st] =>
    destruct (stats_dict_fields st) as (-> & -> & -> & -> & -> & ->) end.
  cbn [total_files processed_files failed_files start_time end_time files].
  rewrite !Z.add_0_l, map_map.
  split_and!; [done | done | done | done | done |].
  exists (clock w1). split; [lia | done].
Qed.

(** The folder [data]: the walk meets five files, four of them with one of
    the extensions; [data/b.md] cannot be decoded. *)
Lemma process_folder_report_witness :
  exists d w',
    process_folder Demo.demo_env (u "data") (u "out") default_file_extensions
      Demo.fresh_world = (Ret d, w')
    /\ candidates Demo.demo_env (u "data") default_file_extensions
       = [ (u "data", u "a.txt"); (u "data", u "b.md");
           (u "data/sub", u "a.txt"); (u "data/sub", u "c.csv") ]
    /\ dict_get (u "total_files") d = Some (VInt 4)
    /\ dict_get (u "processed_files") d = Some (VInt 3)
    /\ dict_get (u "failed_files") d = Some (VInt 1)
    /\ dict_get (u "files") d
       = Some (VList (map (fun file => VDict (file_entry Demo.demo_env (u "out") file))
                          (candidates Demo.demo_env (u "data") default_file_extensions))).
Proof.
  assert (exists d w',
            process_folder Demo.demo_env (u "data") (u "out") default_file_extensions
              Demo.fresh_world = (Ret d, w')) as (d & w' & Hrun)
    by (eexists _, _; vm_compute; reflexivity).
  exists d, w'. split; [exact Hrun|]. split; [vm_compute; reflexivity|].
  destruct (process_folder_report Demo.demo_env (u "data") (u "out")
              default_file_extensions Demo.fresh_world d w' eq_refl Hrun)
    as (Htotal & Hprocessed & Hfailed & Hfiles & _).
  split_and!; [exact Htotal | exact Hprocessed | exact Hfailed | exact Hfiles].
Defined.

(** X10.  [process_folder] creates the output folder when, and only when,
    it does not exist yet, and creates nothing else.  It is not guarded
    against the two failures outside its loop: when the output folder cannot
    be created the exception reaches the caller before anything was printed,
    read or written; when the summary cannot be written it reaches the
    caller after the results of all the files that went through were
    written. *)
Theorem process_folder_unguarded E input_folder output_folder file_extensions w :
  path_exists E input_folder = true ->
  (forall e,
     path_exists E output_folder = false -> makedirs E output_folder = Some e ->
     process_folder E input_folder output_folder file_extensions w = (Raise e, w))
  /\ (path_exists E output_folder = true \/ makedirs E output_folder = None ->
      exists r w',
        process_folder E input_folder output_folder file_extensions w = (r, w')
        /\ created (trace w')
           = created (trace w) ++ (if path_exists E output_folder then []
                                   else [output_folder])
        /\ (forall e, open_write E (stats_path E output_folder) = Some e ->
               r = Raise e
               /\ map fst (writes (trace w'))
                  = map fst (writes (trace w))
                    ++ map (fun file => result_path E output_folder file.2)
                           (filter (succeeds E output_folder)
                                   (candidates E input_folder file_extensions)))
        /\ (open_write E (stats_path E output_folder) = None -> exists d, r = Ret d)).
Proof.
  intros Hin.
  pose proof (process_folder_spec E input_folder output_folder file_extensions w Hin)
    as Hspec.
  split.
  - intros e Hout Hmk. by rewrite Hout, Hmk in Hspec.
  - intros Hcan.
    assert ((if path_exists E output_folder then None else makedirs E output_folder)
            = None) as Hnone
      by (destruct Hcan as [-> | Hmk]; [done |]; by destruct (path_exists E output_folder)).
    rewrite Hnone in Hspec.
    destruct Hspec as (st & w1 & results & _ & Hwrites & Hresults & Hcreated & Hend).
    destruct (open_write E (stats_path E output_folder)) as [e|].
    + exists (Raise e), w1. split_and!; [done | done | | done].
      intros e' [= <-]. split; [done|].
      by rewrite Hwrites, map_app, Hresults.
    + destruct Hend as (w' & Hrun & _ & Hcreated').
      exists (Ret (stats_dict st)), w'.
      split_and!; [done | congruence | done | by eexists].
Qed.

(** A file system on which the folder [out] cannot be created. *)
Lemma process_folder_unguarded_witness :
  process_folder
    {| strftime_now := strftime_now Demo.demo_env;
       path_exists := path_exists Demo.demo_env;
       makedirs := fun _ => Some (Exn OSError (u "[Errno 13] Permission denied: 'out'"));
       walk := walk Demo.demo_env;
       path_join := path_join Demo.demo_env;
       splitext := splitext Demo.demo_env;
       open_read := open_read Demo.demo_env;
       open_write := open_write Demo.demo_env |}
    (u "data") (u "out") default_file_extensions Demo.fresh_world
  = (Raise (Exn OSError (u "[Errno 13] Permission denied: 'out'")), Demo.fresh_world).
Proof.
  refine (proj1 (process_folder_unguarded _ (u "data") (u "out") default_file_extensions
                   Demo.fresh_world _) _ _ _); reflexivity.
Defined.


End Report.
(** ** [NetworkAnalysis.extract_relationships]: the pairs of a sentence *)

Section Pairs.
Import Nx NetworkAnalysis.

Lemma all_pairs_length (entities : list pystr) :
  (2 * length (all_pairs entities) = length entities * (length entities - 1))%nat.
Proof.
  induction entities as [|e entities IH]; [done|].
  cbn [all_pairs length]. rewrite length_app, length_map. nia.
Qed.

Lemma all_pairs_elem (entities : list pystr) p :
  p ∈ all_pairs entities
  <-> exists i j, (i < j)%nat /\ entities !! i = Some p.1 /\ entities !! j = Some p.2.
Proof.
  induction entities as [|e entities IH]; cbn [all_pairs].
  - split; [by intros ?%not_elem_of_nil | by intros (i & j & _ & ? & _)].
  - rewrite elem_of_app, IH. split.
    + intros [(x & -> & Hx)%list_elem_of_fmap|(i & j & Hij & Hi & Hj)].
      * apply list_elem_of_lookup_1 in Hx as [j Hj]. exists 0%nat, (S j).
        split_and!; [lia | done | done].
      * exists (S i), (S j). split_and!; [lia | done | done].
    + intros (i & j & Hij & Hi & Hj). destruct j as [|j]; [lia|]. cbn in Hj.
      destruct i as [|i].
      * left. injection Hi as ->. apply list_elem_of_fmap. exists p.2.
        split; [by destruct p|]. by apply list_elem_of_lookup_2 in Hj.
      * right. exists i, j. split_and!; [lia | done | done].
Qed.

(** X11.  A sentence in which [n] entities were found gives the [n(n-1)/2]
    pairs of an entity with a later one, and these only; a sentence with
    fewer than two entities gives none.  The pairs of all sentences of all
    texts together are what [extract_relationships] returns. *)
Theorem sentence_relationships_pairs (N : nlp) (sentence : pystr) :
  let entities := sentence_entities N sentence in
  let pairs := sentence_relationships N sentence in
  (2 * length pairs = length entities * (length entities - 1))%nat
  /\ ((length entities < 2)%nat -> pairs = [])
  /\ (forall p,
        p ∈ pairs
        <-> exists i j, (i < j)%nat /\ entities !! i = Some p.1 /\ entities !! j = Some p.2)
  /\ forall texts p,
       p ∈ extract_relationships N (init texts)
       <-> exists text sentence,
             text ∈ texts /\ sentence ∈ sent_tokenize N text
             /\ p ∈ sentence_relationships N sentence.
Proof.
  intros entities pairs.
  assert (pairs = all_pairs entities) as ->.
  { unfold pairs, sentence_relationships. fold entities.
    destruct (decide (2 <= length entities)%nat) as [|Hshort]; [done|].
    destruct entities as [|e1 [|e2 rest]]; [done | done | cbn [length] in Hshort; lia]. }
  split_and!.
  - apply all_pairs_length.
  - intros Hshort.
    destruct entities as [|e1 [|e2 rest]]; [done | done | cbn [length] in Hshort; lia].
  - apply all_pairs_elem.
  - intros texts p. unfold extract_relationships. cbn [NetworkAnalysis.texts init].
    rewrite list_elem_of_In, in_flat_map. split.
    + intros (text & Htext & Hp). apply in_flat_map in Hp as (s & Hs & Hp).
      exists text, s. by rewrite !list_elem_of_In.
    + intros (text & s & Htext & Hs & Hp). exists text.
      rewrite <- list_elem_of_In. split; [done|].
      apply in_flat_map. exists s. by rewrite <- !list_elem_of_In.
Qed.

End Pairs.

(** ** [NetworkAnalysis.build_network]: the graph as a whole *)

Section BuiltGraph.
Import Nx NetworkAnalysis.

Lemma dict_set_same `{EqDecision K} {V} (k : K) (v : V) d :
  dict_get k d = Some v -> dict_set k v d = d.
Proof.
  induction d as [|[k' v'] d IH]; cbn [dict_get dict_set]; [done|].
  destruct (decide (k' = k)) as [->|Hne].
  - by intros [= ->].
  - intros Hget. by rewrite IH.
Qed.

Lemma add_node_present g n : dict_has n g = true -> add_node n g = g.
Proof. unfold add_node. by intros ->. Qed.

(** Adding an edge that is there already, with the weight it has, changes
    nothing. *)
Lemma add_edge_same g a b w :
  edge_weight g a b = Some w -> edge_weight g b a = Some w -> add_edge a b w g = g.
Proof.
  unfold edge_weight, add_edge. intros Hab Hba.
  destruct (dict_get a g) as [nbrs_a|] eqn:Ha; [|done].
  destruct (dict_get b g) as [nbrs_b|] eqn:Hb; [|done].
  rewrite (add_node_present g a) by (by apply (dict_get_has _ _ nbrs_a)).
  rewrite (add_node_present g b) by (by apply (dict_get_has _ _ nbrs_b)).
  assert (dict_set a (dict_set b w (neighbours g a)) g = g) as Hfirst.
  { unfold neighbours. rewrite Ha. cbn [from_option id].
    by rewrite (dict_set_same b w nbrs_a Hab), (dict_set_same a nbrs_a g Ha). }
  assert (dict_set b (dict_set a w (neighbours g b)) g = g) as Hsecond.
  { unfold neighbours. rewrite Hb. cbn [from_option id].
    by rewrite (dict_set_same a w nbrs_b Hba), (dict_set_same b nbrs_b g Hb). }
  cbv zeta. by rewrite Hfirst, Hsecond.
Qed.

Lemma add_relationships_same counts : forall g,
  (forall s t w, ((s, t), w) ∈ counts ->
                 edge_weight g s t = Some w /\ edge_weight g t s = Some w) ->
  add_relationships counts g = g.
Proof.
  unfold add_relationships.
  induction counts as [|[[s t] w] counts IH]; intros g Hedges; [done|].
  cbn [foldl add_relationship].
  destruct (Hedges s t w) as [Hst Hts]; [by left|].
  assert (dict_has s g = true /\ dict_has t g = true) as [Hs Ht].
  { unfold edge_weight in Hst, Hts.
    destruct (dict_get s g) eqn:Hs; [|done]. destruct (dict_get t g) eqn:Ht; [|done].
    split; by eapply dict_get_has. }
  rewrite (add_node_present g s Hs), (add_node_present g t Ht), add_edge_same by done.
  apply IH. intros s' t' w' Hin. apply Hedges. by right.
Qed.

(** The edges of the graph of a new object are the counted pairs, in both
    directions. *)
Lemma built_edge_iff N texts a b w :
  edge_weight (graph (build_network N (init texts))) a b = Some w
  <-> exists s t,
        ((s, t), w) ∈ count_relationships (extract_relationships N (init texts))
        /\ ((a, b) = (s, t) \/ (a, b) = (t, s)).
Proof.
  unfold build_network. cbn [graph init]. split.
  - intros Hedge. apply add_relationships_edge in Hedge as [Hedge|?]; [|done].
    cbv in Hedge. discriminate Hedge.
  - intros (s & t & Hin & Hab).
    by apply (add_relationships_edge_complete _ (count_relationships_NoDup _)
                (count_relationships_sorted _) s t).
Qed.

(** X12.  Building the network of a new object a second time changes
    nothing: the weights are set again, not added up.  A later
    [analyze_network], which builds the network only for a graph without
    nodes, therefore leaves the object as [build_network] left it. *)
Theorem build_network_idempotent (N : nlp) (texts : list pystr) :
  build_network N (build_network N (init texts)) = build_network N (init texts)
  /\ forall A, (analyze_network A N (build_network N (init texts))).2
               = build_network N (init texts).
Proof.
  assert (build_network N (build_network N (init texts)) = build_network N (init texts))
    as Hsame.
  { unfold build_network at 1. cbn [NetworkAnalysis.texts].
    assert (extract_relationships N (build_network N (init texts))
            = extract_relationships N (init texts)) as -> by reflexivity.
    rewrite add_relationships_same; [by destruct (build_network N (init texts))|].
    intros s t w Hin. split; apply built_edge_iff; exists s, t; auto. }
  split; [exact Hsame|]. intros A.
  unfold analyze_network. cbn [snd]. unfold ensure_network.
  destruct (decide (length (nodes (graph (build_network N (init texts)))) = 0%nat));
    [exact Hsame | done].
Qed.

(** X13.  The graph [build_network] builds for a new object is undirected
    and simple: an edge has the same weight in both directions, no edge
    joins a node to itself, the two ends of an edge are nodes, and every
    node has an edge, so no node is isolated. *)
Theorem built_graph_undirected (N : nlp) (texts : list pystr) :
  let g := graph (build_network N (init texts)) in
  (forall a b, edge_weight g a b = edge_weight g b a)
  /\ (forall a, edge_weight g a a = None)
  /\ (forall a b w, edge_weight g a b = Some w -> a ∈ nodes g /\ b ∈ nodes g)
  /\ (forall a, a ∈ nodes g <-> exists b w, edge_weight g a b = Some w).
Proof.
  intros g.
  pose proof (count_relationships_sorted (extract_relationships N (init texts))) as Hsorted.
  assert (forall a b w, edge_weight g a b = Some w -> edge_weight g b a = Some w) as Hsym.
  { intros a b w (s & t & Hin & Hab)%built_edge_iff. apply built_edge_iff.
    exists s, t. split; [done|]. destruct Hab as [[= -> ->]|[= -> ->]]; auto. }
  assert (forall a b w, edge_weight g a b = Some w -> a ∈ nodes g) as Hnode.
  { intros a b w Hedge. apply dict_has_keys. unfold edge_weight in Hedge.
    destruct (dict_get a g) eqn:Ha; [|done]. by eapply dict_get_has. }
  split_and!.
  - intros a b. destruct (edge_weight g a b) as [w|] eqn:Hab.
    + symmetry. by apply Hsym.
    + destruct (edge_weight g b a) as [w|] eqn:Hba; [|done].
      apply Hsym in Hba. congruence.
  - intros a. destruct (edge_weight g a a) as [w|] eqn:Haa; [|done].
    apply built_edge_iff in Haa as (s & t & Hin & Hab).
    apply (proj1 (Forall_forall _ _) Hsorted) in Hin as [Hne _]. cbn [fst snd] in Hne.
    destruct Hab as [[= -> ->]|[= -> ->]]; done.
  - intros a b w Hedge. split; [by eapply Hnode|]. apply Hsym in Hedge. by eapply Hnode.
  - intros a. split; [|intros (b & w & Hedge); by eapply Hnode].
    intros Ha. destruct (build_network_nodes N texts) as [_ Hnodes].
    apply Hnodes in Ha as (p & Hp & Hne & Ha).
    destruct (ordered p.1 p.2) as [s t] eqn:Hord.
    assert (((s, t), Z.of_nat (length (filter (counted_under (s, t))
                                         (extract_relationships N (init texts)))))
            ∈ count_relationships (extract_relationships N (init texts))) as Hin.
    { apply count_relationships_elem. split; [done|]. by exists p. }
    destruct (ordered_cases p.1 p.2) as [H|H]; rewrite H in Hord;
      injection Hord as <- <-; destruct Ha as [-> | ->].
    + eexists p.2, _. apply built_edge_iff. exists p.1, p.2. eauto.
    + eexists p.1, _. apply built_edge_iff. exists p.1, p.2. eauto.
    + eexists p.2, _. apply built_edge_iff. exists p.2, p.1. eauto.
    + eexists p.1, _. apply built_edge_iff. exists p.2, p.1. eauto.
Qed.

End BuiltGraph.
(** ** [NetworkAnalysis.extract_relationships]: the entities of a sentence *)

Section Entities.
Import Nx NetworkAnalysis.

Lemma proper_prefix_length N rest : (length (proper_prefix N rest) <= length rest)%nat.
Proof.
  induction rest as [|t rest IH]; cbn [proper_prefix length]; [done|].
  destruct (is_proper_noun N t); cbn [length]; lia.
Qed.

(** After the longest prefix of proper nouns comes no proper noun. *)
Lemma proper_prefix_drop N rest :
  proper_prefix N (drop (length (proper_prefix N rest)) rest) = [].
Proof.
  induction rest as [|t rest IH]; [done|]. cbn [proper_prefix].
  destruct (is_proper_noun N t) eqn:Ht; cbn [length drop]; [done|].
  cbn [proper_prefix]. by rewrite Ht.
Qed.

(** The inner loop reads the longest prefix of proper nouns. *)
Lemma entity_end_run N : forall rest pre fuel entity,
  (length rest <= fuel)%nat ->
  entity_end N fuel (pre ++ rest) (length pre) entity
  = ((length pre + length (proper_prefix N rest))%nat,
     foldl (fun entity w => entity ++ u " " ++ w) entity (proper_prefix N rest)).
Proof.
  induction rest as [|t rest IH]; intros pre fuel entity Hfuel.
  - rewrite app_nil_r. cbn [proper_prefix length foldl]. rewrite Nat.add_0_r.
    destruct fuel; cbn [entity_end]; [done|]. by rewrite lookup_ge_None_2.
  - destruct fuel as [|fuel]; [cbn [length] in Hfuel; lia|].
    cbn [entity_end proper_prefix]. rewrite list_lookup_middle by done.
    destruct (is_proper_noun N t); cbn [length foldl].
    + replace (pre ++ t :: rest) with ((pre ++ [t]) ++ rest) by (by rewrite <- app_assoc).
      replace (S (length pre)) with (length (pre ++ [t]))
        by (rewrite length_app; cbn; lia).
      rewrite IH by (cbn [length] in Hfuel; lia).
      rewrite length_app. cbn [length]. f_equal. lia.
    + by rewrite Nat.add_0_r.
Qed.

Lemma proper_runs_prefix N : forall rest current,
  proper_runs N rest current
  = proper_runs N (drop (length (proper_prefix N rest)) rest)
      (current ++ proper_prefix N rest).
Proof.
  induction rest as [|t rest IH]; intros current; cbn [proper_prefix].
  - by rewrite app_nil_r.
  - destruct (is_proper_noun N t) eqn:Ht; cbn [length drop].
    + cbn [proper_runs]. rewrite Ht, IH. by rewrite <- app_assoc.
    + by rewrite app_nil_r.
Qed.

Lemma proper_runs_emit N rest current :
  proper_prefix N rest = [] ->
  proper_runs N rest current
  = match current with [] => [] | _ => [current] end ++ proper_runs N rest [].
Proof.
  destruct rest as [|t rest]; cbn [proper_prefix proper_runs].
  - intros _. by rewrite app_nil_r.
  - destruct (is_proper_noun N t); [done|]. intros _. by destruct current.
Qed.

(** The outer loop collects the maximal runs of proper nouns. *)
Lemma entity_loop_runs N : forall fuel rest pre entities,
  (length rest <= fuel)%nat ->
  entity_loop N fuel (pre ++ rest) (length pre) entities
  = entities ++ map join_words (proper_runs N rest []).
Proof.
  induction fuel as [|fuel IH]; intros rest pre entities Hfuel.
  - destruct rest; [|cbn [length] in Hfuel; lia]. cbn. by rewrite app_nil_r.
  - destruct rest as [|t rest].
    + cbn [entity_loop]. rewrite app_nil_r, lookup_ge_None_2 by done.
      cbn. by rewrite app_nil_r.
    + cbn [entity_loop proper_runs]. rewrite list_lookup_middle by done.
      cbn [length] in Hfuel.
      destruct (is_proper_noun N t) eqn:Ht.
      * replace (pre ++ t :: rest) with ((pre ++ [t]) ++ rest) at 2
          by (by rewrite <- app_assoc).
        replace (S (length pre)) with (length (pre ++ [t]))
          by (rewrite length_app; cbn; lia).
        rewrite entity_end_run
          by (rewrite !length_app; cbn [length]; lia).
        set (k := length (proper_prefix N rest)).
        pose proof (proper_prefix_length N rest) as Hk. fold k in Hk.
        replace (pre ++ t :: rest) with ((pre ++ t :: take k rest) ++ drop k rest)
          by (rewrite <- app_assoc; cbn; by rewrite take_drop).
        replace (length (pre ++ [t]) + k)%nat with (length (pre ++ t :: take k rest))
          by (rewrite !length_app; cbn [length]; rewrite length_take; lia).
        rewrite IH by (rewrite length_drop; lia).
        rewrite <- app_assoc. f_equal. cbn [app].
        rewrite (proper_runs_prefix N rest [t.1]). fold k.
        rewrite (proper_runs_emit N (drop k rest) ([t.1] ++ proper_prefix N rest))
          by apply proper_prefix_drop.
        cbn [app map join_words]. done.
      * replace (pre ++ t :: rest) with ((pre ++ [t]) ++ rest)
          by (by rewrite <- app_assoc).
        replace (S (length pre)) with (length (pre ++ [t]))
          by (rewrite length_app; cbn; lia).
        rewrite IH by lia. done.
Qed.

Lemma proper_runs_concat N : forall rest current,
  concat (proper_runs N rest current)
  = current ++ map fst (filter (fun token => is_proper_noun N token) rest).
Proof.
  induction rest as [|t rest IH]; intros current; cbn [proper_runs].
  - rewrite filter_nil. cbn [map]. rewrite app_nil_r. destruct current; [done|].
    cbn. by rewrite app_nil_r.
  - rewrite filter_cons. destruct (is_proper_noun N t) eqn:Ht.
    + rewrite decide_True by done. rewrite IH. cbn [map]. by rewrite <- app_assoc.
    + rewrite decide_False by (by intros ?). rewrite concat_app, IH. cbn [app].
      destruct current; cbn; [done|]. by rewrite app_nil_r.
Qed.

Lemma proper_runs_nonempty N : forall rest current,
  Forall (fun run => run <> []) (proper_runs N rest current).
Proof.
  induction rest as [|t rest IH]; intros current; cbn [proper_runs].
  - destruct current; by repeat constructor.
  - destruct (is_proper_noun N t); [apply IH|].
    apply Forall_app. split; [|apply IH]. destruct current; by repeat constructor.
Qed.

(** X14.  The entities of a sentence are the maximal runs of consecutive
    tokens that are capitalised and tagged as proper nouns, in order, the
    words of a run joined by single blanks; every such token belongs to
    exactly one entity, and no entity is empty.  The two [while] loops stop
    on their own. *)
Theorem sentence_entities_runs (N : nlp) (sentence : pystr) :
  let tagged_tokens := pos_tag N (word_tokenize N sentence) in
  let runs := proper_runs N tagged_tokens [] in
  sentence_entities N sentence = map join_words runs
  /\ concat runs = map fst (filter (fun token => is_proper_noun N token) tagged_tokens)
  /\ Forall (fun run => run <> []) runs
  /\ (Forall (fun token => is_proper_noun N token = false) tagged_tokens ->
      sentence_entities N sentence = [] /\ sentence_relationships N sentence = []).
Proof.
  intros tagged_tokens runs.
  assert (sentence_entities N sentence = map join_words runs) as Hruns
    by apply (entity_loop_runs N (length tagged_tokens) tagged_tokens [] [] (le_n _)).
  split_and!; [exact Hruns | apply proper_runs_concat | apply proper_runs_nonempty |].
  intros Hnone.
  assert (runs = []) as Hempty.
  { unfold runs. clear Hruns. induction Hnone as [|t rest Ht _ IH]; [done|].
    cbn [proper_runs]. by rewrite Ht. }
  assert (sentence_entities N sentence = []) as Hentities by (by rewrite Hruns, Hempty).
  split; [done|]. unfold sentence_relationships. by rewrite Hentities.
Qed.

(** The first of the two letters: three runs, of one, two and one word. *)
Lemma sentence_entities_runs_witness :
  sentence_entities Demo.demo_nlp (u "Ada met Charles Babbage in London")
  = [u "Ada"; u "Charles Babbage"; u "London"]
  /\ proper_runs Demo.demo_nlp
       (pos_tag Demo.demo_nlp
          (word_tokenize Demo.demo_nlp (u "Ada met Charles Babbage in London"))) []
     = [ [u "Ada"]; [u "Charles"; u "Babbage"]; [u "London"] ]
  /\ sentence_entities Demo.demo_nlp (u "the end") = []
  /\ sentence_relationships Demo.demo_nlp (u "the end") = [].
Proof.
  destruct (sentence_entities_runs Demo.demo_nlp (u "Ada met Charles Babbage in London"))
    as (Hruns & _).
  destruct (sentence_entities_runs Demo.demo_nlp (u "the end")) as (_ & _ & _ & Hnone).
  split; [rewrite Hruns; vm_compute; reflexivity|]. split; [vm_compute; reflexivity|].
  apply Hnone. vm_compute. repeat constructor.
Defined.

End Entities.
(** ** The edges of a graph, each once *)

Section Edges.
Import Nx NetworkAnalysis.

(** An edge is listed from the endpoint that comes first among the nodes. *)
Lemma edges_from_elem g : forall seen a b w,
  (a, b, w) ∈ edges_from seen g
  <-> exists i nbrs,
        g !! i = Some (a, nbrs) /\ (b, w) ∈ nbrs /\ (b ∉ seen)
        /\ forall j n nb, (j < i)%nat -> g !! j = Some (n, nb) -> n <> b.
Proof.
  induction g as [|[n nbrs] g IH]; intros seen a b w; cbn [edges_from].
  - split; [by intros ?%not_elem_of_nil | by intros (i & nb & ? & _)].
  - rewrite elem_of_app, IH. split.
    + intros [([nbr w'] & [= -> -> ->] & Hin)%list_elem_of_fmap
             |(i & nb & Hi & Hb & Hseen & Hbefore)].
      * apply list_elem_of_filter in Hin as [Hseen Hin].
        exists 0%nat, nbrs. split_and!; [done | done | done | intros; lia].
      * exists (S i), nb.
        split_and!; [done | done | intros ?; apply Hseen; by right |].
        intros [|j] n' nb' Hj Hn'.
        -- injection Hn' as <- <-. intros ->. apply Hseen. by left.
        -- apply (Hbefore j n' nb'); [lia | done].
    + intros ([|i] & nb & Hi & Hb & Hseen & Hbefore).
      * injection Hi as <- <-. left. apply list_elem_of_fmap. exists (b, w).
        split; [done|]. by apply list_elem_of_filter.
      * right. exists i, nb. split_and!; [done | done | |].
        -- assert (n <> b) as Hne by (by apply (Hbefore 0%nat n nbrs); [lia|]).
           by intros [->|?]%elem_of_cons.
        -- intros j n' nb' Hj Hn'. apply (Hbefore (S j) n' nb'); [lia | done].
Qed.

Lemma edges_from_source g : forall seen a b w,
  (a, b, w) ∈ edges_from seen g -> a ∈ nodes g.
Proof.
  intros seen a b w (i & nbrs & Hi & _)%edges_from_elem.
  apply list_elem_of_fmap. exists (a, nbrs). split; [done|].
  by apply list_elem_of_lookup_2 in Hi.
Qed.

(** Every neighbour dictionary has each neighbour once. *)
Lemma edges_from_NoDup g : forall seen,
  NoDup (nodes g) -> Forall (fun entry => NoDup (dict_keys entry.2)) g ->
  NoDup (edges_from seen g).
Proof.
  induction g as [|[n nbrs] g IH]; intros seen Hnodes Hnbrs; cbn [edges_from];
    [constructor|].
  apply NoDup_cons in Hnodes as [Hn Hnodes]. apply Forall_cons in Hnbrs as [Hnb Hnbrs].
  cbn [snd] in Hnb. apply NoDup_app. split_and!.
  - apply NoDup_fmap_2_strong.
    + intros [b1 w1] [b2 w2] _ _ [= -> ->]. done.
    + apply NoDup_filter. by apply (NoDup_fmap_1 fst).
  - intros [[a b] w] ([nbr w'] & [= -> -> ->] & _)%list_elem_of_fmap Hin.
    apply edges_from_source in Hin. done.
  - by apply IH.
Qed.

(** Setting an entry keeps a property all entries have. *)
Lemma dict_set_Forall {V} (P : pystr * V -> Prop) k v d :
  Forall P d -> P (k, v) -> Forall P (dict_set k v d).
Proof.
  intros Hd Hv. induction Hd as [|[k' v'] d Hk' Hd IH]; cbn [dict_set].
  - by repeat constructor.
  - destruct (decide (k' = k)) as [->|]; by constructor.
Qed.

Lemma neighbours_NoDup g a :
  Forall (fun entry => NoDup (dict_keys entry.2)) g -> NoDup (dict_keys (neighbours g a)).
Proof.
  intros Hg. unfold neighbours. destruct (dict_get a g) as [nbrs|] eqn:Ha; [|constructor].
  apply dict_get_elem in Ha. by apply (proj1 (Forall_forall _ _) Hg) in Ha.
Qed.

Lemma add_node_nbrs g n :
  Forall (fun entry => NoDup (dict_keys entry.2)) g ->
  Forall (fun entry => NoDup (dict_keys entry.2)) (add_node n g).
Proof.
  intros Hg. unfold add_node. destruct (dict_has n g); [done|].
  apply dict_set_Forall; [done | constructor].
Qed.

Lemma add_edge_nbrs g a b w :
  Forall (fun entry => NoDup (dict_keys entry.2)) g ->
  Forall (fun entry => NoDup (dict_keys entry.2)) (add_edge a b w g).
Proof.
  intros Hg. unfold add_edge. cbv zeta.
  assert (Forall (fun entry => NoDup (dict_keys entry.2))
            (dict_set a (dict_set b w (neighbours (add_node b (add_node a g)) a))
                      (add_node b (add_node a g)))) as Hfirst.
  { apply dict_set_Forall; [by do 2 apply add_node_nbrs |].
    cbn [snd]. apply dict_set_NoDup, neighbours_NoDup. by do 2 apply add_node_nbrs. }
  apply dict_set_Forall; [done|].
  cbn [snd]. by apply dict_set_NoDup, neighbours_NoDup.
Qed.

Lemma add_relationships_nbrs counts : forall g,
  Forall (fun entry => NoDup (dict_keys entry.2)) g ->
  Forall (fun entry => NoDup (dict_keys entry.2)) (add_relationships counts g).
Proof.
  unfold add_relationships.
  induction counts as [|[[s t] w] counts IH]; intros g Hg; cbn [foldl]; [done|].
  apply IH. cbn [add_relationship]. apply add_edge_nbrs. by do 2 apply add_node_nbrs.
Qed.

(** In a graph whose nodes and neighbours are listed once, the listed edges
    are edges. *)
Lemma edges_edge_weight g a b w :
  NoDup (nodes g) -> Forall (fun entry => NoDup (dict_keys entry.2)) g ->
  (a, b, w) ∈ edges g -> edge_weight g a b = Some w.
Proof.
  intros Hnodes Hnbrs (i & nbrs & Hi & Hb & _)%edges_from_elem.
  apply list_elem_of_lookup_2 in Hi as Hin. unfold edge_weight.
  rewrite (dict_elem_get a nbrs g Hnodes Hin). apply dict_elem_get; [|done].
  by apply (proj1 (Forall_forall _ _) Hnbrs) in Hin.
Qed.

(** Every edge of a symmetric graph is listed, from one of its ends. *)
Lemma edge_weight_edges g a b w :
  NoDup (nodes g) ->
  edge_weight g a b = Some w -> edge_weight g b a = Some w ->
  (a, b, w) ∈ edges g \/ (b, a, w) ∈ edges g.
Proof.
  intros Hnodes Hab Hba. unfold edge_weight in Hab, Hba.
  destruct (dict_get a g) as [nbrs_a|] eqn:Ha; [|done].
  destruct (dict_get b g) as [nbrs_b|] eqn:Hb; [|done].
  apply dict_get_elem in Ha, Hb, Hab, Hba.
  apply list_elem_of_lookup_1 in Ha as [i Hi], Hb as [j Hj].
  assert (forall k n nb, g !! k = Some (n, nb) -> nodes g !! k = Some n) as Hkey.
  { intros k n nb Hk. unfold nodes, dict_keys.
    change (map fst g) with (fst <$> g). rewrite list_lookup_fmap.
    unfold Graph in *. by rewrite Hk. }
  destruct (decide (i <= j)%nat) as [Hij|Hij]; [left|right];
    apply edges_from_elem.
  - exists i, nbrs_a. split_and!; [done | done | by intros ?%not_elem_of_nil |].
    intros k n nb Hk Hn ->.
    assert (k = j) by (apply (NoDup_lookup _ k j b Hnodes); eauto). lia.
  - exists j, nbrs_b. split_and!; [done | done | by intros ?%not_elem_of_nil |].
    intros k n nb Hk Hn ->.
    assert (k = i) by (apply (NoDup_lookup _ k i a Hnodes); eauto). lia.
Qed.

(** No edge between two different nodes is listed from both ends. *)
Lemma edges_one_direction g a b w w' :
  a <> b -> (a, b, w) ∈ edges g -> (b, a, w') ∈ edges g -> False.
Proof.
  intros Hne (i & nbrs_a & Hi & _ & _ & Hbefore_a)%edges_from_elem
             (j & nbrs_b & Hj & _ & _ & Hbefore_b)%edges_from_elem.
  destruct (Nat.lt_trichotomy i j) as [Hij|[->|Hij]].
  - by apply (Hbefore_b i a nbrs_a Hij Hi).
  - congruence.
  - by apply (Hbefore_a j b nbrs_b Hij Hj).
Qed.

End Edges.
(** ** [NetworkAnalysis.analyze_relationship_strength] and the JSON export *)

Section Strength.
Import Nx NetworkAnalysis.

Lemma built_graph_wf N texts :
  NoDup (nodes (graph (build_network N (init texts))))
  /\ Forall (fun entry => NoDup (dict_keys entry.2)) (graph (build_network N (init texts))).
Proof.
  split; [apply build_network_nodes|].
  unfold build_network. cbn [graph init]. apply add_relationships_nbrs. constructor.
Qed.

Lemma built_edge_symmetric N texts a b w :
  edge_weight (graph (build_network N (init texts))) a b = Some w ->
  edge_weight (graph (build_network N (init texts))) b a = Some w /\ a <> b.
Proof.
  intros (s & t & Hin & Hab)%built_edge_iff. split.
  - apply built_edge_iff. exists s, t. split; [done|].
    destruct Hab as [[= -> ->]|[= -> ->]]; auto.
  - pose proof (count_relationships_sorted (extract_relationships N (init texts)))
      as Hsorted.
    apply (proj1 (Forall_forall _ _) Hsorted) in Hin as [Hne _]. cbn [fst snd] in Hne.
    destruct Hab as [[= -> ->]|[= -> ->]]; done.
Qed.

(** The edges of the graph of a new object, each under its ordered key, are
    the counted pairs. *)
Lemma built_edges_counts N texts :
  map (fun x : pystr * pystr * Z => (ordered x.1.1 x.1.2, x.2))
      (edges (graph (build_network N (init texts))))
  ≡ₚ count_relationships (extract_relationships N (init texts)).
Proof.
  set (g := graph (build_network N (init texts))).
  set (counts := count_relationships (extract_relationships N (init texts))).
  destruct (built_graph_wf N texts) as [Hnodes Hnbrs]. fold g in Hnodes, Hnbrs.
  pose proof (count_relationships_sorted (extract_relationships N (init texts)))
    as Hsorted. fold counts in Hsorted.
  assert (forall a b w, (a, b, w) ∈ edges g ->
            exists s t, ((s, t), w) ∈ counts /\ ordered a b = (s, t) /\ a <> b) as Hedge.
  { intros a b w Hin. apply (edges_edge_weight g a b w Hnodes Hnbrs) in Hin.
    apply built_edge_symmetric in Hin as Hne. destruct Hne as [_ Hne].
    apply built_edge_iff in Hin as (s & t & Hin & Hab). exists s, t.
    split; [done|]. split; [|done].
    apply (proj1 (Forall_forall _ _) Hsorted) in Hin as [Hst Hgt]. cbn [fst snd] in Hst, Hgt.
    apply (ordered_iff s t (a, b) Hst Hgt). destruct Hab as [-> | ->]; auto. }
  apply NoDup_Permutation.
  - apply NoDup_fmap_2_strong; [|by apply edges_from_NoDup].
    intros [[a b] w] [[a' b'] w'] Hin Hin' [= Hord <-]. cbn [fst snd] in Hord.
    destruct (Hedge _ _ _ Hin) as (_ & _ & _ & _ & Hne).
    destruct (ordered_cases a b) as [H|H], (ordered_cases a' b') as [H'|H'];
      rewrite H, H' in Hord; injection Hord as <- <-; try done.
    + exfalso. by apply (edges_one_direction g a b w w Hne).
    + exfalso. by apply (edges_one_direction g a b w w Hne).
  - apply (NoDup_fmap_1 fst), count_relationships_NoDup.
  - intros [[s t] w]. split.
    + intros ([[a b] w'] & [= Hord ->] & Hin)%list_elem_of_fmap. cbn [fst snd] in Hord.
      destruct (Hedge _ _ _ Hin) as (s' & t' & Hcount & Hord' & _). congruence.
    + intros Hin.
      apply (proj1 (Forall_forall _ _) Hsorted) in Hin as Hkey.
      destruct Hkey as [Hst Hgt]. cbn [fst snd] in Hst, Hgt.
      assert (edge_weight g s t = Some w /\ edge_weight g t s = Some w) as [Hforth Hback]
        by (split; apply built_edge_iff; exists s, t; auto).
      apply list_elem_of_fmap.
      destruct (edge_weight_edges g s t w Hnodes Hforth Hback) as [Hedges|Hedges].
      * exists (s, t, w). split; [|done]. cbn [fst snd]. f_equal. symmetry.
        apply (ordered_iff s t (s, t) Hst Hgt). auto.
      * exists (t, s, w). split; [|done]. cbn [fst snd]. f_equal. symmetry.
        apply (ordered_iff s t (t, s) Hst Hgt). auto.
Qed.

(** NetworkX's count of the edges is the number of edges it lists. *)
Lemma built_edges_length N texts :
  Z.of_nat (length (edges (graph (build_network N (init texts)))))
  = number_of_edges (graph (build_network N (init texts))).
Proof.
  rewrite build_network_number_of_edges, <- (built_edges_counts N texts).
  by rewrite length_map.
Qed.

(** X15.  For a new object, [analyze_relationship_strength] builds the
    network and returns its edges by decreasing weight, edges of equal
    weight in the order in which NetworkX lists them: every triple returned
    is an edge with its weight, every edge is returned exactly once, from
    one of its two ends, and there are as many triples as [analyze_network]
    counts edges; so the first triple is a strongest relationship. *)
Theorem relationship_strength_order (N : nlp) (texts : list pystr) :
  let g := graph (build_network N (init texts)) in
  exists strengths,
    analyze_relationship_strength N (init texts)
    = (strengths, build_network N (init texts))
    /\ decreasing (fun x => x.2) strengths
    /\ strengths ≡ₚ edges g
    /\ Z.of_nat (length strengths) = number_of_edges g
    /\ (forall a b w, (a, b, w) ∈ strengths -> edge_weight g a b = Some w)
    /\ (forall a b w,
          edge_weight g a b = Some w -> (a, b, w) ∈ strengths \/ (b, a, w) ∈ strengths)
    /\ (forall a b w w', (a, b, w) ∈ strengths -> (b, a, w') ∈ strengths -> False)
    /\ (forall first a b w,
          strengths !! 0%nat = Some first -> edge_weight g a b = Some w -> w <= first.2)
    /\ (forall i j x y,
          (i < j)%nat -> strengths !! i = Some x -> strengths !! j = Some y ->
          x.2 = y.2 -> exists l1 l2 l3, edges g = l1 ++ x :: l2 ++ y :: l3).
Proof.
  intros g. destruct (built_graph_wf N texts) as [Hnodes Hnbrs]. fold g in Hnodes, Hnbrs.
  exists (sort_reverse (fun x => x.2) (edges g)).
  pose proof (sort_reverse_perm (fun x : pystr * pystr * Z => x.2) (edges g)) as Hperm.
  pose proof (sort_reverse_decreasing (fun x : pystr * pystr * Z => x.2) (edges g))
    as Hdecreasing.
  assert (forall a b w,
            edge_weight g a b = Some w ->
            (a, b, w) ∈ sort_reverse (fun x => x.2) (edges g)
            \/ (b, a, w) ∈ sort_reverse (fun x => x.2) (edges g)) as Hall.
  { intros a b w Hedge. rewrite !Hperm.
    apply built_edge_symmetric in Hedge as Hback. destruct Hback as [Hback _].
    by apply edge_weight_edges. }
  split_and!.
  - reflexivity.
  - exact Hdecreasing.
  - exact Hperm.
  - rewrite Hperm. apply built_edges_length.
  - intros a b w Hin. rewrite Hperm in Hin. by apply edges_edge_weight.
  - exact Hall.
  - intros a b w w' Hin Hin'. rewrite Hperm in Hin, Hin'.
    apply (edges_edge_weight g a b w Hnodes Hnbrs) in Hin as Hedge.
    apply built_edge_symmetric in Hedge as [_ Hne].
    by apply (edges_one_direction g a b w w' Hne).
  - intros first a b w Hfirst Hedge.
    assert (exists x, x ∈ sort_reverse (fun x => x.2) (edges g) /\ x.2 = w)
      as (x & (j & Hj)%list_elem_of_lookup_1 & <-)
      by (destruct (Hall a b w Hedge); eexists; eauto).
    destruct j as [|j]; [by rewrite Hfirst in Hj; injection Hj as <-|].
    apply (decreasing_lookup (fun x => x.2) _ 0%nat (S j) first x Hdecreasing);
      [lia | done | done].
  - intros i j x y Hij Hx Hy Hsame.
    apply (sort_reverse_ties (fun x => x.2) (edges g) i j x y); try done.
    by apply edges_from_NoDup.
Qed.

(** The two letters: Ada and Charles Babbage are named together twice, and
    no two people more often. *)
Lemma relationship_strength_order_witness :
  exists strengths,
    analyze_relationship_strength Demo.demo_nlp (init Demo.letters)
    = (strengths, build_network Demo.demo_nlp (init Demo.letters))
    /\ strengths = [ (u "Ada", u "Charles Babbage", 2); (u "Ada", u "London", 1);
                     (u "Charles Babbage", u "London", 1) ]
    /\ forall a b w,
         edge_weight (graph (build_network Demo.demo_nlp (init Demo.letters))) a b = Some w ->
         w <= 2.
Proof.
  destruct (relationship_strength_order Demo.demo_nlp Demo.letters)
    as (strengths & Hrun & _ & _ & _ & _ & _ & _ & Hfirst & _).
  exists strengths. split; [exact Hrun|].
  assert (strengths = [ (u "Ada", u "Charles Babbage", 2); (u "Ada", u "London", 1);
                        (u "Charles Babbage", u "London", 1) ]) as Hvalue.
  { pose proof Hrun as Hcomputed. vm_compute in Hcomputed.
    injection Hcomputed as <-. vm_compute. reflexivity. }
  split; [exact Hvalue|]. intros a b w Hedge.
  apply (Hfirst (u "Ada", u "Charles Babbage", 2) a b w); [by rewrite Hvalue | exact Hedge].
Defined.

Lemma json_is_not_graphml : u "json" <> u "graphml".
Proof. by vm_compute. Qed.

Lemma json_is_not_gexf : u "json" <> u "gexf".
Proof. by vm_compute. Qed.

Lemma json_is_not_gml : u "json" <> u "gml".
Proof. by vm_compute. Qed.

(** X16.  Exporting a new object as JSON builds the network and, when the
    file can be opened, writes one file and prints nothing: the file lists
    every node once under ["nodes"] and has one link for every edge under
    ["links"], each with the two ends and the weight of an edge of the
    graph, as many nodes and links as [analyze_network] counts nodes and
    edges.  When the file cannot be opened the exception reaches the caller
    and nothing is written. *)
Theorem export_network_json (A : algorithms) (N : nlp) (E : os_env) (texts : list pystr)
    (file_path : pystr) (w : world) :
  let s := build_network N (init texts) in
  match open_write E file_path with
  | Some e =>
    export_network A N E (init texts) file_path (u "json") w = (Raise e, w)
  | None =>
    exists nodes_json links_json,
      export_network A N E (init texts) file_path (u "json") w
      = (Ret s,
         World (clock w)
           (trace w ++ [EWrite file_path
                          (VDict [ (u "nodes", VList nodes_json);
                                   (u "links", VList links_json) ])]))
      /\ nodes_json = map (fun node => VDict [ (u "id", VStr node) ]) (nodes (graph s))
      /\ NoDup (nodes (graph s))
      /\ Z.of_nat (length nodes_json) = number_of_nodes (graph s)
      /\ Z.of_nat (length links_json) = number_of_edges (graph s)
      /\ forall link,
           link ∈ links_json ->
           exists a b weight,
             link = VDict [ (u "source", VStr a); (u "target", VStr b);
                            (u "weight", VInt weight) ]
             /\ edge_weight (graph s) a b = Some weight
  end.
Proof.
  intros s. unfold export_network.
  change (ensure_network N (init texts)) with s.
  rewrite (decide_False (P := u "json" = u "graphml")) by apply json_is_not_graphml.
  rewrite (decide_False (P := u "json" = u "gexf")) by apply json_is_not_gexf.
  rewrite (decide_False (P := u "json" = u "gml")) by apply json_is_not_gml.
  rewrite (decide_True (P := u "json" = u "json")) by done.
  cbv zeta. unfold io_bind, attempt.
  destruct (open_write E file_path) as [e|]; [done|].
  destruct (built_graph_wf N texts) as [Hnodes Hnbrs].
  cbn [emit io_ret]. eexists _, _. split; [reflexivity|].
  split_and!.
  - reflexivity.
  - exact Hnodes.
  - by rewrite length_map.
  - rewrite length_map. apply built_edges_length.
  - intros link ([[a b] weight] & -> & Hin)%list_elem_of_fmap.
    exists a, b, weight. split; [done|]. by apply edges_edge_weight.
Qed.

End Strength.
(** ** [CulturalAnalyzer]: loading, errors and sentiments *)

Section Cultural.
Import CulturalAnalyzer.

Lemma printed_snoc t ev :
  printed (t ++ [ev])
  = printed t ++ match ev with EPrint line => [line] | _ => [] end.
Proof. unfold printed. rewrite omap_app. by destruct ev. Qed.

Lemma load_data_outcome R file_path w :
  _load_data R file_path w
  = match (if endswith file_path (u ".csv") then read_csv R file_path
           else if endswith file_path (u ".json") then read_json R file_path
           else if endswith file_path (u ".xlsx") then read_excel R file_path
           else Raise (Exn Exception_ (u "不支持的文件格式: " ++ file_path))) with
    | Ret frame => (Ret frame, w)
    | Raise e =>
      (Ret no_data, World (clock w) (trace w ++ [EPrint (u "加载数据时出错: " ++ exn_msg e)]))
    end.
Proof.
  unfold _load_data, try_except.
  destruct (endswith file_path (u ".csv")); [by destruct (read_csv R file_path)|].
  destruct (endswith file_path (u ".json")); [by destruct (read_json R file_path)|].
  destruct (endswith file_path (u ".xlsx")); [by destruct (read_excel R file_path)|].
  reflexivity.
Qed.

(** X17.  Constructing a [CulturalAnalyzer] never raises.  From a path that
    ends in none of [.csv], [.json] and [.xlsx], or whose reader raises, it
    prints one line and holds an empty frame, so that afterwards every
    analysis answers with the error ["数据为空"] and [network_analysis] with
    [None]; from a path whose reader returns a frame, and from a frame, it
    holds that frame and prints nothing.  The extension [.csv] is tried
    first, then [.json], then [.xlsx]. *)
Theorem load_data_never_raises (R : readers) (data : DataFrame + pystr) (w : world) :
  exists frame w',
    init R data w = (Ret frame, w')
    /\ clock w' = clock w
    /\ writes (trace w') = writes (trace w)
    /\ match data with
       | inl given => frame = given /\ w' = w
       | inr file_path =>
         let reading :=
           if endswith file_path (u ".csv") then Some (read_csv R file_path)
           else if endswith file_path (u ".json") then Some (read_json R file_path)
           else if endswith file_path (u ".xlsx") then Some (read_excel R file_path)
           else None in
         match reading with
         | Some (Ret read) => frame = read /\ w' = w
         | Some (Raise e) =>
           frame = no_data
           /\ printed (trace w') = printed (trace w) ++ [u "加载数据时出错: " ++ exn_msg e]
         | None =>
           frame = no_data
           /\ printed (trace w')
              = printed (trace w)
                ++ [u "加载数据时出错: " ++ u "不支持的文件格式: " ++ file_path]
         end
       end
    /\ (frame = no_data ->
        forall L,
          descriptive_statistics L frame = Value (error (u "数据为空"))
          /\ correlation_analysis L frame = Value (error (u "数据为空"))
          /\ (forall n, cluster_analysis L frame n = Value (error (u "数据为空")))
          /\ (forall time_col value_col,
                time_series_analysis L frame time_col value_col
                = (Value (error (u "数据为空")), frame))
          /\ (forall lat_col lon_col value_col,
                geographic_analysis L frame lat_col lon_col value_col
                = Value (error (u "数据为空")))
          /\ (forall text_col,
                sentiment_analysis L frame text_col = Value (error (u "数据为空")))
          /\ (forall node_col edge_col w0,
                network_analysis L frame node_col edge_col w0 = (Ret (Value VNone), w0))).
Proof.
  assert (forall frame, frame = no_data ->
            forall L,
              descriptive_statistics L frame = Value (error (u "数据为空"))
              /\ correlation_analysis L frame = Value (error (u "数据为空"))
              /\ (forall n, cluster_analysis L frame n = Value (error (u "数据为空")))
              /\ (forall time_col value_col,
                    time_series_analysis L frame time_col value_col
                    = (Value (error (u "数据为空")), frame))
              /\ (forall lat_col lon_col value_col,
                    geographic_analysis L frame lat_col lon_col value_col
                    = Value (error (u "数据为空")))
              /\ (forall text_col,
                    sentiment_analysis L frame text_col = Value (error (u "数据为空")))
              /\ (forall node_col edge_col w0,
                    network_analysis L frame node_col edge_col w0
                    = (Ret (Value VNone), w0))) as Hempty.
  { intros frame -> L. split_and!; reflexivity. }
  destruct data as [given|file_path]; cbn [init].
  - exists given, w. split_and!; first [apply Hempty | done].
  - rewrite load_data_outcome. cbv zeta.
    destruct (endswith file_path (u ".csv")).
    { destruct (read_csv R file_path) as [read|e]; eexists _, _;
        (split; [reflexivity|]); cbn [clock trace];
        rewrite ?writes_snoc, ?printed_snoc, ?app_nil_r;
        split_and!; first [apply Hempty | done]. }
    destruct (endswith file_path (u ".json")).
    { destruct (read_json R file_path) as [read|e]; eexists _, _;
        (split; [reflexivity|]); cbn [clock trace];
        rewrite ?writes_snoc, ?printed_snoc, ?app_nil_r;
        split_and!; first [apply Hempty | done]. }
    destruct (endswith file_path (u ".xlsx")).
    { destruct (read_excel R file_path) as [read|e]; eexists _, _;
        (split; [reflexivity|]); cbn [clock trace];
        rewrite ?writes_snoc, ?printed_snoc, ?app_nil_r;
        split_and!; first [apply Hempty | done]. }
    eexists _, _. split; [reflexivity|]. cbn [clock trace].
    rewrite writes_snoc, printed_snoc, app_nil_r. cbn [exn_msg].
    split_and!; first [apply Hempty | done].
Qed.


Lemma success_is_no_error {L} (d : pydict) :
  dict_has (u "error") d = false -> ~ @returns_error L (Value (VDict d)).
Proof. intros Hd (v & [= <-] & d' & [= <-] & Herr). congruence. Qed.

(** X19.  The analyses report an error only for the inputs they check: an
    empty frame; fewer than two numeric columns (correlation, clusters); no
    row left without missing values (clusters); a missing time, value,
    latitude, longitude or text column; a time column that cannot be
    converted.  In every other case the dictionary returned has no
    ["error"] entry.  A failed time-series analysis leaves the data as they
    were. *)
Theorem cultural_analyzer_errors_exactly (L : library) (data : DataFrame) :
  (returns_error (descriptive_statistics L data) <-> empty data = true)
  /\ (returns_error (correlation_analysis L data)
      <-> empty data = true \/ (length (numeric_columns data) < 2)%nat)
  /\ (forall n_clusters,
        returns_error (cluster_analysis L data n_clusters)
        <-> empty data = true \/ (length (numeric_columns data) < 2)%nat
            \/ empty (dropna L data (numeric_columns data)) = true)
  /\ (forall time_col value_col,
        returns_error (time_series_analysis L data time_col value_col).1
        <-> empty data = true \/ has_column data time_col = false
            \/ has_column data value_col = false
            \/ exists e, to_datetime L data time_col = Raise e)
  /\ (forall time_col value_col,
        returns_error (time_series_analysis L data time_col value_col).1 ->
        (time_series_analysis L data time_col value_col).2 = data)
  /\ (forall lat_col lon_col value_col,
        returns_error (geographic_analysis L data lat_col lon_col value_col)
        <-> empty data = true \/ has_column data lat_col = false
            \/ has_column data lon_col = false)
  /\ (forall text_col,
        returns_error (sentiment_analysis L data text_col)
        <-> empty data = true \/ has_column data text_col = false).
Proof.
  split_and!.
  - unfold descriptive_statistics. destruct (empty data).
    + split; [done | intros _; apply error_is_error].
    + split; [|done]. intros Herr. by apply success_is_no_error in Herr.
  - unfold correlation_analysis. destruct (empty data).
    { split; [auto | intros _; apply error_is_error]. }
    destruct (decide (length (numeric_columns data) < 2)%nat).
    + split; [auto | intros _; apply error_is_error].
    + split; [|by intros [?|?]]. intros Herr. by apply success_is_no_error in Herr.
  - intros n_clusters. unfold cluster_analysis. destruct (empty data).
    { split; [auto | intros _; apply error_is_error]. }
    destruct (decide (length (numeric_columns data) < 2)%nat).
    { split; [auto | intros _; apply error_is_error]. }
    cbv zeta. destruct (empty (dropna L data (numeric_columns data))).
    + split; [auto | intros _; apply error_is_error].
    + split; [|by intros [?|[?|?]]]. intros Herr. by apply success_is_no_error in Herr.
  - intros time_col value_col. unfold time_series_analysis. destruct (empty data).
    { split; [auto | intros _; apply error_is_error]. }
    destruct (has_column data time_col); cbn [negb orb].
    2:{ split; [auto | intros _; apply error_is_error]. }
    destruct (has_column data value_col); cbn [negb orb].
    2:{ split; [auto | intros _; apply error_is_error]. }
    destruct (to_datetime L data time_col) as [converted|e]; cbn [fst].
    + split; [|by intros [?|[?|[?|[e ?]]]]].
      intros Herr. by apply success_is_no_error in Herr.
    + split; [|intros _; apply error_is_error]. intros _. do 3 right. by exists e.
  - intros time_col value_col. unfold time_series_analysis. destruct (empty data); [done|].
    destruct (negb (has_column data time_col) || negb (has_column data value_col));
      [done|].
    destruct (to_datetime L data time_col) as [converted|e]; cbn [fst snd]; [|done].
    intros Herr. by apply success_is_no_error in Herr.
  - intros lat_col lon_col value_col. unfold geographic_analysis. destruct (empty data).
    { split; [auto | intros _; apply error_is_error]. }
    destruct (has_column data lat_col); cbn [negb orb].
    2:{ split; [auto | intros _; apply error_is_error]. }
    destruct (has_column data lon_col); cbn [negb orb].
    2:{ split; [auto | intros _; apply error_is_error]. }
    split; [|by intros [?|[?|?]]]. intros Herr. exfalso.
    destruct value_col as [col|]; [destruct (truthy (VStr col) && has_column data col)|];
      by apply success_is_no_error in Herr.
  - intros text_col. unfold sentiment_analysis. destruct (empty data).
    { split; [auto | intros _; apply error_is_error]. }
    destruct (has_column data text_col); cbn [negb].
    + split; [|by intros [?|?]]. intros Herr. by apply success_is_no_error in Herr.
    + split; [auto | intros _; apply error_is_error].
Qed.

End Cultural.
(** ** [CulturalAnalyzer.sentiment_analysis] *)

Section Sentiments.
Import CulturalAnalyzer.










End Sentiments.
(** ** [ImageAnalyzer]: the methods beside [analyze] *)

Section ImageMethods.
Import ImageAnalyzer.

(** X21.  An analyzer made for a file that cannot be read answers every
    method without raising: the constructor prints one line and leaves the
    image unset; afterwards [analyze] returns the error dictionary,
    [enhance], [style_transfer], [segment_image] and [extract_features]
    return [None] and [detect_faces] the empty list, and none of them
    prints or calls the libraries. *)
Theorem unloaded_analyzer_answers (C : opencv) (T : toolkit C) (path : pystr) (w : world) :
  imread C path = None ->
  exists s w',
    init C path w = (Ret s, w')
    /\ image_ s = None
    /\ printed (trace w')
       = printed (trace w) ++ [u "加载图像时出错: " ++ u "无法加载图像: " ++ path]
    /\ (forall w0,
          analyze C s w0 = (Ret [ (u "error", VStr (u "图像未加载")) ], w0))
    /\ (forall brightness contrast saturation,
          enhance T s brightness contrast saturation = None)
    /\ (forall style, style_transfer T s style = Ret None)
    /\ (forall w0, detect_faces T s w0 = (Ret [], w0))
    /\ segment_image T s = Ret None
    /\ (forall w0, extract_features T s w0 = (Ret VNone, w0)).
Proof.
  intros Hread. unfold init, load_image, try_except. cbn [image_path]. rewrite Hread.
  cbn [io_raise io_bind print emit io_ret]. unfold io_bind. cbn [print emit io_ret].
  eexists _, _. split; [reflexivity|]. cbn [image_ trace exn_msg gray_image].
  rewrite printed_snoc. split_and!; done.
Qed.

Lemma unloaded_analyzer_answers_witness :
  exists s w',
    init Demo.demo_opencv (u "lost.png") Demo.fresh_world = (Ret s, w')
    /\ image_ s = None
    /\ detect_faces Demo.demo_toolkit s w' = (Ret [], w')
    /\ extract_features Demo.demo_toolkit s w' = (Ret VNone, w')
    /\ style_transfer Demo.demo_toolkit s (u "sketch") = Ret None.
Proof.
  destruct (unloaded_analyzer_answers Demo.demo_opencv Demo.demo_toolkit (u "lost.png")
              Demo.fresh_world eq_refl)
    as (s & w' & Hinit & Himage & _ & _ & _ & Hstyle & Hfaces & _ & Hfeatures).
  exists s, w'. split_and!; [exact Hinit | exact Himage | apply Hfaces | apply Hfeatures
                            | apply Hstyle].
Defined.

(** X22.  On a loaded analyzer the methods that guard their library calls
    never raise: [detect_faces] returns one dictionary per rectangle the
    detector finds, in order, with the keys [x], [y], [width] and [height],
    or the empty list and one printed line when the detector raises;
    [extract_features] returns the descriptor, or [None] and one printed
    line when it raises; [analyze] answers a failing texture analysis with
    zeros for the five features and one printed line.  [style_transfer]
    treats a style it does not know as no style: the picture of the image
    itself comes back. *)
Theorem loaded_analyzer_guards (C : opencv) (T : toolkit C) (s : self C)
    (img gray : image C) (w : world) :
  image_ s = Some img ->
  gray_image s = Some gray ->
  (exists faces w',
     detect_faces T s w = (Ret faces, w')
     /\ writes (trace w') = writes (trace w)
     /\ match detectMultiScale T gray with
        | Ret rectangles =>
          faces = map face_box rectangles /\ w' = w
          /\ Forall (fun face => exists d, face = VDict d
                                /\ dict_keys d = [u "x"; u "y"; u "width"; u "height"])
                    faces
        | Raise e =>
          faces = [] /\ printed (trace w') = printed (trace w) ++ [u "人脸检测出错: " ++ exn_msg e]
        end)
  /\ (exists features w',
        extract_features T s w = (Ret features, w')
        /\ writes (trace w') = writes (trace w)
        /\ match hog T gray with
           | Ret descriptor => features = descriptor /\ w' = w
           | Raise e =>
             features = VNone
             /\ printed (trace w') = printed (trace w) ++ [u "特征提取出错: " ++ exn_msg e]
           end)
  /\ (exists analysis w',
        analyze C s w = (Ret analysis, w')
        /\ dict_keys analysis
           = [ u "color_distribution"; u "edge_density"; u "texture_features";
               u "composition"; u "brightness"; u "contrast"; u "entropy" ]
        /\ match glcm_features C gray with
           | Ret features =>
             dict_get (u "texture_features") analysis = Some (VDict (texture_dict features))
             /\ w' = w
           | Raise e =>
             dict_get (u "texture_features") analysis
             = Some (VDict (texture_dict (0.0, 0.0, 0.0, 0.0, 0.0)%float))
             /\ printed (trace w') = printed (trace w) ++ [u "纹理分析出错: " ++ exn_msg e]
           end)
  /\ (forall style,
        style <> u "impressionist" -> style <> u "sketch" ->
        style <> u "oil_painting" -> style <> u "watercolor" ->
        style_transfer T s style = Ret (Some (fromarray T img))).
Proof.
  intros Himg Hgray. split_and!.
  - unfold detect_faces, try_except, io_bind, io_lift. rewrite Himg, Hgray.
    destruct (detectMultiScale T gray) as [rectangles|e]; cbn [print emit io_ret];
      eexists _, _; (split; [reflexivity|]); cbn [trace].
    + split; [done|]. split_and!; [done | done |].
      apply Forall_forall. intros face ([[[x y] width] height] & -> & _)%list_elem_of_fmap.
      by eexists.
    + rewrite writes_snoc, printed_snoc, app_nil_r. done.
  - unfold extract_features, try_except, io_bind, io_lift. rewrite Himg, Hgray.
    destruct (hog T gray) as [descriptor|e]; cbn [print emit io_ret];
      eexists _, _; (split; [reflexivity|]); cbn [trace].
    + done.
    + rewrite writes_snoc, printed_snoc, app_nil_r. done.
  - unfold analyze, _analyze_texture, try_except, io_bind, io_lift. rewrite Himg, Hgray.
    destruct (glcm_features C gray) as [features|e]; cbn [print emit io_ret];
      eexists _, _; (split; [reflexivity|]); cbn [trace].
    + split_and!; [reflexivity | vm_compute; reflexivity | done].
    + rewrite printed_snoc.
      split_and!; [reflexivity | vm_compute; reflexivity | done].
  - intros style H1 H2 H3 H4. unfold style_transfer. rewrite Himg.
    by rewrite !decide_False.
Qed.

(** The picture that loads: the toy detector finds one face, the toy
    descriptor and the toy texture analysis fail. *)
Lemma loaded_analyzer_guards_witness :
  exists s,
    init Demo.demo_opencv (u "art.png") Demo.fresh_world = (Ret s, Demo.fresh_world)
    /\ detect_faces Demo.demo_toolkit s Demo.fresh_world
       = (Ret [ VDict [ (u "x", VInt 10); (u "y", VInt 20); (u "width", VInt 30);
                        (u "height", VInt 40) ] ], Demo.fresh_world)
    /\ (exists w', extract_features Demo.demo_toolkit s Demo.fresh_world = (Ret VNone, w'))
    /\ style_transfer Demo.demo_toolkit s (u "cubist") = Ret (Some tt).
Proof.
  exists (@Self Demo.demo_opencv (u "art.png") (Some tt) (Some tt)).
  destruct (loaded_analyzer_guards Demo.demo_opencv Demo.demo_toolkit
              (@Self Demo.demo_opencv (u "art.png") (Some tt) (Some tt)) tt tt
              Demo.fresh_world eq_refl eq_refl)
    as ((faces & w1 & Hfaces & _ & Hvalue) & (features & w2 & Hfeatures & _ & Hnone)
        & _ & Hstyle).
  vm_compute in Hvalue, Hnone. destruct Hvalue as (-> & -> & _), Hnone as (-> & _).
  split_and!; [reflexivity | exact Hfaces | by exists w2 |].
  apply Hstyle; by vm_compute.
Defined.

End ImageMethods.
(** ** [identify_needs] on descriptions that are lists or dictionaries, and
    [validate_data] *)

Section Descriptions.
Import DigitalHumanities.

Lemma found_in_spec description k : found_in description k = true <-> found description k.
Proof.
  destruct description as [| | | |d|l|d]; cbn [found_in found]; try (split; [discriminate|done]).
  - apply str_in_spec.
  - rewrite existsb_exists. split.
    + intros (v & Hin & Hv). destruct v; try discriminate Hv. cbn in Hv.
      apply bool_decide_eq_true in Hv as ->. by apply list_elem_of_In.
    + intros Hin. exists (VStr k). split; [by apply list_elem_of_In|].
      cbn. by apply bool_decide_eq_true.
  - apply dict_has_keys.
Qed.

Lemma names_spec description entry :
  existsb (found_in description) entry.2 = true <-> names description entry.
Proof.
  unfold names. rewrite existsb_exists. split.
  - intros (k & Hk & Hfound). exists k.
    split; [by apply list_elem_of_In | by apply found_in_spec].
  - intros (k & Hk & Hfound). exists k.
    split; [by apply list_elem_of_In | by apply found_in_spec].
Qed.

Lemma find_first_prop {A} (f : A -> bool) (P : A -> Prop) l :
  (forall x, f x = true <-> P x) ->
  match find f l with
  | Some e => exists before after, l = before ++ e :: after
                                   /\ Forall (fun x => ~ P x) before /\ P e
  | None => Forall (fun x => ~ P x) l
  end.
Proof.
  intros Hf. induction l as [|e l IH]; cbn [find]; [constructor|].
  destruct (f e) eqn:He.
  - exists [], l. split_and!; [done | constructor | by apply Hf].
  - assert (~ P e) as Hne by (rewrite <- Hf, He; done).
    destruct (find f l) as [e'|].
    + destruct IH as (before & after & -> & Hbefore & He').
      exists (e :: before), after. split_and!; [done | by constructor | done].
    + by constructor.
Qed.

Lemma first_unique {A} (P : A -> Prop) (before before' : list A) e e' after after' :
  before ++ e :: after = before' ++ e' :: after' ->
  Forall (fun x => ~ P x) before -> P e ->
  Forall (fun x => ~ P x) before' -> P e' ->
  e = e'.
Proof.
  revert before'.
  induction before as [|x before IH]; intros [|x' before'] Heq Hb He Hb' He';
    cbn [app] in Heq.
  - congruence.
  - injection Heq as -> _. by apply Forall_cons in Hb' as [? _].
  - injection Heq as -> _. by apply Forall_cons in Hb as [? _].
  - injection Heq as -> Heq.
    apply Forall_cons in Hb as [_ Hb]. apply Forall_cons in Hb' as [_ Hb'].
    by apply (IH before').
Qed.

(** X23.  A description need not be a string.  For a request without data
    keys whose description is a string, a list or a dictionary,
    [identify_needs] takes the first skill of the knowledge base one of
    whose keywords is found in the description, where a keyword is found in
    a list only as a whole item and in a dictionary only as a key; the
    confidence is then [0.7] and the data the whole request.  When no
    keyword is found the request type stays ["unknown"]. *)
Theorem identify_needs_by_description (request : pydict) (description : pyval) :
  Forall (fun key => dict_has key request = false) data_keys ->
  dict_get (u "description") request = Some description ->
  iterable description = true ->
  exists needs,
    identify_needs request = Ret needs
    /\ (forall before skill keywords after,
          knowledge_base_keywords = before ++ (skill, keywords) :: after ->
          Forall (fun e => ~ names description e) before ->
          names description (skill, keywords) ->
          needs = keyword_needs skill request)
    /\ (Forall (fun e => ~ names description e) knowledge_base_keywords ->
        needs = initial_needs).
Proof.
  intros Hkeys Hdescription Hiterable.
  rewrite identify_needs_closed_form.
  rewrite (proj2 (find_data_key_none request) Hkeys), Hdescription, Hiterable.
  eexists. split; [reflexivity|].
  pose proof (find_first_prop (fun e => existsb (found_in description) e.2)
                (names description) knowledge_base_keywords (names_spec description))
    as Hfind.
  destruct (find _ knowledge_base_keywords) as [[skill' keywords']|].
  - destruct Hfind as (before' & after' & Hkb' & Hbefore' & Hentry'). split.
    + intros before skill keywords after Hkb Hbefore Hentry. rewrite Hkb' in Hkb.
      assert ((skill', keywords') = (skill, keywords)) as [= -> ->]
        by (eapply (first_unique (names description)); eauto).
      done.
    + intros Hnone. rewrite Hkb' in Hnone.
      apply Forall_app in Hnone as [_ [Hnone _]%Forall_cons]. done.
  - split; [|done].
    intros before skill keywords after Hkb Hbefore Hentry.
    rewrite Hkb in Hfind. apply Forall_app in Hfind as [_ [Hnone _]%Forall_cons]. done.
Qed.

(** The words of [Demo.heritage_request] as a list of two items: no keyword
    is the item 文化遗产, and 保护 is a keyword of the seventh skill only. *)
Lemma identify_needs_by_description_witness :
  identify_needs [ (u "description", VList [VStr (u "文化遗产"); VStr (u "保护")]) ]
  = Ret (keyword_needs (u "cultural_heritage")
           [ (u "description", VList [VStr (u "文化遗产"); VStr (u "保护")]) ]).
Proof.
  destruct (identify_needs_by_description
              [ (u "description", VList [VStr (u "文化遗产"); VStr (u "保护")]) ]
              (VList [VStr (u "文化遗产"); VStr (u "保护")]))
    as (needs & -> & Hfirst & _);
    [repeat constructor | reflexivity | reflexivity |].
  f_equal.
  apply (Hfirst (take 6 knowledge_base_keywords) _
                [u "遗产"; u "保护"; u "传承"; u "建档"; u "重建"]
                (drop 7 knowledge_base_keywords)).
  - reflexivity.
  - repeat constructor; rewrite <- names_spec; vm_compute; discriminate.
  - apply names_spec. vm_compute. reflexivity.
Defined.

(** X24.  [validate_data] calls invalid nothing but [None], for which it
    reports the issue 数据为空 and the size zero.  Any other value is valid:
    its size is the length of its text, and a text of fewer than ten
    characters, the empty string included, adds the issue 数据长度过短
    without making the value invalid. *)
Theorem validate_data_only_none (repr : pyval -> pystr) (data data_type : pyval) :
  let validation := validate_data repr data data_type in
  dict_keys validation = [u "valid"; u "issues"; u "data_type"; u "data_size"]
  /\ dict_get (u "data_type") validation = Some data_type
  /\ (dict_get (u "valid") validation = Some (VBool false) <-> data = VNone)
  /\ (data = VNone ->
      dict_get (u "issues") validation = Some (VList [VStr (u "数据为空")])
      /\ dict_get (u "data_size") validation = Some (VInt 0))
  /\ (data <> VNone ->
      let size := Z.of_nat (length (py_str repr data)) in
      dict_get (u "valid") validation = Some (VBool true)
      /\ dict_get (u "data_size") validation = Some (VInt size)
      /\ dict_get (u "issues") validation
         = Some (VList (if size <? 10 then [VStr (u "数据长度过短")] else [])))
  /\ (forall s, data = VStr s -> py_str repr data = s).
Proof.
  intros validation. unfold validation, validate_data.
  destruct data as [|b|z|f|s|l|d]; cbv zeta;
    try (match goal with |- context [?size <? 10] => destruct (size <? 10) end);
    (split_and!;
     [ reflexivity | vm_compute; reflexivity
     | split; [try (vm_compute; discriminate); done | try discriminate; done]
     | intros H; first [discriminate H | split; vm_compute; reflexivity]
     | intros H; first [done | cbv zeta; split_and!; vm_compute; reflexivity]
     | intros s0 H; first [discriminate H | by injection H as ->] ]).
Qed.

End Descriptions.
